(** * DOCX template filler: a shallow embedding of [src/docx_filler.py]

    The development follows the Python module function by function:
    - [Py]: the builtins of Python the module calls on strings and lists
      ([in], [find], slices, indexing, [join], [startswith]);
    - the values a YAML profile holds, Python dicts in insertion order,
      and [_build_replacements];
    - the part of the python-docx object model the module reads and
      writes (the children of a paragraph, runs, fonts, hyperlinks, the
      properties block) and [_add_hyperlink], [_replace_in_paragraph],
      [fill_template];
    - the vocabulary of the properties and the sample inputs;
    - the properties of the specification, claim by claim, each after
      the lemmas it rests on;
    - further properties of the flattener (lists, dates, skills, the
      keys of the map, what it asks of the profile) and of the engine
      (the anatomy of a pass, fonts, hyperlinks, tokens across runs,
      the document as a whole).

    A Python [str] is a [string]: a sequence of characters, one [ascii]
    per character (a character outside ASCII is its UTF-8 bytes, which
    keeps substring search and comparison what they are on code points).
    A call that mutates a paragraph is a function from the paragraph to
    the paragraph it leaves and the way it leaves, [Returned] or
    [Raised]. *)

From Stdlib Require Import ZArith List String Ascii Bool Lia DecimalString DecimalNat.
Import ListNotations.

Open Scope string_scope.
Open Scope list_scope.
Open Scope Z_scope.

(* ================================================================== *)
(** * Python builtins *)

Module Py.

(** Exceptions the module can meet. *)
Inductive exn : Type :=
| AttributeError
| TypeError
| IndexError
| ValueError.

(** A computation that returns or raises. *)
Inductive result (A : Type) : Type :=
| Ok (a : A)
| Raise (e : exn).
Arguments Ok {A} a.
Arguments Raise {A} e.

Definition bind {A B} (m : result A) (k : A -> result B) : result B :=
  match m with
  | Ok a => k a
  | Raise e => Raise e
  end.

(** [len(s)] *)
Definition len (s : string) : Z := Z.of_nat (String.length s).

(** [s.startswith(p)] *)
Definition startswith (s p : string) : bool := String.prefix p s.

(** [needle in hay] on strings. *)
Fixpoint contains (hay needle : string) : bool :=
  String.prefix needle hay ||
  match hay with
  | EmptyString => false
  | String _ rest => contains rest needle
  end.

(** [hay.find(needle)]: the lowest index where [needle] starts, or -1. *)
Fixpoint find_from (hay needle : string) (i : Z) : Z :=
  if String.prefix needle hay then i
  else match hay with
       | EmptyString => -1
       | String _ rest => find_from rest needle (i + 1)
       end.

Definition find (hay needle : string) : Z := find_from hay needle 0.

(** The first [n] characters, and what follows them. *)
Fixpoint take (n : nat) (s : string) : string :=
  match n, s with
  | S n', String c rest => String c (take n' rest)
  | _, _ => EmptyString
  end.

Fixpoint drop (n : nat) (s : string) : string :=
  match n, s with
  | S n', String _ rest => drop n' rest
  | _, _ => s
  end.

(** A slice bound [k] as Python reads it: negative bounds count from the
    end, and every bound is clamped to the string. *)
Definition bound (s : string) (k : Z) : nat :=
  if k <? 0 then Z.to_nat (len s + k) else Z.to_nat k.

(** [s[:k]] and [s[k:]] *)
Definition slice_to (s : string) (k : Z) : string := take (bound s k) s.
Definition slice_from (s : string) (k : Z) : string := drop (bound s k) s.

(** [l[i]] on a list; a negative index counts from the end. *)
Definition item {A} (l : list A) (i : Z) : result A :=
  let n := Z.of_nat (List.length l) in
  let j := if i <? 0 then i + n else i in
  if (j <? 0) || (n <=? j) then Raise IndexError
  else match nth_error l (Z.to_nat j) with
       | Some a => Ok a
       | None => Raise IndexError
       end.

(** [sep.join(parts)] on strings. *)
Definition join (sep : string) (parts : list string) : string :=
  String.concat sep parts.

(** [str(n)] for a list position. *)
Definition str_of_nat (n : nat) : string :=
  NilZero.string_of_uint (Nat.to_uint n).

(** Order on strings as Python compares them. *)
Definition str_lt (a b : string) : bool := String.ltb a b.

End Py.

Import Py.

Notation "x <- m ;; k" := (Py.bind m (fun x => k))
  (at level 100, m at next level, right associativity).

(* ================================================================== *)
(** * Profile values *)

(** What [yaml.safe_load] hands over.  [VInt] stands for every numeric
    scalar: the module tests a scalar only for its truth value and its
    type. *)
#[warnings="-register-all"]
Inductive value : Type :=
| VNone
| VBool (b : bool)
| VInt (z : Z)
| VStr (s : string)
| VList (items : list value)
| VDict (entries : list (string * value)).

(** A Python dict with string keys, in insertion order. *)
Definition dict : Type := list (string * value).

(** [k in d] *)
Fixpoint dict_in (k : string) (d : dict) : bool :=
  match d with
  | [] => false
  | (k', _) :: rest => String.eqb k k' || dict_in k rest
  end.

(** [d.get(k)], [None] when the key is absent *)
Fixpoint dict_lookup (d : dict) (k : string) : option value :=
  match d with
  | [] => None
  | (k', v) :: rest => if String.eqb k k' then Some v else dict_lookup rest k
  end.

(** [d.get(k, default)] *)
Definition dict_get (d : dict) (k : string) (default : value) : value :=
  match dict_lookup d k with
  | Some v => v
  | None => default
  end.

(** [d[k] = v]: an existing key keeps its place, a new one goes last. *)
Fixpoint dict_set (d : dict) (k : string) (v : value) : dict :=
  match d with
  | [] => [(k, v)]
  | (k', v') :: rest =>
      if String.eqb k k' then (k', v) :: rest
      else (k', v') :: dict_set rest k v
  end.

(** [d.keys()] *)
Definition keys (d : dict) : list string := map fst d.

(** Truth value of a profile value. *)
Definition truthy (v : value) : bool :=
  match v with
  | VNone => false
  | VBool b => b
  | VInt z => negb (z =? 0)
  | VStr s => negb (String.eqb s "")
  | VList l => match l with [] => false | _ => true end
  | VDict d => match d with [] => false | _ => true end
  end.

(** Iterating a value, as [enumerate] does: a list yields its items, a
    dict its keys, a string its characters; the rest is not iterable. *)
Fixpoint chars (s : string) : list value :=
  match s with
  | EmptyString => []
  | String c rest => VStr (String c EmptyString) :: chars rest
  end.

Definition iterate (v : value) : result (list value) :=
  match v with
  | VList l => Ok l
  | VDict d => Ok (map (fun kv => VStr (fst kv)) d)
  | VStr s => Ok (chars s)
  | _ => Raise TypeError
  end.

(** [v.get(k, default)]: only a dict has [get]. *)
Definition value_get (v : value) (k : string) (default : value) : result value :=
  match v with
  | VDict d => Ok (dict_get d k default)
  | _ => Raise AttributeError
  end.

(** [sep.join(items)]: every item must be a [str]. *)
Fixpoint strings_of (items : list value) : result (list string) :=
  match items with
  | [] => Ok []
  | VStr s :: rest => ss <- strings_of rest ;; Ok (s :: ss)
  | _ :: _ => Raise TypeError
  end.

Definition join_values (sep : string) (items : list value) : result value :=
  ss <- strings_of items ;; Ok (VStr (join sep ss)).

(** The en dash of the date range, U+2013. *)
Definition en_dash : string :=
  String (ascii_of_nat 226) (String (ascii_of_nat 128)
    (String (ascii_of_nat 147) EmptyString)).

Definition newline : string := String (ascii_of_nat 10) EmptyString.

(* ================================================================== *)
(** * The profile flattener *)

Section Flattener.

(** [str(v)] for a value that is not a [str]: the text Python prints
    for [None], a number, a list or a dict.  The module never looks
    inside it, so it stays a parameter. *)
Variable str_other : value -> string.

Definition py_str (v : value) : string :=
  match v with
  | VStr s => s
  | _ => str_other v
  end.

(** ** [_build_replacements] *)

Definition empty : value := VStr "".

(** [for idx, x in enumerate(items, start=idx): body] over the map
    under construction. *)
Fixpoint for_enumerate (body : nat -> value -> dict -> result dict)
    (idx : nat) (items : list value) (r : dict) : result dict :=
  match items with
  | [] => Ok r
  | x :: rest => r' <- body idx x r ;; for_enumerate body (S idx) rest r'
  end.

(** A list is joined, anything else is kept:
    [if isinstance(x, list): x = sep.join(x)] *)
Definition join_if_list (sep : string) (x : value) : result value :=
  match x with
  | VList l => join_values sep l
  | _ => Ok x
  end.

(** [date = e.get('date', '')], replaced by the range when it is empty
    and both ends are given. *)
Definition entry_date (e : dict) : value :=
  let date := dict_get e "date" empty in
  if negb (truthy date) && dict_in "start_date" e && dict_in "end_date" e
  then VStr (py_str (dict_get e "start_date" VNone) ++ " " ++ en_dash ++ " "
             ++ py_str (dict_get e "end_date" VNone))
  else date.

Definition personal_info_tokens (personal : value) (r : dict) : result dict :=
  v <- value_get personal "name" empty ;;
  let r := dict_set r "{{NAME}}" v in
  v <- value_get personal "name" empty ;;
  let r := dict_set r "{{Name}}" v in
  v <- value_get personal "location" empty ;;
  let r := dict_set r "{{LOCATION}}" v in
  v <- value_get personal "email" empty ;;
  let r := dict_set r "{{EMAIL}}" v in
  v <- value_get personal "phone" empty ;;
  let r := dict_set r "{{PHONE}}" v in
  v <- value_get personal "github" empty ;;
  let r := dict_set r "{{GITHUB}}" v in
  v <- value_get personal "linkedin" empty ;;
  let r := dict_set r "{{LINKEDIN}}" v in
  Ok r.

Definition edu_key (idx : nat) (field : string) : string :=
  "{{EDU_" ++ str_of_nat idx ++ "_" ++ field ++ "}}".

(** The body of the education loop.  Its first statement is [edu.get],
    which only a dict has. *)
Definition education_entry (idx : nat) (edu : value) (r : dict) : result dict :=
  match edu with
  | VDict e =>
      let school := dict_get e "school" (dict_get e "institution" empty) in
      let r := dict_set r (edu_key idx "SCHOOL") school in
      let r := dict_set r (edu_key idx "LOCATION") (dict_get e "location" empty) in
      let r := dict_set r (edu_key idx "DEGREE") (dict_get e "degree" empty) in
      let r := dict_set r (edu_key idx "DATE") (entry_date e) in
      courses <- join_if_list ", " (dict_get e "courses" empty) ;;
      if truthy courses
      then Ok (dict_set r (edu_key idx "COURSES") courses)
      else Ok (dict_set r (edu_key idx "COURSES") empty)
  | _ => Raise AttributeError
  end.

Definition exp_key (idx : nat) (field : string) : string :=
  "{{EXP_" ++ str_of_nat idx ++ "_" ++ field ++ "}}".

Definition exp_achievement_key (idx ach_idx : nat) : string :=
  "{{EXP_" ++ str_of_nat idx ++ "_ACHIEVEMENT_" ++ str_of_nat ach_idx ++ "}}".

Definition experience_entry (idx : nat) (exp : value) (r : dict) : result dict :=
  match exp with
  | VDict e =>
      let r := dict_set r (exp_key idx "COMPANY") (dict_get e "company" empty) in
      let r := dict_set r (exp_key idx "LOCATION") (dict_get e "location" empty) in
      let r := dict_set r (exp_key idx "TITLE") (dict_get e "title" empty) in
      let r := dict_set r (exp_key idx "DATE") (entry_date e) in
      match dict_get e "achievements" (VList []) with
      | VList achievements =>
          r <- for_enumerate
                 (fun ach_idx achievement r =>
                    Ok (dict_set r (exp_achievement_key idx ach_idx) achievement))
                 1%nat achievements r ;;
          combined <- join_values newline achievements ;;
          Ok (dict_set r (exp_key idx "ACHIEVEMENTS") combined)
      | _ => Ok r
      end
  | _ => Raise AttributeError
  end.

Definition skills_tokens (skills : value) (r : dict) : result dict :=
  match skills with
  | VDict s =>
      r <- (if dict_in "languages" s then
              langs <- join_if_list ", " (dict_get s "languages" VNone) ;;
              let r := dict_set r "{{SKILL_LANGUAGE}}" langs in
              Ok (dict_set r "{{SKILLS_LANGUAGES}}" langs)
            else Ok r) ;;
      let frameworks_key :=
        if dict_in "frameworks_tools" s then "frameworks_tools"
        else "frameworks_and_tools" in
      r <- (if dict_in frameworks_key s then
              frameworks <- join_if_list ", " (dict_get s frameworks_key VNone) ;;
              let r := dict_set r "{{SKILL_FRAME_TOOL}}" frameworks in
              Ok (dict_set r "{{SKILLS_FRAMEWORKS_TOOLS}}" frameworks)
            else Ok r) ;;
      let r :=
        if dict_in "language_processing" s
        then dict_set r "{{SKILLS_LANGUAGE_PROCESSING}}"
               (dict_get s "language_processing" VNone)
        else r in
      let r :=
        if dict_in "data_visualization" s
        then dict_set r "{{SKILLS_DATA_VIZ}}" (dict_get s "data_visualization" VNone)
        else r in
      Ok r
  | _ => Ok r
  end.

Definition proj_key (idx : nat) (field : string) : string :=
  "{{PROJ_" ++ str_of_nat idx ++ "_" ++ field ++ "}}".

Definition proj_desc_key (idx desc_idx : nat) : string :=
  "{{PROJ_" ++ str_of_nat idx ++ "_DESC_" ++ str_of_nat desc_idx ++ "}}".

Definition project_entry (idx : nat) (proj : value) (r : dict) : result dict :=
  match proj with
  | VDict p =>
      let r := dict_set r (proj_key idx "NAME") (dict_get p "name" empty) in
      let r := dict_set r (proj_key idx "DATE") (dict_get p "date" empty) in
      let descriptions :=
        dict_get p "descriptions" (dict_get p "description" (VList [])) in
      let descriptions :=
        match descriptions with
        | VStr _ => VList [descriptions]
        | _ => descriptions
        end in
      match descriptions with
      | VList ds =>
          r <- for_enumerate
                 (fun desc_idx desc r =>
                    Ok (dict_set r (proj_desc_key idx desc_idx) desc))
                 1%nat ds r ;;
          match ds with
          | [d] => Ok (dict_set r (proj_key idx "DESC") d)
          | _ => combined <- join_values newline ds ;;
                 Ok (dict_set r (proj_key idx "DESC") combined)
          end
      | _ => Ok r
      end
  | _ => Raise AttributeError
  end.

(** [for idx, x in enumerate(cv_data[section], start=1)], when the
    section is there. *)
Definition section_loop (cv_data : dict) (section : string)
    (body : nat -> value -> dict -> result dict) (r : dict) : result dict :=
  if dict_in section cv_data then
    items <- iterate (dict_get cv_data section VNone) ;;
    for_enumerate body 1%nat items r
  else Ok r.

Definition _build_replacements (cv_data : dict) : result dict :=
  let r := [] in
  r <- (if dict_in "personal_info" cv_data
        then personal_info_tokens (dict_get cv_data "personal_info" VNone) r
        else Ok r) ;;
  r <- section_loop cv_data "education" education_entry r ;;
  r <- section_loop cv_data "experience" experience_entry r ;;
  r <- (if dict_in "skills" cv_data
        then skills_tokens (dict_get cv_data "skills" VNone) r
        else Ok r) ;;
  section_loop cv_data "projects" project_entry r.


End Flattener.

(* ================================================================== *)
(** * The document model

    What the module reads and writes of a python-docx paragraph: the
    children of its [w:p] element, in document order. *)

(** [font.underline]: [True], [False] or a member of [WD_UNDERLINE]. *)
Inductive underline_value : Type :=
| UTrue
| UFalse
| UStyle (member : Z).

(** The six attributes the module reads from [run.font]; [None] is an
    attribute that is not set.  [font_size] is a length in EMU,
    [font_color] the RGB value of [font.color.rgb]. *)
Record Font : Type := {
  font_name : option string;
  font_size : option Z;
  font_bold : option bool;
  font_italic : option bool;
  font_underline : option underline_value;
  font_color : option string
}.

(** The font of a run that [add_run] has just made. *)
Definition no_font : Font :=
  {| font_name := None; font_size := None; font_bold := None;
     font_italic := None; font_underline := None; font_color := None |}.

(** A [w:r] child of the paragraph: [run.text] and [run.font]. *)
Record Run : Type := {
  run_text : string;
  run_font : Font
}.

(** The [w:rPr] of a run inside a hyperlink, attribute by attribute.
    [sz] holds the length (in EMU) whose value in points, doubled, is
    what the attribute spells. *)
Record RunProperties : Type := {
  rFonts_ascii : option string;
  sz : option Z;
  color_val : option string;
  u_val : option string
}.

(** A [w:r] inside a hyperlink: its properties and the texts of its
    [w:t] children. *)
Record HyperlinkRun : Type := {
  hr_rPr : RunProperties;
  hr_texts : list string
}.

(** A [w:hyperlink] child: the target of the relationship its [r:id]
    names, and its runs. *)
Record Hyperlink : Type := {
  target : string;
  hyperlink_runs : list HyperlinkRun
}.

(** The [w:pPr] block: alignment, style and numbering. *)
Record ParagraphProperties : Type := {
  jc : option string;
  pStyle : option string;
  numPr : option (Z * Z)
}.

Inductive node : Type :=
| N_pPr (props : ParagraphProperties)
| N_r (r : Run)
| N_hyperlink (h : Hyperlink)
| N_other (tag : string).

(** A paragraph is the sequence of children of its element. *)
Definition Paragraph : Type := list node.

(** [paragraph._element.pPr]: the first [w:pPr] child, if any. *)
Fixpoint pPr (p : Paragraph) : option ParagraphProperties :=
  match p with
  | [] => None
  | N_pPr props :: _ => Some props
  | _ :: rest => pPr rest
  end.

Definition concat_str (parts : list string) : string := join "" parts.

(** The text python-docx gives a hyperlink: all the text of its runs. *)
Definition hyperlink_text (h : Hyperlink) : string :=
  concat_str (map (fun hr => concat_str (hr_texts hr)) (hyperlink_runs h)).

Definition node_text (n : node) : string :=
  match n with
  | N_r r => run_text r
  | N_hyperlink h => hyperlink_text h
  | _ => ""
  end.

(** [paragraph.text]: the text of the runs and hyperlinks, in order. *)
Definition paragraph_text (p : Paragraph) : string :=
  concat_str (map node_text p).

(** [paragraph.runs] *)
Definition runs (p : Paragraph) : list Run :=
  flat_map (fun n => match n with N_r r => [r] | _ => [] end) p.

(** A document: its paragraphs live in a store, and the body and the
    table cells name them by position; a merged cell is listed once per
    grid column it spans, so a paragraph can be met more than once. *)
Record Document : Type := {
  store : list Paragraph;
  doc_paragraphs : list nat;
  doc_tables : list (list (list (list nat)))
}.

(* ================================================================== *)
(** * The substitution engine *)

(** How a call leaves: by [return] or by an exception.  Either way the
    paragraph is left in the state the call had given it by then. *)
Inductive outcome : Type :=
| Returned
| Raised (e : exn).

(** The entries of [elements]: a run of the paragraph or one of its
    hyperlink elements, with the text indexed for it. *)
Inductive element : Type :=
| E_run (r : Run)
| E_hyperlink (h : Hyperlink).

Inductive kind : Type := run | hyperlink.

Definition elem_type (e : element) : kind :=
  match e with
  | E_run _ => run
  | E_hyperlink _ => hyperlink
  end.

(** The items of [new_content]:
    [('text', text, source_run)],
    [('hyperlink', display_text, template_run, url)],
    [('existing_hyperlink', elem)].
    A ['text'] item holds a text read from a run of the paragraph, but
    for one: [('text', str(value), template_run)], the item of the plain
    path that stands for the token.  The model keeps that one apart as
    [value_item], because its text is the only one that does not come
    from the document. *)
Inductive content_item : Type :=
| text_item (text : string) (source_run : Run)
| value_item (text : string) (template_run : Run)
| hyperlink_item (display_text : string) (source_run : Run) (url : value)
| existing_hyperlink_item (elem : Hyperlink).

(** The first [w:t] with text in a run of a hyperlink. *)
Definition first_text (hr : HyperlinkRun) : list string :=
  match filter (fun t => negb (String.eqb t "")) (hr_texts hr) with
  | t :: _ => [t]
  | [] => []
  end.

Definition hyperlink_display_text (h : Hyperlink) : string :=
  concat_str (flat_map first_text (hyperlink_runs h)).

(** One entry of the character map per character of an element's text. *)
Definition offsets (elem_idx : nat) (k : kind) (text : string)
  : list (nat * kind * nat) :=
  map (fun char_offset => (elem_idx, k, char_offset))
      (seq 0 (String.length text)).

(** The body of [for elem in paragraph._element]. *)
Definition index_child
    (st : list (nat * kind * nat) * list (element * string)) (elem : node)
  : list (nat * kind * nat) * list (element * string) :=
  let '(char_map, elements) := st in
  match elem with
  | N_r r =>
      let run_text := run_text r in
      let elements := elements ++ [(E_run r, run_text)] in
      (char_map ++ offsets (List.length elements - 1) run run_text, elements)
  | N_hyperlink h =>
      let text := hyperlink_display_text h in
      let elements := elements ++ [(E_hyperlink h, text)] in
      (char_map ++ offsets (List.length elements - 1) hyperlink text, elements)
  | _ => st
  end.

Definition index_paragraph (paragraph : Paragraph)
  : list (nat * kind * nat) * list (element * string) :=
  fold_left index_child paragraph ([], []).

(** [any(placeholder in full_text for placeholder in replacements.keys())] *)
Definition has_placeholder (full_text : string) (replacements : dict) : bool :=
  existsb (fun placeholder => contains full_text placeholder) (keys replacements).

(** The first occurrence of every placeholder that occurs. *)
Definition find_placeholders (full_text : string) (replacements : dict)
  : list (Z * string * value) :=
  flat_map
    (fun kv =>
       let pos := find full_text (fst kv) in
       if pos =? -1 then [] else [(pos, fst kv, snd kv)])
    replacements.

(** The order of [list.sort] on the tuples: by position, then by
    placeholder.  Two keys of a dict differ, so the values are never
    compared. *)
Definition tuple_lt (a b : Z * string * value) : bool :=
  let '(pos_a, ph_a, _) := a in
  let '(pos_b, ph_b, _) := b in
  (pos_a <? pos_b) || ((pos_a =? pos_b) && str_lt ph_a ph_b).

Fixpoint insert_sorted (x : Z * string * value) (l : list (Z * string * value))
  : list (Z * string * value) :=
  match l with
  | [] => [x]
  | y :: rest => if tuple_lt y x then y :: insert_sorted x rest else x :: l
  end.

(** [list.sort()], a stable sort. *)
Definition sort (l : list (Z * string * value)) : list (Z * string * value) :=
  fold_right insert_sorted [] l.

(** The first run among the elements. *)
Fixpoint first_run (elements : list (element * string)) : option Run :=
  match elements with
  | [] => None
  | (E_run r, _) :: _ => Some r
  | _ :: rest => first_run rest
  end.

(** Elements taken whole: a run with text gives a text item, a hyperlink
    is kept as it is. *)
Definition whole_elements (elems : list (element * string)) : list content_item :=
  flat_map
    (fun e =>
       match fst e with
       | E_run r => if String.eqb (snd e) "" then [] else [text_item (snd e) r]
       | E_hyperlink h => [existing_hyperlink_item h]
       end)
    elems.

(** [start_elem.text[:start_offset]], when the start element is a run. *)
Definition text_before (start_elem : element) (start_offset : nat)
  : list content_item :=
  match start_elem with
  | E_run r =>
      let text_before := slice_to (run_text r) (Z.of_nat start_offset) in
      if String.eqb text_before "" then [] else [text_item text_before r]
  | E_hyperlink _ => []
  end.

(** [sum(len(elements[i][2]) for i in range(end_elem_idx))] *)
Definition chars_before (elements : list (element * string)) (end_elem_idx : nat) : Z :=
  fold_right Z.add 0 (map (fun e => len (snd e)) (firstn end_elem_idx elements)).

(** [end_elem.text[end_offset:]], when the end element exists and is a run. *)
Definition text_after (elements : list (element * string)) (end_elem_idx : nat)
    (placeholder_end : Z) : list content_item :=
  match nth_error elements end_elem_idx with
  | Some (E_run r, _) =>
      let end_offset := placeholder_end - chars_before elements end_elem_idx in
      let text_after := slice_from (run_text r) end_offset in
      if String.eqb text_after "" then [] else [text_item text_after r]
  | _ => []
  end.

(** Where the match starts and ends: [None] when [pos] is not an index
    of the character map. *)
Definition resolve_span (char_map : list (nat * kind * nat)) (pos : Z)
    (placeholder : string) : option (result ((nat * kind * nat) * nat)) :=
  if Z.of_nat (List.length char_map) <=? pos then None
  else Some (
    start <- item char_map pos ;;
    let placeholder_end := pos + len placeholder in
    if placeholder_end - 1 <? Z.of_nat (List.length char_map) then
      e <- item char_map (placeholder_end - 1) ;;
      Ok (start, fst (fst e))
    else Ok (start, fst (fst start))).

(** [elements[idx]] for an index taken from the character map. *)
Definition element_at (elements : list (element * string)) (idx : nat)
  : result (element * string) :=
  match nth_error elements idx with
  | Some e => Ok e
  | None => Raise IndexError
  end.

(** ** Rebuilding the paragraph *)

Definition is_pPr (n : node) : bool :=
  match n with
  | N_pPr _ => true
  | _ => false
  end.

(** [for elem in list(paragraph._p): if not pPr: remove(elem)] *)
Definition clear_content (p : Paragraph) : Paragraph := filter is_pPr p.

(** [paragraph._p.remove(current_pPr)] *)
Fixpoint remove_pPr (p : Paragraph) : Paragraph :=
  match p with
  | [] => []
  | N_pPr _ :: rest => rest
  | n :: rest => n :: remove_pPr rest
  end.

(** Put the saved copy of the properties back in front. *)
Definition restore_pPr (saved_pPr : option ParagraphProperties) (p : Paragraph)
  : Paragraph :=
  match saved_pPr with
  | Some saved =>
      let p := match pPr p with
               | Some _ => remove_pPr p
               | None => p
               end in
      N_pPr saved :: p
  | None => p
  end.

(** Snapshot, clear and restore, as both paths do before they rebuild. *)
Definition clear_paragraph (p : Paragraph) : Paragraph :=
  let saved_pPr := pPr p in
  restore_pPr saved_pPr (clear_content p).

(** ** [paragraph.add_run]

    [add_run(text)] appends an empty run and assigns the text to it.
    python-docx cuts the text at every tab, line feed and carriage
    return: a piece between them becomes a [w:t], a tab a [w:tab], a
    line feed or a carriage return a [w:br], which reads back as a line
    feed.  lxml takes no text that XML forbids: the assignment of such a
    piece raises [ValueError], and the run stays in the paragraph with
    what it had received by then and no formatting. *)

(** A character below U+0080 that XML allows; a byte of a longer
    sequence passes. *)
Definition xml_char (c : ascii) : bool :=
  let n := Z.of_N (N_of_ascii c) in
  (32 <=? n) || (n =? 9) || (n =? 10) || (n =? 13).

(** The sequences of U+FFFE and U+FFFF, and of the surrogates U+D800
    to U+DFFF. *)
Definition forbidden_sequence (a b c : ascii) : bool :=
  let next3 := Z.of_N (N_of_ascii a) * 65536 + Z.of_N (N_of_ascii b) * 256
               + Z.of_N (N_of_ascii c) in
  (next3 =? 15712190) || (next3 =? 15712191)
  || ((15573120 <=? next3) && (next3 <=? 15581119)).

(** The test lxml makes of a text before it stores it. *)
Fixpoint xml_compatible (text : string) : bool :=
  match text with
  | EmptyString => true
  | String a rest =>
      xml_char a
      && negb (match rest with
               | String b (String c _) => forbidden_sequence a b c
               | _ => false
               end)
      && xml_compatible rest
  end.

Definition tab : ascii := ascii_of_nat 9.
Definition line_feed : ascii := ascii_of_nat 10.
Definition carriage_return : ascii := ascii_of_nat 13.

(** What [run.text] reads after [run.text = text] has returned: the
    text, with a line feed for every carriage return. *)
Fixpoint read_back (text : string) : string :=
  match text with
  | EmptyString => EmptyString
  | String c rest =>
      String (if Ascii.eqb c carriage_return then line_feed else c) (read_back rest)
  end.

(** The end of a piece: the buffer goes into a [w:t]. *)
Definition flush (bfr content : string) : string * outcome :=
  if xml_compatible bfr then ((content ++ bfr)%string, Returned)
  else (content, Raised ValueError).

(** [run.text = text], character by character: [bfr] is the piece being
    read, [content] what the run reads so far. *)
Fixpoint append_to_run (text bfr content : string) : string * outcome :=
  match text with
  | EmptyString => flush bfr content
  | String c rest =>
      if Ascii.eqb c tab || Ascii.eqb c line_feed || Ascii.eqb c carriage_return then
        match flush bfr content with
        | (content, Returned) =>
            append_to_run rest ""
              (content ++ String (if Ascii.eqb c tab then tab else line_feed) "")%string
        | (content, Raised e) => (content, Raised e)
        end
      else append_to_run rest (bfr ++ String c "")%string content
  end.

(** [new_run = paragraph.add_run(text)] and the assignments to
    [new_run.font] that follow it: an exception leaves the run without
    them. *)
Definition add_run (p : Paragraph) (text : string) (font : Font)
  : Paragraph * outcome :=
  match append_to_run text "" "" with
  | (content, Returned) =>
      (p ++ [N_r {| run_text := content; run_font := font |}], Returned)
  | (content, Raised e) =>
      (p ++ [N_r {| run_text := content; run_font := no_font |}], Raised e)
  end.

(** The same statements for a text that was read from a run of the
    paragraph.  The tree of a document holds no character that XML
    forbids, so [add_run] returns for such a text; a [Run] of the model
    may hold any string, and the model does not ask. *)
Definition add_run_kept (p : Paragraph) (text : string) (font : Font) : Paragraph :=
  p ++ [N_r {| run_text := read_back text; run_font := font |}].

(** The font of a text run rebuilt on the plain path: six attributes. *)
Definition copy_font (source : Font) : Font :=
  {| font_name := font_name source;
     font_size := font_size source;
     font_bold := font_bold source;
     font_italic := font_italic source;
     font_underline := font_underline source;
     font_color := match font_color source with
                   | Some rgb => Some rgb
                   | None => font_color no_font
                   end |}.

(** The font of a text run rebuilt on the hyperlink path: four
    assignments. *)
Definition copy_font_hyperlink_path (source : Font) : Font :=
  {| font_name := font_name source;
     font_size := font_size source;
     font_bold := font_bold source;
     font_italic := font_italic source;
     font_underline := font_underline no_font;
     font_color := font_color no_font |}.

(** ** [_add_hyperlink] *)

Definition normalize_url (url : string) : string :=
  if negb (startswith url "http://") && negb (startswith url "https://")
  then "https://" ++ url
  else url.

Definition hyperlink_rPr (run_template : Run) : RunProperties :=
  {| rFonts_ascii :=
       match font_name (run_font run_template) with
       | Some n => if String.eqb n "" then None else Some n
       | None => None
       end;
     sz :=
       match font_size (run_font run_template) with
       | Some s => if s =? 0 then None else Some s
       | None => None
       end;
     color_val := Some "0563C1";
     u_val := Some "single" |}.

Definition _add_hyperlink (paragraph : Paragraph) (text : string) (url : value)
    (run_template : Run) : Paragraph * outcome :=
  match url with
  | VStr url =>
      let url := normalize_url url in
      let new_run := {| hr_rPr := hyperlink_rPr run_template; hr_texts := [text] |} in
      let hyperlink := {| target := url; hyperlink_runs := [new_run] |} in
      (paragraph ++ [N_hyperlink hyperlink], Returned)
  | _ => (paragraph, Raised AttributeError)
  end.

(** [for item in new_content] of the hyperlink path. *)
Fixpoint rebuild_hyperlink_path (new_content : list content_item) (p : Paragraph)
  : Paragraph * outcome :=
  match new_content with
  | [] => (p, Returned)
  | text_item text source_run :: rest =>
      rebuild_hyperlink_path rest
        (add_run_kept p text (copy_font_hyperlink_path (run_font source_run)))
  | value_item text source_run :: rest =>
      match add_run p text (copy_font_hyperlink_path (run_font source_run)) with
      | (p', Returned) => rebuild_hyperlink_path rest p'
      | (p', Raised e) => (p', Raised e)
      end
  | hyperlink_item display_text source_run url :: rest =>
      match _add_hyperlink p display_text url source_run with
      | (p', Returned) => rebuild_hyperlink_path rest p'
      | (p', Raised e) => (p', Raised e)
      end
  | existing_hyperlink_item elem :: rest =>
      rebuild_hyperlink_path rest (p ++ [N_hyperlink elem])
  end.

(** [for item in new_content] of the plain path, which has no branch
    for a ['hyperlink'] item. *)
Fixpoint rebuild_plain_path (new_content : list content_item) (p : Paragraph)
  : Paragraph * outcome :=
  match new_content with
  | [] => (p, Returned)
  | text_item text source_run :: rest =>
      rebuild_plain_path rest (add_run_kept p text (copy_font (run_font source_run)))
  | value_item text source_run :: rest =>
      match add_run p text (copy_font (run_font source_run)) with
      | (p', Returned) => rebuild_plain_path rest p'
      | (p', Raised e) => (p', Raised e)
      end
  | hyperlink_item _ _ _ :: rest => rebuild_plain_path rest p
  | existing_hyperlink_item elem :: rest =>
      rebuild_plain_path rest (p ++ [N_hyperlink elem])
  end.

(** [cv_data.get('personal_info', {}).get(field, '')] *)
Definition profile_url (cv_data : dict) (field : string) : result value :=
  value_get (dict_get cv_data "personal_info" (VDict [])) field (VStr "").

(** Truth value of the [cv_data] argument, whose default is [None]. *)
Definition cv_given (cv_data : option dict) : bool :=
  match cv_data with
  | Some (_ :: _) => true
  | _ => false
  end.

Definition is_hyperlink_placeholder (placeholder : string) : bool :=
  String.eqb placeholder "{{GITHUB}}" || String.eqb placeholder "{{LINKEDIN}}".

Section Engine.

Variable str_other : value -> string.

(** ** [_replace_in_paragraph], the hyperlink branch *)
Definition replace_hyperlink (paragraph : Paragraph)
    (char_map : list (nat * kind * nat)) (elements : list (element * string))
    (pos : Z) (placeholder : string) (cv_data : dict) : Paragraph * outcome :=
  match resolve_span char_map pos placeholder with
  | None => (paragraph, Returned)
  | Some (Raise e) => (paragraph, Raised e)
  | Some (Ok ((start_elem_idx, _, start_offset), end_elem_idx)) =>
      let placeholder_end := pos + len placeholder in
      match first_run elements with
      | None => (paragraph, Returned)
      | Some template_run =>
          let field := if String.eqb placeholder "{{GITHUB}}"
                       then "github" else "linkedin" in
          let display_text := if String.eqb placeholder "{{GITHUB}}"
                              then "Github" else "Linkedin" in
          match profile_url cv_data field, element_at elements start_elem_idx with
          | Raise e, _ => (paragraph, Raised e)
          | _, Raise e => (paragraph, Raised e)
          | Ok url, Ok (start_elem, _) =>
              let new_content :=
                whole_elements (firstn start_elem_idx elements)
                ++ text_before start_elem start_offset
                ++ [hyperlink_item display_text template_run url]
                ++ text_after elements end_elem_idx placeholder_end
                ++ whole_elements (skipn (end_elem_idx + 1) elements) in
              rebuild_hyperlink_path new_content (clear_paragraph paragraph)
          end
      end
  end.

(** ** [_replace_in_paragraph], the plain branch

    The type the character map records for an entry is the type of the
    element the entry points to ([nth_char_map_of] below), so the
    branches read it off the element. *)
Definition replace_plain (paragraph : Paragraph)
    (char_map : list (nat * kind * nat)) (elements : list (element * string))
    (pos : Z) (placeholder : string) (v : value) : Paragraph * outcome :=
  let placeholder_end := pos + len placeholder in
  match resolve_span char_map pos placeholder with
  | None => (paragraph, Returned)
  | Some (Raise e) => (paragraph, Raised e)
  | Some (Ok ((start_elem_idx, start_elem_type, start_offset), end_elem_idx)) =>
      match element_at elements start_elem_idx with
      | Raise e => (paragraph, Raised e)
      | Ok (start_elem, _) =>
          let template_run :=
            match start_elem with
            | E_run r => Some r
            | E_hyperlink _ => first_run elements
            end in
          match template_run with
          | None => (paragraph, Returned)
          | Some template_run =>
              let new_content :=
                whole_elements (firstn start_elem_idx elements)
                ++ text_before start_elem start_offset
                ++ [value_item (py_str str_other v) template_run]
                ++ text_after elements end_elem_idx placeholder_end
                ++ whole_elements (skipn (end_elem_idx + 1) elements) in
              rebuild_plain_path new_content (clear_paragraph paragraph)
          end
      end
  end.

Definition _replace_in_paragraph (paragraph : Paragraph) (replacements : dict)
    (cv_data : option dict) : Paragraph * outcome :=
  let full_text := paragraph_text paragraph in
  if negb (has_placeholder full_text replacements) then (paragraph, Returned)
  else
    let '(char_map, elements) := index_paragraph paragraph in
    match elements with
    | [] => (paragraph, Returned)
    | _ :: _ =>
        match sort (find_placeholders full_text replacements) with
        | [] => (paragraph, Returned)
        | (pos, placeholder, v) :: _ =>
            match cv_data with
            | Some cv =>
                if is_hyperlink_placeholder placeholder && cv_given cv_data
                then replace_hyperlink paragraph char_map elements pos placeholder cv
                else replace_plain paragraph char_map elements pos placeholder v
            | None => replace_plain paragraph char_map elements pos placeholder v
            end
        end
    end.

(** ** [fill_template] *)

Definition max_iterations : nat := 20.

(** [for _ in range(n)] over one paragraph.  The third component counts
    the calls of [_replace_in_paragraph] the loop has made. *)
Fixpoint fill_loop (n : nat) (replacements : dict) (cv_data : dict)
    (para : Paragraph) : Paragraph * outcome * nat :=
  match n with
  | O => (para, Returned, O)
  | S n' =>
      if has_placeholder (paragraph_text para) replacements then
        match _replace_in_paragraph para replacements (Some cv_data) with
        | (para', Returned) =>
            let '(para'', o, passes) := fill_loop n' replacements cv_data para' in
            (para'', o, S passes)
        | (para', Raised e) => (para', Raised e, 1%nat)
        end
      else (para, Returned, O)
  end.

Definition fill_paragraph (replacements : dict) (cv_data : dict) (para : Paragraph)
  : Paragraph * outcome * nat :=
  fill_loop max_iterations replacements cv_data para.

(** Replace the paragraph at position [i] of the store. *)
Fixpoint store_set (st : list Paragraph) (i : nat) (p : Paragraph) : list Paragraph :=
  match st, i with
  | [], _ => []
  | _ :: rest, O => p :: rest
  | q :: rest, S i' => q :: store_set rest i' p
  end.

(** The paragraphs met one after the other. *)
Fixpoint fill_each (replacements : dict) (cv_data : dict) (visits : list nat)
    (st : list Paragraph) : list Paragraph * outcome :=
  match visits with
  | [] => (st, Returned)
  | i :: rest =>
      match nth_error st i with
      | None => fill_each replacements cv_data rest st
      | Some para =>
          match fill_paragraph replacements cv_data para with
          | (para', Returned, _) =>
              fill_each replacements cv_data rest (store_set st i para')
          | (para', Raised e, _) => (store_set st i para', Raised e)
          end
      end
  end.

(** [for table in doc.tables: for row in table.rows: for cell in
    row.cells: for para in cell.paragraphs] *)
Definition table_visits (tables : list (list (list (list nat)))) : list nat :=
  List.concat (List.concat (List.concat tables)).

(** The document the call would save, or the exception that leaves it
    unsaved. *)
Definition fill_template (doc : Document) (cv_data : dict) : result Document :=
  replacements <- _build_replacements str_other cv_data ;;
  match fill_each replacements cv_data (doc_paragraphs doc) (store doc) with
  | (st, Returned) =>
      match fill_each replacements cv_data (table_visits (doc_tables doc)) st with
      | (st, Returned) =>
          Ok {| store := st; doc_paragraphs := doc_paragraphs doc;
                doc_tables := doc_tables doc |}
      | (_, Raised e) => Raise e
      end
  | (_, Raised e) => Raise e
  end.

End Engine.

(* ================================================================== *)
(** * The vocabulary of the properties

    What the statements below speak of: occurrence of a token, the
    elements and the character map written by recursion, the nodes and
    the text a rebuild gives, and the sample inputs. *)

Open Scope string_scope.
Open Scope list_scope.
Open Scope Z_scope.

(** [needle] occurs in [hay]. *)
Definition occurs (needle hay : string) : Prop :=
  exists before after, hay = (before ++ needle ++ after)%string.

(** No token of the map occurs in the text. *)
Definition token_free (replacements : dict) (text : string) : Prop :=
  forall placeholder, In placeholder (keys replacements) -> ~ occurs placeholder text.

(** The paragraph after [k] calls. *)
Fixpoint after_calls so (k : nat) (repl : dict) (cv : dict) (p : Paragraph) : Paragraph :=
  match k with
  | O => p
  | S k' => after_calls so k' repl cv (fst (_replace_in_paragraph so p repl (Some cv)))
  end.

(** The entry of [elements] a child of the paragraph gives. *)
Definition element_of (n : node) : list (element * string) :=
  match n with
  | N_r r => [(E_run r, run_text r)]
  | N_hyperlink h => [(E_hyperlink h, hyperlink_display_text h)]
  | _ => []
  end.

(** [elements], child by child. *)
Definition elements_of (p : Paragraph) : list (element * string) :=
  flat_map element_of p.

(** [char_map] for elements numbered from [base]. *)
Fixpoint char_map_of (base : nat) (els : list (element * string))
  : list (nat * kind * nat) :=
  match els with
  | [] => []
  | e :: rest => offsets base (elem_type (fst e)) (snd e) ++ char_map_of (S base) rest
  end.

(** The text the elements index. *)
Fixpoint indexed_text (els : list (element * string)) : string :=
  match els with
  | [] => ""
  | e :: rest => (snd e ++ indexed_text rest)%string
  end.

(** The child the plain rebuild loop appends for an item whose text,
    if it is that of a value, is a text XML allows. *)
Definition plain_nodes (it : content_item) : list node :=
  match it with
  | text_item text source_run | value_item text source_run =>
      [N_r {| run_text := read_back text; run_font := copy_font (run_font source_run) |}]
  | hyperlink_item _ _ _ => []
  | existing_hyperlink_item elem => [N_hyperlink elem]
  end.

(** The hyperlink element [_add_hyperlink] appends for a string URL. *)
Definition new_hyperlink (display_text : string) (run_template : Run) (url : string)
  : Hyperlink :=
  {| target := normalize_url url;
     hyperlink_runs := [{| hr_rPr := hyperlink_rPr run_template;
                           hr_texts := [display_text] |}] |}.

(** The child the rebuild loop of the hyperlink branch appends for an
    item whose URL, if it has one, is a string. *)
Definition hyperlink_path_nodes (it : content_item) : list node :=
  match it with
  | text_item text source_run | value_item text source_run =>
      [N_r {| run_text := read_back text;
              run_font := copy_font_hyperlink_path (run_font source_run) |}]
  | hyperlink_item display_text source_run (VStr url) =>
      [N_hyperlink (new_hyperlink display_text source_run url)]
  | hyperlink_item _ _ _ => []
  | existing_hyperlink_item elem => [N_hyperlink elem]
  end.

(** The text of every value among the items is a text XML allows. *)
Definition xml_values (items : list content_item) : Prop :=
  Forall (fun it => match it with
                    | value_item text _ => xml_compatible text = true
                    | _ => True
                    end) items.

(** Every URL among the items is a string. *)
Definition string_urls (items : list content_item) : Prop :=
  Forall (fun it => match it with
                    | hyperlink_item _ _ url => exists u, url = VStr u
                    | _ => True
                    end) items.

(** The attribute [_add_hyperlink] writes for a font name or size that
    is set: an empty name and a zero size count as not set. *)
Definition written_name (name : option string) : option string :=
  match name with
  | Some "" => None
  | other => other
  end.

(** The same for the size. *)
Definition written_size (size : option Z) : option Z :=
  match size with
  | Some 0 => None
  | other => other
  end.

(** The position of a match. *)
Definition pos_of (t : Z * string * value) : Z := fst (fst t).

(** The head of a list is at the lowest position of the list. *)
Definition head_lowest (l : list (Z * string * value)) : Prop :=
  match l with
  | [] => True
  | x :: _ => Forall (fun y => pos_of x <= pos_of y) l
  end.

(** A string without an underscore: what [str] gives for a position. *)
Fixpoint no_underscore (s : string) : Prop :=
  match s with
  | EmptyString => True
  | String c rest => c <> "_"%char /\ no_underscore rest
  end.

(** [r'] reads like [r] at every key that [written] rejects. *)
Definition frame (written : string -> bool) (r r' : dict) : Prop :=
  forall k, written k = false -> dict_lookup r' k = dict_lookup r k.

(** The number of opening braces in a text. *)
Fixpoint braces (s : string) : nat :=
  match s with
  | EmptyString => 0
  | String c rest => ((if Ascii.eqb c "{" then 1 else 0) + braces rest)%nat
  end.

(** The hyperlinks of the paragraph are indexed by the text python-docx
    gives them. *)
Definition well_indexed (p : Paragraph) : Prop :=
  forall h, In (N_hyperlink h) p -> hyperlink_display_text h = hyperlink_text h.

(** The text an item brings to the paragraph. *)
Definition item_text (it : content_item) : string :=
  match it with
  | text_item text _ | value_item text _ => text
  | hyperlink_item display_text _ _ => display_text
  | existing_hyperlink_item elem => hyperlink_text elem
  end.

(** The text of the items in a row. *)
Definition items_text (items : list content_item) : string :=
  concat_str (map item_text items).

(** No item asks for a new hyperlink. *)
Definition no_new_hyperlink (items : list content_item) : Prop :=
  Forall (fun it => match it with
                    | hyperlink_item _ _ _ => False
                    | _ => True
                    end) items.

(** Every hyperlink of the paragraph is indexed by its text, and its
    text has no opening brace. *)
Definition plain_hyperlinks (p : Paragraph) : Prop :=
  forall h, In (N_hyperlink h) p ->
            hyperlink_display_text h = hyperlink_text h /\
            braces (hyperlink_text h) = 0%nat.

(** The conditions on the map and the profile under which every pass
    makes progress: tokens begin with two braces, the strings put in
    their place have none, and the two profile URLs are strings. *)
Definition tokens_braced (repl : dict) : Prop :=
  forall k, In k (keys repl) -> String.prefix "{{" k = true.

(** No value of the map prints with an opening brace. *)
Definition values_plain (so : value -> string) (repl : dict) : Prop :=
  forall k v, In (k, v) repl -> braces (py_str so v) = 0%nat.

(** Both profile URLs are there to read and are strings. *)
Definition urls_are_strings (cv : dict) : Prop :=
  forall field, In field ["github"; "linkedin"] ->
                exists u, profile_url cv field = Ok (VStr u).

(** A paragraph the loop can finish in time: its hyperlinks are plain and
    its text has at most [n] opening braces. *)
Definition within (n : nat) (p : Paragraph) : Prop :=
  plain_hyperlinks p /\ (braces (paragraph_text p) <= n)%nat.

(** ** Sample inputs *)

(** A hyperlink whose run has two text nodes: only the first is indexed. *)
Definition split_hyperlink : Paragraph :=
  [N_r {| run_text := "See "; run_font := no_font |};
   N_hyperlink {| target := "https://example.org";
                  hyperlink_runs :=
                    [{| hr_rPr := {| rFonts_ascii := None; sz := None;
                                     color_val := None; u_val := None |};
                        hr_texts := ["my "; "{{NAME}}"] |}] |}].

(** Arial, 11 pt (139700 EMU), bold. *)
Definition arial_11_bold : Font :=
  {| font_name := Some "Arial"; font_size := Some 139700; font_bold := Some true;
     font_italic := None; font_underline := None; font_color := None |}.

(** The paragraph of the specification's example. *)
Definition profile_paragraph : Paragraph :=
  [N_r {| run_text := "Profile: {{GITHUB}}"; run_font := arial_11_bold |}].

(** A profile whose GitHub field has no scheme. *)
Definition jdoe : dict := [("personal_info", VDict [("github", VStr "jdoe")])].

(** The same font, underlined and red. *)
Definition red_underlined : Font :=
  {| font_name := Some "Arial"; font_size := Some 139700; font_bold := Some true;
     font_italic := None; font_underline := Some UTrue; font_color := Some "FF0000" |}.

(** The example paragraph in that font. *)
Definition underlined_paragraph : Paragraph :=
  [N_r {| run_text := "Profile: {{GITHUB}}"; run_font := red_underlined |}].

(** A profile with every section and few fields. *)
Definition sparse_profile : dict :=
  [("personal_info", VDict [("name", VStr "John Doe")]);
   ("education", VList [VDict [("school", VStr "MIT")]]);
   ("experience", VList [VDict [("company", VStr "Acme")]]);
   ("skills", VDict [("frameworks_tools", VList [VStr "Django"])]);
   ("projects", VList [VDict [("name", VStr "Filler")]])].

(** The map the flattener makes of it. *)
Definition sparse_map : dict :=
  match _build_replacements (fun _ => "") sparse_profile with
  | Ok r => r
  | Raise _ => []
  end.

(** [s], [n] times. *)
Fixpoint times (n : nat) (s : string) : string :=
  match n with
  | O => ""
  | S n' => (s ++ times n' s)%string
  end.

(** One run with the same token 21 times. *)
Definition twenty_one_names : Paragraph :=
  [N_r {| run_text := times 21 "{{NAME}}"; run_font := no_font |}].

(** A document of that one paragraph. *)
Definition names_document : Document :=
  {| store := [twenty_one_names]; doc_paragraphs := [0%nat]; doc_tables := [] |}.

(** A profile with a name. *)
Definition named : dict := [("personal_info", VDict [("name", VStr "Ann")])].

(** A paragraph that is one hyperlink of the template. *)
Definition email_link : Paragraph :=
  [N_hyperlink
     {| target := "mailto:";
        hyperlink_runs :=
          [{| hr_rPr := {| rFonts_ascii := None; sz := None;
                           color_val := Some "0563C1"; u_val := Some "single" |};
              hr_texts := ["{{EMAIL}}"] |}] |}].

(** A document of that one paragraph. *)
Definition email_document : Document :=
  {| store := [email_link]; doc_paragraphs := [0%nat]; doc_tables := [] |}.

(** A profile with an e-mail address. *)
Definition contact : dict :=
  [("personal_info", VDict [("email", VStr "jane@example.org")])].

(** Three tokens in one run. *)
Definition header_paragraph : Paragraph :=
  [N_r {| run_text := "{{NAME}} | {{EMAIL}} | {{GITHUB}}"; run_font := arial_11_bold |}].

(** A token cut in two by a change of font. *)
Definition cell_paragraph : Paragraph :=
  [N_r {| run_text := "{{NA"; run_font := arial_11_bold |};
   N_r {| run_text := "ME}}"; run_font := no_font |}].

(** A table whose only row is one merged cell, listed for each of the
    two columns it spans. *)
Definition resume : Document :=
  {| store := [header_paragraph; cell_paragraph];
     doc_paragraphs := [0%nat];
     doc_tables := [[[[1%nat]; [1%nat]]]] |}.

(** A profile for the three tokens. *)
Definition john : dict :=
  [("personal_info",
    VDict [("name", VStr "John Doe"); ("email", VStr "john@example.org");
           ("github", VStr "jdoe")])].

(** The map the flattener makes of it. *)
Definition john_map : dict :=
  match _build_replacements (fun _ => "") john with
  | Ok r => r
  | Raise _ => []
  end.

(** Two tokens, the later one first in the map. *)
Definition two_tokens : Paragraph :=
  [N_r {| run_text := "{{EMAIL}} | {{PHONE}}"; run_font := no_font |}].

(** The map for them. *)
Definition email_and_phone : dict :=
  [("{{PHONE}}", VStr "555"); ("{{EMAIL}}", VStr "a@b.c")].

(** ** Sample profiles for the flattener *)

(** One position with two achievements, one school with a date range
    and two courses, one project with a single description. *)
Definition acme_profile : dict :=
  [("education",
    VList [VDict [("institution", VStr "MIT");
                  ("start_date", VStr "2015"); ("end_date", VStr "2019");
                  ("courses", VList [VStr "Algorithms"; VStr "Compilers"])]]);
   ("experience",
    VList [VDict [("company", VStr "Acme");
                  ("date", VStr "2020");
                  ("start_date", VStr "2019"); ("end_date", VStr "2021");
                  ("achievements", VList [VStr "Shipped the filler"; VStr "Cut costs"])]]);
   ("skills",
    VDict [("languages", VList [VStr "Python"; VStr "OCaml"]);
           ("frameworks_and_tools", VStr "Docker");
           ("data_visualization", VStr "Matplotlib")]);
   ("projects",
    VList [VDict [("name", VStr "Filler"); ("description", VStr "Fills templates")];
           VDict [("name", VStr "Prover");
                  ("descriptions", VList [VStr "Checks proofs"; VStr "Prints them"]);
                  ("description", VStr "unused")]])].

(** The map the flattener makes of it. *)
Definition acme_map : dict :=
  match _build_replacements (fun _ => "") acme_profile with
  | Ok r => r
  | Raise _ => []
  end.

(** The tokens of the personal section. *)
Definition personal_keys : list string :=
  ["{{NAME}}"; "{{Name}}"; "{{LOCATION}}"; "{{EMAIL}}"; "{{PHONE}}"; "{{GITHUB}}";
   "{{LINKEDIN}}"].

(** A key of one of the four numbered or named sections. *)
Definition section_key (k : string) : bool :=
  String.prefix "{{EDU_" k || String.prefix "{{EXP_" k ||
  String.prefix "{{SKILL" k || String.prefix "{{PROJ_" k.

(** An item of [new_content] taken from the paragraph: a text that is
    not empty with one of the paragraph's runs as its source, or one of
    the paragraph's hyperlink elements. *)
Definition item_from (p : Paragraph) (it : content_item) : Prop :=
  match it with
  | text_item text source_run => In (N_r source_run) p /\ text <> ""
  | value_item _ _ | hyperlink_item _ _ _ => False
  | existing_hyperlink_item elem => In (N_hyperlink elem) p
  end.

(** What a call that rebuilds the paragraph has built it from: the
    match of the pass, the items in front of the one that stands for the
    token, that item, and the items behind it. *)
Definition rebuilt_from (so : value -> string) (p : Paragraph) (repl : dict)
    (cv : option dict) (res : Paragraph * outcome) : Prop :=
  exists pos ph v rest A mid B,
    sort (find_placeholders (paragraph_text p) repl) = (pos, ph, v) :: rest /\
    Forall (item_from p) A /\ Forall (item_from p) B /\
    ((exists tr,
        In (N_r tr) p /\ mid = value_item (py_str so v) tr /\
        (cv_given cv = false \/ is_hyperlink_placeholder ph = false) /\
        res = rebuild_plain_path (A ++ mid :: B) (clear_paragraph p)) \/
     (exists tr display url,
        In (N_r tr) p /\ mid = hyperlink_item display tr url /\
        (display = "Github" \/ display = "Linkedin") /\
        cv_given cv = true /\ is_hyperlink_placeholder ph = true /\
        res = rebuild_hyperlink_path (A ++ mid :: B) (clear_paragraph p))).

(** ** Sample paragraphs for the engine *)

(** A bookmark around a token. *)
Definition bookmarked : Paragraph :=
  [N_pPr {| jc := Some "center"; pStyle := None; numPr := None |};
   N_other "bookmarkStart";
   N_r {| run_text := "{{NAME}}"; run_font := arial_11_bold |};
   N_other "bookmarkEnd"].

(** An empty run between two runs of text. *)
Definition with_empty_run : Paragraph :=
  [N_r {| run_text := ""; run_font := red_underlined |};
   N_r {| run_text := "Name: {{NAME}}"; run_font := arial_11_bold |}].

(** The map with a name. *)
Definition ann : dict := [("{{NAME}}", VStr "Ann")].

(** A token with text on both sides. *)
Definition github_in_the_middle : Paragraph :=
  [N_r {| run_text := "Code: {{GITHUB}} (public)"; run_font := arial_11_bold |}].

(** A profile whose GitHub field is empty in the YAML file. *)
Definition null_github : dict := [("personal_info", VDict [("github", VNone)])].

(** Every value of the map prints as a text XML allows. *)
Definition xml_map (so : value -> string) (repl : dict) : Prop :=
  forall k v, In (k, v) repl -> xml_compatible (py_str so v) = true.

(** ** The documents of the examples, filled *)

(** The name in the font of the run the token started in. *)
Definition john_doe : Run := {| run_text := "John Doe"; run_font := arial_11_bold |}.

(** [resume] after [fill_template] with the profile [john]. *)
Definition resume_filled : Document :=
  {| store :=
       [[N_r john_doe;
         N_r {| run_text := " | "; run_font := arial_11_bold |};
         N_r {| run_text := "john@example.org"; run_font := arial_11_bold |};
         N_r {| run_text := " | "; run_font := arial_11_bold |};
         N_hyperlink (new_hyperlink "Github" john_doe "jdoe")];
        [N_r john_doe]];
     doc_paragraphs := [0%nat];
     doc_tables := [[[[1%nat]; [1%nat]]]] |}.

(** ** Counting the calls

    [fill_each] with a log: for every paragraph met, its place in the
    store and the number of calls of [_replace_in_paragraph] that its
    loop has made. *)
Fixpoint fill_each_log so (replacements : dict) (cv_data : dict) (visits : list nat)
    (st : list Paragraph) : list Paragraph * outcome * list (nat * nat) :=
  match visits with
  | [] => (st, Returned, [])
  | i :: rest =>
      match nth_error st i with
      | None => fill_each_log so replacements cv_data rest st
      | Some para =>
          match fill_paragraph so replacements cv_data para with
          | (para', Returned, passes) =>
              let '(st', o, log) :=
                fill_each_log so replacements cv_data rest (store_set st i para') in
              (st', o, (i, passes) :: log)
          | (para', Raised e, passes) => (store_set st i para', Raised e, [(i, passes)])
          end
      end
  end.

(** The calls the log records for the paragraph at place [j]. *)
Definition calls_on (j : nat) (log : list (nat * nat)) : nat :=
  fold_right Nat.add 0%nat (map snd (filter (fun e => Nat.eqb (fst e) j) log)).

(** How many times the body and the table cells list the paragraph at
    place [j]. *)
Definition listings (doc : Document) (j : nat) : nat :=
  count_occ Nat.eq_dec (doc_paragraphs doc ++ table_visits (doc_tables doc)) j.

(** A table whose only row is one merged cell that spans two columns;
    its paragraph holds the token 21 times. *)
Definition merged_names : Document :=
  {| store := [twenty_one_names]; doc_paragraphs := []; doc_tables := [[[[0%nat]; [0%nat]]]] |}.

(** The map the flattener makes of the profile [named]. *)
Definition named_map : dict :=
  match _build_replacements (fun _ => "") named with
  | Ok r => r
  | Raise _ => []
  end.

(** ** A match and the runs

    The match begins and ends in a run: the entries of the character
    map for its first and for its last character are of type ['run']. *)
Definition in_runs (p : Paragraph) (pos : Z) (placeholder : string) : Prop :=
  exists i o i' o',
    nth_error (fst (index_paragraph p)) (Z.to_nat pos) = Some (i, run, o) /\
    nth_error (fst (index_paragraph p))
      (Z.to_nat pos + String.length placeholder - 1) = Some (i', run, o').

(** A run and a hyperlink of the template that holds two tokens. *)
Definition contact_line : Paragraph :=
  [N_r {| run_text := "Contact: "; run_font := arial_11_bold |};
   N_hyperlink
     {| target := "mailto:";
        hyperlink_runs :=
          [{| hr_rPr := {| rFonts_ascii := None; sz := None;
                           color_val := Some "0563C1"; u_val := Some "single" |};
              hr_texts := ["{{EMAIL}} {{PHONE}}"] |}] |}].

(** ** Values that XML does not take as they are *)

(** U+000B, a character XML forbids. *)
Definition vertical_tab : string := String (ascii_of_nat 11) "".

(** A paragraph that is one hyperlink of the template, with the token
    of the GitHub link. *)
Definition github_link : Paragraph :=
  [N_hyperlink
     {| target := "https://example.org";
        hyperlink_runs :=
          [{| hr_rPr := {| rFonts_ascii := None; sz := None;
                           color_val := Some "0563C1"; u_val := Some "single" |};
              hr_texts := ["{{GITHUB}}"] |}] |}].

(* ================================================================== *)
(** * Facts about strings *)

Open Scope string_scope.

Lemma append_empty_r (s : string) : s ++ "" = s.
Proof. induction s as [|c s IH]; simpl; [reflexivity | now rewrite IH]. Qed.

Lemma append_assoc (a b c : string) : (a ++ b) ++ c = a ++ (b ++ c).
Proof. induction a as [|x a IH]; simpl; [reflexivity | now rewrite IH]. Qed.

Lemma length_append (a b : string) :
  String.length (a ++ b) = (String.length a + String.length b)%nat.
Proof. induction a as [|x a IH]; simpl; [reflexivity | now rewrite IH]. Qed.

Lemma len_append (a b : string) : len (a ++ b) = len a + len b.
Proof. unfold len. rewrite length_append. lia. Qed.

Lemma len_nonneg (s : string) : 0 <= len s.
Proof. unfold len. lia. Qed.

Lemma prefix_iff (p s : string) :
  String.prefix p s = true <-> exists rest, s = p ++ rest.
Proof.
  revert s. induction p as [|c p IH]; intros s.
  - split; [intros _; now exists s | intros _; now destruct s].
  - destruct s as [|d s]; simpl.
    + split; [discriminate | intros [rest H]; discriminate].
    + destruct (ascii_dec c d) as [->|Hne].
      * rewrite IH. split; intros [rest H]; exists rest.
        -- now rewrite H.
        -- now injection H.
      * split; [discriminate | intros [rest H]; injection H; intros; congruence].
Qed.

Lemma take_drop (n : nat) (s : string) : take n s ++ drop n s = s.
Proof.
  revert s. induction n as [|n IH]; intros [|c s]; simpl; try reflexivity.
  now rewrite IH.
Qed.

Lemma length_take (n : nat) (s : string) :
  (n <= String.length s)%nat -> String.length (take n s) = n.
Proof.
  revert s. induction n as [|n IH]; intros [|c s]; simpl; intros H; try lia.
  rewrite IH; lia.
Qed.

Lemma take_app_length (a b : string) : take (String.length a) (a ++ b) = a.
Proof. induction a as [|c a IH]; simpl; [now destruct b | now rewrite IH]. Qed.

Lemma drop_app_length (a b : string) : drop (String.length a) (a ++ b) = b.
Proof. induction a as [|c a IH]; simpl; [now destruct b | exact IH]. Qed.

Lemma take_all (n : nat) (s : string) : (String.length s <= n)%nat -> take n s = s.
Proof.
  revert s. induction n as [|n IH]; intros [|c s]; simpl; intros H;
    try reflexivity; try lia.
  rewrite IH; [reflexivity | lia].
Qed.

Lemma drop_all (n : nat) (s : string) : (String.length s <= n)%nat -> drop n s = "".
Proof.
  revert s. induction n as [|n IH]; intros [|c s]; simpl; intros H;
    try reflexivity; try lia.
  apply IH; lia.
Qed.

(** [in] is what [occurs] says. *)
Lemma contains_iff (hay needle : string) :
  contains hay needle = true <-> occurs needle hay.
Proof.
  induction hay as [|c hay IH]; cbn [contains].
  - rewrite orb_false_r, prefix_iff. split.
    + intros [rest H]. exists "", rest. exact H.
    + intros [[|x b] [a H]]; [now exists a | discriminate].
  - rewrite orb_true_iff, IH, prefix_iff. split.
    + intros [[rest H] | [b [a H]]].
      * exists "", rest. exact H.
      * exists (String c b), a. simpl. now rewrite H.
    + intros [[|x b] [a H]].
      * left. now exists a.
      * right. simpl in H. injection H as _ H. now exists b, a.
Qed.

(** [find] answers -1 exactly when [in] answers no. *)
Lemma find_from_contains (hay needle : string) (i : Z) :
  0 <= i ->
  (contains hay needle = false /\ find_from hay needle i = -1) \/
  (contains hay needle = true /\ i <= find_from hay needle i).
Proof.
  revert i. induction hay as [|c hay IH]; intros i Hi; cbn [contains find_from].
  - destruct (String.prefix needle ""); [right | left]; split; auto; lia.
  - destruct (String.prefix needle (String c hay)); cbn [orb].
    + right. split; auto; lia.
    + destruct (IH (i + 1)) as [[H1 H2] | [H1 H2]]; try lia.
      * left. now split.
      * right. split; auto; lia.
Qed.

Lemma find_minus_one (hay needle : string) :
  find hay needle = -1 <-> contains hay needle = false.
Proof.
  unfold find. destruct (find_from_contains hay needle 0) as [[H1 H2] | [H1 H2]];
    try lia.
  - split; auto.
  - split; [lia | congruence].
Qed.

Lemma find_lower_bound (hay needle : string) : -1 <= find hay needle.
Proof.
  unfold find. destruct (find_from_contains hay needle 0) as [[_ H] | [_ H]]; lia.
Qed.

(* ================================================================== *)
(** * Properties of the engine *)

Open Scope list_scope.
Open Scope Z_scope.

(** ** The properties block *)

Lemma pPr_app_other (p : Paragraph) (n : node) :
  is_pPr n = false -> pPr (p ++ [n]) = pPr p.
Proof.
  intros Hn. induction p as [|m p IH]; simpl.
  - destruct n; simpl in *; congruence.
  - destruct m; auto.
Qed.

Lemma pPr_clear_content (p : Paragraph) : pPr (clear_content p) = pPr p.
Proof.
  induction p as [|m p IH]; simpl; [reflexivity|].
  destruct m; simpl; auto.
Qed.

Lemma pPr_clear_paragraph (p : Paragraph) : pPr (clear_paragraph p) = pPr p.
Proof.
  unfold clear_paragraph, restore_pPr.
  destruct (pPr p) eqn:E; simpl; [reflexivity|].
  now rewrite pPr_clear_content.
Qed.

Lemma pPr_add_hyperlink p text url tr :
  pPr (fst (_add_hyperlink p text url tr)) = pPr p.
Proof.
  unfold _add_hyperlink. destruct url; simpl; auto.
  now apply pPr_app_other.
Qed.

Lemma pPr_add_run p text font :
  pPr (fst (add_run p text font)) = pPr p.
Proof.
  unfold add_run. destruct (append_to_run text "" "") as [content [|e]]; simpl;
    now apply pPr_app_other.
Qed.

Lemma pPr_rebuild_hyperlink_path items : forall p,
  pPr (fst (rebuild_hyperlink_path items p)) = pPr p.
Proof.
  induction items as [|it items IH]; intros p; simpl; [reflexivity|].
  destruct it.
  - rewrite IH. now apply pPr_app_other.
  - pose proof (pPr_add_run p text (copy_font_hyperlink_path (run_font template_run))) as H.
    destruct (add_run p text _) as [p' [|e]]; simpl in *.
    + now rewrite IH.
    + exact H.
  - pose proof (pPr_add_hyperlink p display_text url source_run) as H.
    destruct (_add_hyperlink p display_text url source_run) as [p' [|e]]; simpl in *.
    + now rewrite IH.
    + exact H.
  - rewrite IH. now apply pPr_app_other.
Qed.

Lemma pPr_rebuild_plain_path items : forall p,
  pPr (fst (rebuild_plain_path items p)) = pPr p.
Proof.
  induction items as [|it items IH]; intros p; simpl; [reflexivity|].
  destruct it.
  - rewrite IH. now apply pPr_app_other.
  - pose proof (pPr_add_run p text (copy_font (run_font template_run))) as H.
    destruct (add_run p text _) as [p' [|e]]; simpl in *.
    + now rewrite IH.
    + exact H.
  - apply IH.
  - rewrite IH. now apply pPr_app_other.
Qed.

Lemma pPr_replace_hyperlink p cm els pos ph cv :
  pPr (fst (replace_hyperlink p cm els pos ph cv)) = pPr p.
Proof.
  unfold replace_hyperlink.
  repeat match goal with
         | |- context [match ?x with _ => _ end] => destruct x
         end; simpl; auto;
  now rewrite pPr_rebuild_hyperlink_path, pPr_clear_paragraph.
Qed.

Lemma pPr_replace_plain so p cm els pos ph v :
  pPr (fst (replace_plain so p cm els pos ph v)) = pPr p.
Proof.
  unfold replace_plain.
  repeat match goal with
         | |- context [match ?x with _ => _ end] => destruct x
         end; simpl; auto;
  now rewrite pPr_rebuild_plain_path, pPr_clear_paragraph.
Qed.

Lemma pPr_replace_in_paragraph so p repl cv :
  pPr (fst (_replace_in_paragraph so p repl cv)) = pPr p.
Proof.
  unfold _replace_in_paragraph.
  destruct (negb _); [reflexivity|].
  destruct (index_paragraph p) as [cm els].
  destruct els; [reflexivity|].
  destruct (sort _) as [|[[pos ph] v] rest]; [reflexivity|].
  destruct cv as [cv|].
  - destruct (_ && _).
    + apply pPr_replace_hyperlink.
    + apply pPr_replace_plain.
  - apply pPr_replace_plain.
Qed.

Lemma pPr_fill_loop so n repl cv : forall p,
  pPr (fst (fst (fill_loop so n repl cv p))) = pPr p.
Proof.
  induction n as [|n IH]; intros p; simpl; [reflexivity|].
  destruct (has_placeholder _ _); [|reflexivity].
  pose proof (pPr_replace_in_paragraph so p repl (Some cv)) as H.
  destruct (_replace_in_paragraph so p repl (Some cv)) as [p' [|e]]; simpl in *.
  - specialize (IH p'). destruct (fill_loop so n repl cv p') as [[p'' o] k].
    simpl in *. congruence.
  - exact H.
Qed.

(** Claim C3.  Whatever the call does and however it leaves (by [return]
    or by an exception raised while it rebuilds), the properties block
    of the paragraph is afterwards the one it had before; the same holds
    for the whole loop of passes over the paragraph. *)
Theorem properties_block_preserved so p repl cv cvd :
  pPr (fst (_replace_in_paragraph so p repl cv)) = pPr p /\
  pPr (fst (fst (fill_paragraph so repl cvd p))) = pPr p.
Proof.
  split; [apply pPr_replace_in_paragraph | apply pPr_fill_loop].
Qed.

(** ** Paragraphs without a token *)

Lemma has_placeholder_false (text : string) (replacements : dict) :
  has_placeholder text replacements = false <-> token_free replacements text.
Proof.
  unfold has_placeholder, token_free. split.
  - intros H k Hk Hocc. apply contains_iff in Hocc.
    assert (existsb (fun placeholder => contains text placeholder)
                    (keys replacements) = true) as E
        by (apply existsb_exists; now exists k).
    congruence.
  - intros H. destruct (existsb _ _) eqn:E; [|reflexivity].
    apply existsb_exists in E as [k [Hk Hc]]. apply contains_iff in Hc.
    now destruct (H k Hk).
Qed.

Lemma replace_without_placeholder so p repl cv :
  has_placeholder (paragraph_text p) repl = false ->
  _replace_in_paragraph so p repl cv = (p, Returned).
Proof. intros H. unfold _replace_in_paragraph. now rewrite H. Qed.

Lemma fill_loop_without_placeholder so n repl cv p :
  has_placeholder (paragraph_text p) repl = false ->
  fill_loop so n repl cv p = (p, Returned, 0%nat).
Proof. intros H. destruct n; simpl; [reflexivity | now rewrite H]. Qed.

Lemma store_set_same (st : list Paragraph) : forall i p,
  nth_error st i = Some p -> store_set st i p = st.
Proof.
  induction st as [|q st IH]; intros [|i] p H; simpl in *; try congruence.
  now rewrite (IH i p H).
Qed.

Lemma fill_each_without_placeholder so repl cv visits (st : list Paragraph) :
  (forall p, In p st -> has_placeholder (paragraph_text p) repl = false) ->
  fill_each so repl cv visits st = (st, Returned).
Proof.
  intros H. induction visits as [|i visits IH]; simpl; [reflexivity|].
  destruct (nth_error st i) as [p|] eqn:E; [|exact IH].
  unfold fill_paragraph.
  rewrite fill_loop_without_placeholder by (apply H; eapply nth_error_In; eauto).
  now rewrite (store_set_same st i p E).
Qed.

(** Claim C8.  A paragraph in whose text no token of the map occurs is
    left as it is by a call and by the loop of passes, which makes no
    call at all; a store that holds only such paragraphs comes out of
    the fill unchanged, so filling a filled document again changes
    nothing. *)
Theorem no_token_no_change so (p : Paragraph) (repl : dict) cv cvd :
  token_free repl (paragraph_text p) ->
  _replace_in_paragraph so p repl cv = (p, Returned) /\
  fill_paragraph so repl cvd p = (p, Returned, 0%nat) /\
  (forall (st : list Paragraph) visits,
      (forall q, In q st -> token_free repl (paragraph_text q)) ->
      fill_each so repl cvd visits st = (st, Returned)).
Proof.
  intros H. apply has_placeholder_false in H. repeat split.
  - now apply replace_without_placeholder.
  - now apply fill_loop_without_placeholder.
  - intros st visits Hst. apply fill_each_without_placeholder.
    intros q Hq. apply has_placeholder_false. now apply Hst.
Qed.

Lemma no_token_no_change_witness :
  token_free [("{{NAME}}", VStr "John Doe")]
    (paragraph_text [N_r {| run_text := "Name: John Doe"; run_font := no_font |}]) /\
  _replace_in_paragraph (fun _ => "")
    [N_r {| run_text := "Name: John Doe"; run_font := no_font |}]
    [("{{NAME}}", VStr "John Doe")] None
  = ([N_r {| run_text := "Name: John Doe"; run_font := no_font |}], Returned).
Proof.
  assert (token_free [("{{NAME}}", VStr "John Doe")]
    (paragraph_text [N_r {| run_text := "Name: John Doe"; run_font := no_font |}]))
    as H by (apply has_placeholder_false; reflexivity).
  split; [exact H|].
  exact (proj1 (no_token_no_change (fun _ => "") _ _ None [] H)).
Defined.

(** ** The loop of passes *)

Lemma fill_loop_trace so n repl cv : forall p,
  let '(p', o, passes) := fill_loop so n repl cv p in
  (passes <= n)%nat /\
  p' = after_calls so passes repl cv p /\
  Forall (fun j => has_placeholder (paragraph_text (after_calls so j repl cv p)) repl = true)
         (seq 0 passes) /\
  (passes = n \/ (exists e, o = Raised e) \/
   has_placeholder (paragraph_text p') repl = false).
Proof.
  induction n as [|n IH]; intros p; simpl.
  - repeat split; auto.
  - destruct (has_placeholder (paragraph_text p) repl) eqn:E.
    + destruct (_replace_in_paragraph so p repl (Some cv)) as [p1 [|e]] eqn:R.
      * specialize (IH p1). destruct (fill_loop so n repl cv p1) as [[p2 o] k].
        destruct IH as (Hle & Heq & Hall & Hend).
        simpl. rewrite R. simpl. repeat split.
        -- lia.
        -- exact Heq.
        -- constructor; [exact E|].
           rewrite <- seq_shift, Forall_map. simpl. rewrite R. exact Hall.
        -- destruct Hend as [->|[H|H]]; auto.
      * simpl. rewrite R. simpl. repeat split; auto; try lia.
        right; left. now exists e.
    + simpl. repeat split; auto; lia.
Qed.

(** ** A start offset outside the character map *)

(** Claim C7.  When the match chosen for the pass starts at an offset
    that is not an index of the character map, the call returns and the
    paragraph is what it was. *)
Theorem stale_offset_is_noop so (p : Paragraph) (repl : dict) cv pos ph v rest :
  sort (find_placeholders (paragraph_text p) repl) = (pos, ph, v) :: rest ->
  Z.of_nat (List.length (fst (index_paragraph p))) <= pos ->
  _replace_in_paragraph so p repl cv = (p, Returned).
Proof.
  intros Hs Hpos. unfold _replace_in_paragraph.
  destruct (negb _); [reflexivity|].
  destruct (index_paragraph p) as [cm els]. simpl in Hpos.
  destruct els; [reflexivity|]. rewrite Hs.
  assert (resolve_span cm pos ph = None) as Hr.
  { unfold resolve_span. destruct (Z.leb_spec (Z.of_nat (List.length cm)) pos); [reflexivity | lia]. }
  unfold replace_hyperlink, replace_plain. rewrite Hr.
  destruct cv; [destruct (_ && _)|]; reflexivity.
Qed.

Lemma stale_offset_is_noop_witness :
  _replace_in_paragraph (fun _ => "") split_hyperlink
    [("{{NAME}}", VStr "John Doe")] None = (split_hyperlink, Returned).
Proof.
  apply (stale_offset_is_noop (fun _ => "") split_hyperlink
           [("{{NAME}}", VStr "John Doe")] None 7 "{{NAME}}" (VStr "John Doe") []).
  - reflexivity.
  - vm_compute. discriminate.
Defined.

(** ** The elements and the character map, by recursion *)

Lemma index_paragraph_from (p : Paragraph) : forall cm els,
  fold_left index_child p (cm, els)
  = (cm ++ char_map_of (List.length els) (elements_of p), els ++ elements_of p).
Proof.
  induction p as [|n p IH]; intros cm els; simpl.
  - now rewrite !app_nil_r.
  - destruct n; simpl; rewrite IH; try reflexivity;
      rewrite !length_app; simpl;
      replace (List.length els + 1 - 1)%nat with (List.length els) by lia;
      replace (List.length els + 1)%nat with (S (List.length els)) by lia;
      now rewrite <- !app_assoc.
Qed.

Lemma index_paragraph_eq (p : Paragraph) :
  index_paragraph p = (char_map_of 0 (elements_of p), elements_of p).
Proof. unfold index_paragraph. now rewrite index_paragraph_from. Qed.

Lemma length_offsets i k t : List.length (offsets i k t) = String.length t.
Proof. unfold offsets. now rewrite length_map, length_seq. Qed.

Lemma length_char_map_of els : forall base,
  List.length (char_map_of base els) = String.length (indexed_text els).
Proof.
  induction els as [|e els IH]; intros base; simpl; [reflexivity|].
  now rewrite length_app, length_offsets, length_append, IH.
Qed.

Lemma nth_offsets i k t n :
  (n < String.length t)%nat -> nth_error (offsets i k t) n = Some (i, k, n).
Proof.
  intros H. unfold offsets. rewrite nth_error_map.
  rewrite nth_error_seq. destruct (Nat.ltb_spec n (String.length t)); [reflexivity | lia].
Qed.

(** What the entry at a position says: the element that holds the
    character, its type, and the offset of the character in it. *)
Lemma nth_char_map_of els : forall base pos i k o,
  nth_error (char_map_of base els) pos = Some (i, k, o) ->
  exists e t,
    (base <= i)%nat /\
    nth_error els (i - base) = Some (e, t) /\
    elem_type e = k /\
    (o < String.length t)%nat /\
    pos = (String.length (indexed_text (firstn (i - base) els)) + o)%nat.
Proof.
  induction els as [|[e t] els IH]; intros base pos i k o H; simpl in H.
  - destruct pos; discriminate.
  - destruct (Nat.ltb_spec pos (String.length t)) as [Hlt|Hge].
    + rewrite nth_error_app1 in H by now rewrite length_offsets.
      simpl in H. rewrite nth_offsets in H by exact Hlt. injection H as <- <- <-.
      exists e, t. rewrite Nat.sub_diag. simpl. repeat split; auto.
    + rewrite nth_error_app2 in H by (rewrite length_offsets; exact Hge).
      rewrite length_offsets in H. simpl in H.
      destruct (IH _ _ _ _ _ H) as (e' & t' & Hb & Hn & Hk & Ho & Hp).
      exists e', t'. replace (i - base)%nat with (S (i - S base)) by lia.
      simpl. rewrite length_append. repeat split; auto; lia.
Qed.

(** ** Indexing a list *)

Lemma item_nonneg {A} (l : list A) (i : Z) :
  0 <= i < Z.of_nat (List.length l) ->
  exists a, item l i = Ok a /\ nth_error l (Z.to_nat i) = Some a.
Proof.
  intros H. unfold item.
  destruct (Z.ltb_spec i 0); [lia|].
  destruct (Z.ltb_spec i 0); [lia|].
  destruct (Z.leb_spec (Z.of_nat (List.length l)) i); [lia|]. simpl.
  destruct (nth_error l (Z.to_nat i)) as [a|] eqn:E; [now exists a|].
  apply nth_error_None in E. lia.
Qed.

(** ** [add_run] on a text XML allows *)

Lemma xml_compatible_app (a b : string) :
  xml_compatible (a ++ b) = true ->
  xml_compatible a = true /\ xml_compatible b = true.
Proof.
  induction a as [|x a IH]; intros H; [now split|].
  change (String x a ++ b)%string with (String x (a ++ b)) in H.
  cbn [xml_compatible] in H. apply andb_prop in H as [H Hrest].
  apply andb_prop in H as [Hx Hseq].
  destruct (IH Hrest) as [Ha Hb]. split; [|exact Hb].
  cbn [xml_compatible]. rewrite Hx, Ha.
  destruct a as [|y [|z a]]; [reflexivity | reflexivity |].
  cbn in Hseq. cbn. now rewrite Hseq.
Qed.

Lemma read_back_append (a b : string) :
  read_back (a ++ b) = (read_back a ++ read_back b)%string.
Proof. induction a as [|x a IH]; simpl; [reflexivity | now rewrite IH]. Qed.

Lemma read_back_twice (s : string) : read_back (read_back s) = read_back s.
Proof.
  induction s as [|c s IH]; simpl; [reflexivity|]. rewrite IH.
  destruct (Ascii.eqb c carriage_return) eqn:E; [reflexivity | now rewrite E].
Qed.

Lemma read_back_empty (s : string) : read_back s = "" <-> s = "".
Proof. destruct s; simpl; split; congruence. Qed.

Lemma length_read_back (s : string) : String.length (read_back s) = String.length s.
Proof. induction s as [|c s IH]; simpl; [reflexivity | now rewrite IH]. Qed.

Lemma append_to_run_compatible (text : string) : forall bfr content,
  xml_compatible (bfr ++ text) = true ->
  append_to_run text bfr content = ((content ++ bfr ++ read_back text)%string, Returned).
Proof.
  induction text as [|c rest IH]; intros bfr content H.
  - rewrite append_empty_r in H. cbn [append_to_run read_back]. unfold flush.
    now rewrite H, append_empty_r.
  - destruct (xml_compatible_app _ _ H) as [Hb Hrest].
    cbn [append_to_run read_back].
    destruct (Ascii.eqb c tab || Ascii.eqb c line_feed || Ascii.eqb c carriage_return)
      eqn:Sep.
    + unfold flush. rewrite Hb.
      cbn [xml_compatible] in Hrest. apply andb_prop in Hrest as [_ Hrest].
      rewrite (IH "" _ Hrest). cbn [String.append]. f_equal.
      rewrite !append_assoc. f_equal. f_equal. cbn [String.append]. f_equal.
      destruct (Ascii.eqb_spec c tab) as [->|]; [reflexivity|].
      destruct (Ascii.eqb_spec c carriage_return) as [->|]; [reflexivity|].
      destruct (Ascii.eqb_spec c line_feed) as [->|]; [reflexivity|].
      discriminate.
    + rewrite IH by now rewrite append_assoc.
      apply orb_false_elim in Sep as [_ Sep]. rewrite Sep.
      now rewrite !append_assoc.
Qed.

Lemma add_run_compatible p (text : string) font :
  xml_compatible text = true ->
  add_run p text font = (add_run_kept p text font, Returned).
Proof.
  intros H. unfold add_run, add_run_kept.
  now rewrite (append_to_run_compatible text "" "" H).
Qed.

(** ** What the rebuild loops append *)

Lemma rebuild_plain_path_nodes items : forall p,
  xml_values items ->
  rebuild_plain_path items p = (p ++ flat_map plain_nodes items, Returned).
Proof.
  induction items as [|it items IH]; intros p H; simpl.
  - now rewrite app_nil_r.
  - inversion H as [|? ? Hit Hrest]; subst. destruct it.
    + rewrite IH by assumption. unfold add_run_kept. simpl. now rewrite <- app_assoc.
    + rewrite (add_run_compatible _ _ _ Hit), IH by assumption.
      unfold add_run_kept. simpl. now rewrite <- app_assoc.
    + now rewrite IH.
    + rewrite IH by assumption. simpl. now rewrite <- app_assoc.
Qed.

Lemma rebuild_hyperlink_path_nodes items : forall p,
  string_urls items -> xml_values items ->
  rebuild_hyperlink_path items p = (p ++ flat_map hyperlink_path_nodes items, Returned).
Proof.
  induction items as [|it items IH]; intros p H X; simpl.
  - now rewrite app_nil_r.
  - inversion H as [|? ? Hit Hrest]; inversion X as [|? ? Xit Xrest]; subst.
    destruct it.
    + rewrite IH by assumption. unfold add_run_kept. simpl. now rewrite <- app_assoc.
    + rewrite (add_run_compatible _ _ _ Xit), IH by assumption.
      unfold add_run_kept. simpl. now rewrite <- app_assoc.
    + destruct Hit as [u ->]. simpl. rewrite IH by assumption.
      simpl. now rewrite <- app_assoc.
    + rewrite IH by assumption. simpl. now rewrite <- app_assoc.
Qed.

Lemma xml_values_app a b : xml_values a -> xml_values b -> xml_values (a ++ b).
Proof. unfold xml_values. intros. now apply Forall_app. Qed.

Lemma xml_values_whole els : xml_values (whole_elements els).
Proof.
  unfold xml_values, whole_elements. apply Forall_flat_map, Forall_forall.
  intros [[r|h] t] _; simpl; [destruct (String.eqb t "")|]; repeat constructor.
Qed.

Lemma xml_values_text_before e o : xml_values (text_before e o).
Proof.
  unfold xml_values, text_before. destruct e; [|constructor].
  destruct (String.eqb _ _); repeat constructor.
Qed.

Lemma xml_values_text_after els i z : xml_values (text_after els i z).
Proof.
  unfold xml_values, text_after.
  destruct (nth_error els i) as [[[r|h] t]|]; try constructor.
  destruct (String.eqb _ _); repeat constructor.
Qed.

(** ** How [add_run] and the plain rebuild loop can leave *)

Lemma append_to_run_returned (text : string) : forall bfr content content',
  append_to_run text bfr content = (content', Returned) ->
  content' = (content ++ bfr ++ read_back text)%string.
Proof.
  induction text as [|c rest IH]; intros bfr content content' H.
  - cbn [append_to_run] in H. unfold flush in H.
    destruct (xml_compatible bfr); [|discriminate].
    injection H as <-. cbn [read_back]. now rewrite append_empty_r.
  - cbn [append_to_run read_back] in *.
    destruct (Ascii.eqb c tab || Ascii.eqb c line_feed || Ascii.eqb c carriage_return)
      eqn:Sep.
    + unfold flush in H. destruct (xml_compatible bfr); [|discriminate].
      apply IH in H. subst content'. cbn [String.append].
      rewrite !append_assoc. f_equal. f_equal. cbn [String.append]. f_equal.
      destruct (Ascii.eqb_spec c tab) as [->|]; [reflexivity|].
      destruct (Ascii.eqb_spec c carriage_return) as [->|]; [reflexivity|].
      destruct (Ascii.eqb_spec c line_feed) as [->|]; [reflexivity|].
      discriminate.
    + apply IH in H. subst content'.
      apply orb_false_elim in Sep as [_ Sep]. rewrite Sep.
      now rewrite !append_assoc.
Qed.

Lemma append_to_run_raised (text : string) : forall bfr content content' e,
  append_to_run text bfr content = (content', Raised e) -> e = ValueError.
Proof.
  induction text as [|c rest IH]; intros bfr content content' e H.
  - cbn [append_to_run] in H. unfold flush in H.
    destruct (xml_compatible bfr); congruence.
  - cbn [append_to_run] in H.
    destruct (Ascii.eqb c tab || Ascii.eqb c line_feed || Ascii.eqb c carriage_return).
    + unfold flush in H. destruct (xml_compatible bfr); [eauto | congruence].
    + eauto.
Qed.

(** [add_run] returns with the run in place, or raises [ValueError] and
    leaves a run without formatting. *)
Lemma add_run_cases p (text : string) font :
  add_run p text font = (add_run_kept p text font, Returned) \/
  exists content,
    xml_compatible text = false /\
    add_run p text font
    = (p ++ [N_r {| run_text := content; run_font := no_font |}], Raised ValueError).
Proof.
  unfold add_run, add_run_kept.
  destruct (append_to_run text "" "") as [content [|e]] eqn:E.
  - left. apply append_to_run_returned in E. now subst content.
  - right. pose proof (append_to_run_raised _ _ _ _ _ E). subst e. exists content.
    split; [|reflexivity].
    destruct (xml_compatible text) eqn:X; [|reflexivity].
    rewrite (append_to_run_compatible text "" "" X) in E. discriminate.
Qed.

Lemma rebuild_plain_path_app A : forall B p,
  xml_values A ->
  rebuild_plain_path (A ++ B) p = rebuild_plain_path B (p ++ flat_map plain_nodes A).
Proof.
  induction A as [|it A IH]; intros B p H; simpl.
  - now rewrite app_nil_r.
  - inversion H as [|? ? Hit Hrest]; subst. destruct it.
    + rewrite IH by assumption. unfold add_run_kept. simpl. now rewrite <- app_assoc.
    + rewrite (add_run_compatible _ _ _ Hit), IH by assumption.
      unfold add_run_kept. simpl. now rewrite <- app_assoc.
    + now rewrite IH.
    + rewrite IH by assumption. simpl. now rewrite <- app_assoc.
Qed.

(** The plain loop over items whose one value stands between texts of
    the paragraph: every item gives its child, or the value raises
    [ValueError] and the loop ends at its run. *)
Lemma rebuild_value_cases A (text : string) tr B p :
  xml_values A -> xml_values B ->
  rebuild_plain_path (A ++ value_item text tr :: B) p
  = (p ++ flat_map plain_nodes (A ++ value_item text tr :: B), Returned)
  \/ exists content,
       xml_compatible text = false /\
       rebuild_plain_path (A ++ value_item text tr :: B) p
       = (p ++ flat_map plain_nodes A
            ++ [N_r {| run_text := content; run_font := no_font |}],
          Raised ValueError).
Proof.
  intros HA HB. rewrite rebuild_plain_path_app by assumption.
  cbn [rebuild_plain_path].
  destruct (add_run_cases (p ++ flat_map plain_nodes A) text (copy_font (run_font tr)))
    as [E | (content & X & E)]; rewrite E.
  - left. rewrite rebuild_plain_path_nodes by assumption.
    unfold add_run_kept. rewrite flat_map_app. simpl. now rewrite <- !app_assoc.
  - right. exists content. split; [exact X|]. now rewrite <- app_assoc.
Qed.

(** The items of the plain branch, in the two parts around the value. *)
Lemma plain_content_parts (els : list (element * string)) si se so' ei pe mid :
  whole_elements (firstn si els) ++ text_before se so'
    ++ [mid] ++ text_after els ei pe
    ++ whole_elements (skipn (ei + 1) els)
  = (whole_elements (firstn si els) ++ text_before se so')
      ++ mid
      :: (text_after els ei pe ++ whole_elements (skipn (ei + 1) els)).
Proof. now rewrite <- app_assoc. Qed.

Lemma xml_values_front (els : list (element * string)) si se so' :
  xml_values (whole_elements (firstn si els) ++ text_before se so').
Proof. apply xml_values_app; auto using xml_values_whole, xml_values_text_before. Qed.

Lemma xml_values_behind (els : list (element * string)) ei pe :
  xml_values (text_after els ei pe ++ whole_elements (skipn (ei + 1) els)).
Proof. apply xml_values_app; auto using xml_values_whole, xml_values_text_after. Qed.

Lemma string_urls_app a b : string_urls a -> string_urls b -> string_urls (a ++ b).
Proof. unfold string_urls. intros. now apply Forall_app. Qed.

Lemma string_urls_whole els : string_urls (whole_elements els).
Proof.
  unfold string_urls, whole_elements. apply Forall_flat_map, Forall_forall.
  intros [[r|h] t] _; simpl; [destruct (String.eqb t "")|]; repeat constructor.
Qed.

Lemma string_urls_text_before e o : string_urls (text_before e o).
Proof.
  unfold string_urls, text_before. destruct e; [|constructor].
  destruct (String.eqb _ _); repeat constructor.
Qed.

Lemma string_urls_text_after els i z : string_urls (text_after els i z).
Proof.
  unfold string_urls, text_after.
  destruct (nth_error els i) as [[[r|h] t]|]; try constructor.
  destruct (String.eqb _ _); repeat constructor.
Qed.

(** ** The scan *)

Lemma in_find_placeholders text (repl : dict) pos k v :
  In (pos, k, v) (find_placeholders text repl) <->
  In (k, v) repl /\ pos = find text k /\ pos <> -1.
Proof.
  unfold find_placeholders. rewrite in_flat_map. split.
  - intros [[k' v'] [Hin H]]. simpl in H.
    destruct (Z.eqb_spec (find text k') (-1)); [destruct H|].
    destruct H as [H|[]]. injection H as <- <- <-. auto.
  - intros (Hin & -> & Hne). exists (k, v). split; [exact Hin|]. simpl.
    destruct (Z.eqb_spec (find text k) (-1)); [contradiction | now left].
Qed.

Lemma in_insert_sorted x y l : In y (insert_sorted x l) <-> y = x \/ In y l.
Proof.
  induction l as [|z l IH]; simpl.
  - intuition.
  - destruct (tuple_lt z x); simpl; rewrite ?IH; intuition.
Qed.

Lemma in_sort x l : In x (sort l) <-> In x l.
Proof.
  unfold sort. induction l as [|y l IH]; simpl; [tauto|].
  rewrite in_insert_sorted, IH. intuition.
Qed.

(** The match a pass resolves is one the scan has found. *)
Lemma sort_head_found text (repl : dict) pos k v rest :
  sort (find_placeholders text repl) = (pos, k, v) :: rest ->
  In (k, v) repl /\ pos = find text k /\ 0 <= pos.
Proof.
  intros H.
  assert (In (pos, k, v) (sort (find_placeholders text repl))) as Hin
      by (rewrite H; now left).
  apply in_sort, in_find_placeholders in Hin. destruct Hin as (Hin & Hp & Hne).
  repeat split; auto. pose proof (find_lower_bound text k). lia.
Qed.

Lemma has_placeholder_of_key text (repl : dict) k v :
  In (k, v) repl -> find text k <> -1 -> has_placeholder text repl = true.
Proof.
  intros Hin Hne. unfold has_placeholder. apply existsb_exists. exists k. split.
  - unfold keys. apply in_map_iff. now exists (k, v).
  - destruct (contains text k) eqn:E; [reflexivity|].
    apply find_minus_one in E. contradiction.
Qed.

Lemma sort_head_has_placeholder text (repl : dict) pos k v rest :
  sort (find_placeholders text repl) = (pos, k, v) :: rest ->
  has_placeholder text repl = true.
Proof.
  intros H. destruct (sort_head_found _ _ _ _ _ _ H) as (Hin & Hp & Hpos).
  apply (has_placeholder_of_key text repl k v Hin). lia.
Qed.

(** ** Resolving the span *)

Lemma item_ok {A} (l : list A) (i : Z) :
  - Z.of_nat (List.length l) <= i < Z.of_nat (List.length l) ->
  exists a, item l i = Ok a.
Proof.
  intros H. unfold item.
  set (j := if i <? 0 then i + Z.of_nat (List.length l) else i).
  assert (0 <= j < Z.of_nat (List.length l)) as Hj
      by (subst j; destruct (Z.ltb_spec i 0); lia).
  destruct (Z.ltb_spec j 0); [lia|].
  destruct (Z.leb_spec (Z.of_nat (List.length l)) j); [lia|]. simpl.
  destruct (nth_error l (Z.to_nat j)) as [a|] eqn:E; [now exists a|].
  apply nth_error_None in E. lia.
Qed.

Lemma resolve_span_ok cm pos ph :
  0 <= pos < Z.of_nat (List.length cm) ->
  exists start end_elem_idx,
    resolve_span cm pos ph = Some (Ok (start, end_elem_idx)) /\
    nth_error cm (Z.to_nat pos) = Some start.
Proof.
  intros H. unfold resolve_span.
  destruct (Z.leb_spec (Z.of_nat (List.length cm)) pos); [lia|].
  destruct (item_nonneg cm pos H) as (start & -> & Hn). simpl.
  destruct (Z.ltb_spec (pos + len ph - 1) (Z.of_nat (List.length cm))).
  - destruct (item_ok cm (pos + len ph - 1)) as [e ->].
    { pose proof (len_nonneg ph). lia. }
    simpl. eauto.
  - eauto.
Qed.

Lemma element_at_start (els : list (element * string)) pos i k o :
  nth_error (char_map_of 0 els) pos = Some (i, k, o) ->
  exists e t, element_at els i = Ok (e, t) /\ nth_error els i = Some (e, t) /\
              elem_type e = k /\ (o < String.length t)%nat.
Proof.
  intros H. destruct (nth_char_map_of _ _ _ _ _ _ H) as (e & t & _ & Hn & Hk & Ho & _).
  rewrite Nat.sub_0_r in Hn. exists e, t. unfold element_at. rewrite Hn. auto.
Qed.

Lemma first_run_nonempty els tr : first_run els = Some tr -> els <> [].
Proof. destruct els; simpl; congruence. Qed.

(** ** The hyperlink path *)

Lemma hyperlink_rPr_eq (tr : Run) :
  hyperlink_rPr tr =
  {| rFonts_ascii := written_name (font_name (run_font tr));
     sz := written_size (font_size (run_font tr));
     color_val := Some "0563C1";
     u_val := Some "single" |}.
Proof.
  unfold hyperlink_rPr, written_name, written_size.
  destruct (font_name (run_font tr)) as [[|c n]|]; simpl;
    destruct (font_size (run_font tr)) as [[| |]|]; reflexivity.
Qed.

Lemma normalize_url_no_scheme (u : string) :
  startswith u "http://" = false -> startswith u "https://" = false ->
  normalize_url u = ("https://" ++ u)%string.
Proof. intros H1 H2. unfold normalize_url. now rewrite H1, H2. Qed.

(** Claim C5.  When the match of the pass is [{{GITHUB}}] (resp.
    [{{LINKEDIN}}]), a profile is given and its URL is a string without
    [http://] or [https://] in front, the paragraph gets a hyperlink
    element whose target is the URL after [https://], whose only run
    shows [Github] (resp. [Linkedin]) and carries the font name and the
    size of the template run (the first run of the paragraph), the
    colour 0563C1 and a single underline. *)
Theorem hyperlink_token_resolution so (p : Paragraph) (repl : dict) (cv : dict)
    pos ph v rest field display u template_run :
  In (ph, field, display)
     [("{{GITHUB}}", "github", "Github"); ("{{LINKEDIN}}", "linkedin", "Linkedin")] ->
  sort (find_placeholders (paragraph_text p) repl) = (pos, ph, v) :: rest ->
  cv <> [] ->
  profile_url cv field = Ok (VStr u) ->
  startswith u "http://" = false ->
  startswith u "https://" = false ->
  pos < Z.of_nat (List.length (fst (index_paragraph p))) ->
  first_run (snd (index_paragraph p)) = Some template_run ->
  exists before after,
    _replace_in_paragraph so p repl (Some cv) =
    (before ++
     [N_hyperlink
        {| target := ("https://" ++ u)%string;
           hyperlink_runs :=
             [{| hr_rPr :=
                   {| rFonts_ascii := written_name (font_name (run_font template_run));
                      sz := written_size (font_size (run_font template_run));
                      color_val := Some "0563C1";
                      u_val := Some "single" |};
                 hr_texts := [display] |}] |}] ++ after,
     Returned).
Proof.
  intros Hph Hs Hcv Hurl H1 H2 Hpos Hrun.
  destruct (sort_head_found _ _ _ _ _ _ Hs) as (_ & _ & Hpos0).
  unfold _replace_in_paragraph.
  rewrite (sort_head_has_placeholder _ _ _ _ _ _ Hs). simpl negb. cbv iota.
  rewrite index_paragraph_eq in *. simpl in Hpos, Hrun.
  destruct (elements_of p) as [|e0 els0] eqn:Els; [discriminate|]. rewrite <- Els in *.
  rewrite Hs.
  assert (is_hyperlink_placeholder ph && cv_given (Some cv) = true) as ->.
  { destruct cv; [congruence|].
    destruct Hph as [H|[H|[]]]; injection H as <- _ _; reflexivity. }
  unfold replace_hyperlink.
  destruct (resolve_span_ok (char_map_of 0 (elements_of p)) pos ph) as
      ([[si sk] so'] & ei & -> & Hstart); [lia|].
  rewrite Hrun.
  destruct (element_at_start _ _ _ _ _ Hstart) as (se & st & -> & _).
  assert ((if String.eqb ph "{{GITHUB}}" then "github" else "linkedin") = field
          /\ (if String.eqb ph "{{GITHUB}}" then "Github" else "Linkedin") = display)
    as [-> ->].
  { destruct Hph as [H|[H|[]]]; injection H as <- <- <-; split; reflexivity. }
  rewrite Hurl.
  rewrite rebuild_hyperlink_path_nodes.
  - rewrite !flat_map_app.
    change (flat_map hyperlink_path_nodes [hyperlink_item display template_run (VStr u)])
      with [N_hyperlink (new_hyperlink display template_run u)].
    unfold new_hyperlink. rewrite hyperlink_rPr_eq, normalize_url_no_scheme by assumption.
    exists (clear_paragraph p
            ++ flat_map hyperlink_path_nodes (whole_elements (firstn si (elements_of p)))
            ++ flat_map hyperlink_path_nodes (text_before se so')).
    exists (flat_map hyperlink_path_nodes (text_after (elements_of p) ei (pos + len ph))
            ++ flat_map hyperlink_path_nodes
                 (whole_elements (skipn (ei + 1) (elements_of p)))).
    rewrite <- !app_assoc. reflexivity.
  - repeat apply string_urls_app;
      auto using string_urls_whole, string_urls_text_before, string_urls_text_after.
    repeat constructor. now exists u.
  - repeat apply xml_values_app;
      auto using xml_values_whole, xml_values_text_before, xml_values_text_after.
    repeat constructor.
Qed.

Lemma hyperlink_token_resolution_witness :
  exists before after,
    _replace_in_paragraph (fun _ => "") profile_paragraph
      [("{{GITHUB}}", VStr "jdoe")] (Some jdoe) =
    (before ++
     [N_hyperlink
        {| target := "https://jdoe";
           hyperlink_runs :=
             [{| hr_rPr := {| rFonts_ascii := Some "Arial"; sz := Some 139700;
                              color_val := Some "0563C1"; u_val := Some "single" |};
                 hr_texts := ["Github"] |}] |}] ++ after,
     Returned).
Proof.
  apply (hyperlink_token_resolution (fun _ => "") profile_paragraph
           [("{{GITHUB}}", VStr "jdoe")] jdoe 9 "{{GITHUB}}" (VStr "jdoe") []
           "github" "Github" "jdoe"
           {| run_text := "Profile: {{GITHUB}}"; run_font := arial_11_bold |}).
  - simpl. auto.
  - reflexivity.
  - discriminate.
  - reflexivity.
  - reflexivity.
  - reflexivity.
  - reflexivity.
  - reflexivity.
Defined.

(** ** Fonts of the rebuilt runs *)

(** On the plain path a rebuilt run has the six attributes of its
    source. *)
Lemma copy_font_all_six (f : Font) : copy_font f = f.
Proof. destruct f as [n s b i u [c|]]; reflexivity. Qed.

(** Claim C2, at an input where it fails.  The run in front of the
    token is underlined and red; the hyperlink path rebuilds it with the
    name, size, bold and italic of its source and with neither the
    underline nor the colour, while the plain path rebuilds the same run
    with all six. *)
Theorem hyperlink_path_drops_underline_and_color :
  _replace_in_paragraph (fun _ => "") underlined_paragraph
    [("{{GITHUB}}", VStr "jdoe")] (Some jdoe)
  = ([N_r {| run_text := "Profile: ";
             run_font := {| font_name := Some "Arial"; font_size := Some 139700;
                            font_bold := Some true; font_italic := None;
                            font_underline := None; font_color := None |} |};
      N_hyperlink
        {| target := "https://jdoe";
           hyperlink_runs :=
             [{| hr_rPr := {| rFonts_ascii := Some "Arial"; sz := Some 139700;
                              color_val := Some "0563C1"; u_val := Some "single" |};
                 hr_texts := ["Github"] |}] |}],
     Returned)
  /\
  _replace_in_paragraph (fun _ => "") underlined_paragraph
    [("{{GITHUB}}", VStr "jdoe")] None
  = ([N_r {| run_text := "Profile: "; run_font := red_underlined |};
      N_r {| run_text := "jdoe"; run_font := red_underlined |}],
     Returned).
Proof. split; reflexivity. Qed.

(** ** Without a profile *)

Lemma no_hyperlink_in_clear_paragraph p h : ~ In (N_hyperlink h) (clear_paragraph p).
Proof.
  assert (forall q, ~ In (N_hyperlink h) (clear_content q)) as Hc.
  { intros q H. apply filter_In in H as [_ H]. discriminate. }
  assert (forall q, ~ In (N_hyperlink h) (remove_pPr (clear_content q))) as Hr.
  { induction q as [|n q IH]; simpl; auto. destruct n; simpl; auto. }
  unfold clear_paragraph, restore_pPr. destruct (pPr p); [|apply Hc].
  intros [H|H]; [discriminate|].
  destruct (pPr (clear_content p)); [now apply Hr in H | now apply Hc in H].
Qed.

Lemma hyperlink_of_elements p h t :
  In (E_hyperlink h, t) (elements_of p) -> In (N_hyperlink h) p.
Proof.
  unfold elements_of. rewrite in_flat_map. intros [n [Hn H]].
  destruct n; simpl in H; try tauto; destruct H as [H|[]]; try discriminate.
  injection H as <- _. exact Hn.
Qed.

Lemma existing_of_whole els h :
  In (existing_hyperlink_item h) (whole_elements els) ->
  exists t, In (E_hyperlink h, t) els.
Proof.
  unfold whole_elements. rewrite in_flat_map. intros [[[r|h'] t] [He H]]; simpl in H.
  - destruct (String.eqb t ""); [destruct H | destruct H as [H|[]]; discriminate].
  - destruct H as [H|[]]. injection H as ->. now exists t.
Qed.

Lemma no_existing_in_text_before e o h :
  ~ In (existing_hyperlink_item h) (text_before e o).
Proof.
  unfold text_before. destruct e; [|tauto].
  destruct (String.eqb _ _); simpl; [tauto | intros [H|[]]; discriminate].
Qed.

Lemma no_existing_in_text_after els i z h :
  ~ In (existing_hyperlink_item h) (text_after els i z).
Proof.
  unfold text_after. destruct (nth_error els i) as [[[r|h'] t]|]; try tauto.
  destruct (String.eqb _ _); simpl; [tauto | intros [H|[]]; discriminate].
Qed.

Lemma hyperlink_of_plain_nodes items h :
  In (N_hyperlink h) (flat_map plain_nodes items) ->
  In (existing_hyperlink_item h) items.
Proof.
  rewrite in_flat_map. intros [it [Hit H]].
  destruct it; simpl in H; try tauto; destruct H as [H|[]]; try discriminate.
  now injection H as ->.
Qed.

Lemma in_firstn {A} (x : A) n l : In x (firstn n l) -> In x l.
Proof. intros H. rewrite <- (firstn_skipn n l). apply in_or_app. now left. Qed.

Lemma in_skipn {A} (x : A) n l : In x (skipn n l) -> In x l.
Proof. intros H. rewrite <- (firstn_skipn n l). apply in_or_app. now right. Qed.

(** The plain branch makes no hyperlink element. *)
Lemma replace_plain_no_new_hyperlink so p pos ph v h :
  In (N_hyperlink h)
     (fst (replace_plain so p (char_map_of 0 (elements_of p)) (elements_of p) pos ph v)) ->
  In (N_hyperlink h) p.
Proof.
  unfold replace_plain.
  destruct (resolve_span _ pos ph) as [[[[[si sk] so'] ei]|e]|]; cbn [fst]; auto.
  destruct (element_at (elements_of p) si) as [[se st]|e]; cbn [fst]; auto.
  destruct (match se with E_run r => Some r | E_hyperlink _ => first_run (elements_of p) end)
    as [tr|]; cbn [fst]; auto.
  rewrite plain_content_parts.
  assert (forall items,
             In (N_hyperlink h) (flat_map plain_nodes items) ->
             (forall it, In it items ->
                         In it (whole_elements (firstn si (elements_of p)))
                         \/ In it (text_before se so')
                         \/ In it [value_item (py_str so v) tr]
                         \/ In it (text_after (elements_of p) ei (pos + len ph))
                         \/ In it (whole_elements (skipn (ei + 1) (elements_of p)))) ->
             In (N_hyperlink h) p) as Hfrom.
  { intros items H Hsub. apply hyperlink_of_plain_nodes in H. apply Hsub in H.
    destruct H as [H|[H|[H|[H|H]]]].
    - apply existing_of_whole in H as [t H]. apply in_firstn in H.
      eapply hyperlink_of_elements; eauto.
    - now apply no_existing_in_text_before in H.
    - destruct H as [H|[]]; discriminate.
    - now apply no_existing_in_text_after in H.
    - apply existing_of_whole in H as [t H]. apply in_skipn in H.
      eapply hyperlink_of_elements; eauto. }
  destruct (rebuild_value_cases
              (whole_elements (firstn si (elements_of p)) ++ text_before se so')
              (py_str so v) tr
              (text_after (elements_of p) ei (pos + len ph)
                 ++ whole_elements (skipn (ei + 1) (elements_of p)))
              (clear_paragraph p) (xml_values_front _ _ _ _) (xml_values_behind _ _ _))
    as [E | (content & _ & E)]; rewrite E; cbn [fst]; rewrite in_app_iff.
  - intros [H|H]; [now apply no_hyperlink_in_clear_paragraph in H|].
    apply (Hfrom _ H). intros it Hit.
    rewrite in_app_iff in Hit. cbn [In] in Hit. rewrite !in_app_iff in Hit.
    cbn [In]. tauto.
  - intros [H|H]; [now apply no_hyperlink_in_clear_paragraph in H|].
    apply in_app_iff in H as [H|[H|[]]]; [|discriminate].
    apply (Hfrom _ H). intros it Hit. rewrite in_app_iff in Hit. tauto.
Qed.

Lemma replace_without_profile so p repl cv :
  cv_given cv = false ->
  forall pos ph v rest,
    sort (find_placeholders (paragraph_text p) repl) = (pos, ph, v) :: rest ->
    elements_of p <> [] ->
    _replace_in_paragraph so p repl cv
    = replace_plain so p (char_map_of 0 (elements_of p)) (elements_of p) pos ph v.
Proof.
  intros Hcv pos ph v rest Hs Hne. unfold _replace_in_paragraph.
  rewrite (sort_head_has_placeholder _ _ _ _ _ _ Hs). simpl negb. cbv iota.
  rewrite index_paragraph_eq. destruct (elements_of p) eqn:E; [congruence|].
  rewrite Hs. destruct cv as [cv|]; [|reflexivity].
  rewrite Hcv, andb_false_r. reflexivity.
Qed.

(** ** What [find] finds *)

Lemma find_from_first (hay needle : string) : forall i n,
  0 <= i ->
  find_from hay needle i = i + Z.of_nat n ->
  (exists after, hay = (take n hay ++ needle ++ after)%string) /\
  (n <= String.length hay)%nat /\
  (forall before after, hay = (before ++ needle ++ after)%string ->
                        (n <= String.length before)%nat).
Proof.
  induction hay as [|c hay IH]; intros i n Hi H; cbn [find_from] in H.
  - destruct (String.prefix needle "") eqn:P.
    + assert (n = 0%nat) as -> by lia. apply prefix_iff in P as [rest P].
      simpl. repeat split; [now exists rest | lia | intros; lia].
    + lia.
  - destruct (String.prefix needle (String c hay)) eqn:P.
    + assert (n = 0%nat) as -> by lia. apply prefix_iff in P as [rest P].
      simpl. repeat split; [now exists rest | lia | intros; lia].
    + destruct (find_from_contains hay needle (i + 1)) as [[_ Hf]|[_ Hf]]; try lia.
      * destruct n as [|n]; [lia|].
        destruct (IH (i + 1) n) as ([after Ha] & Hlen & Hmin); [lia|lia|].
        simpl. repeat split.
        -- exists after. now rewrite <- Ha.
        -- lia.
        -- intros [|d before] after' Heq.
           ++ simpl in Heq. assert (String.prefix needle (String c hay) = true)
                as Q by (apply prefix_iff; now exists after').
              congruence.
           ++ simpl in Heq. injection Heq as _ Heq. apply Hmin in Heq. simpl. lia.
Qed.

Lemma find_first (hay needle : string) (n : nat) :
  find hay needle = Z.of_nat n ->
  (exists after, hay = (take n hay ++ needle ++ after)%string) /\
  (n <= String.length hay)%nat /\
  (forall before after, hay = (before ++ needle ++ after)%string ->
                        (n <= String.length before)%nat).
Proof. intros H. apply (find_from_first hay needle 0 n); [lia | exact H]. Qed.

(** The match fits in the text. *)
Lemma find_fits (hay needle : string) (n : nat) :
  find hay needle = Z.of_nat n ->
  (n + String.length needle <= String.length hay)%nat.
Proof.
  intros H. destruct (find_first _ _ _ H) as ([after Ha] & Hn & _).
  apply (f_equal String.length) in Ha.
  rewrite !length_append, length_take in Ha by exact Hn. lia.
Qed.

(** ** The match of the pass *)

Lemma tuple_lt_pos a b : tuple_lt a b = true -> pos_of a <= pos_of b.
Proof.
  destruct a as [[pa ka] va], b as [[pb kb] vb]. unfold tuple_lt, pos_of. simpl.
  intros H. apply orb_true_iff in H as [H|H].
  - apply Z.ltb_lt in H. lia.
  - apply andb_true_iff in H as [H _]. apply Z.eqb_eq in H. lia.
Qed.

Lemma tuple_lt_false_pos a b : tuple_lt a b = false -> pos_of b <= pos_of a.
Proof.
  destruct a as [[pa ka] va], b as [[pb kb] vb]. unfold tuple_lt, pos_of. simpl.
  intros H. apply orb_false_iff in H as [H _]. apply Z.ltb_ge in H. exact H.
Qed.

Lemma insert_sorted_head_lowest x l :
  head_lowest l -> head_lowest (insert_sorted x l).
Proof.
  destruct l as [|y l]; simpl; intros H.
  - repeat constructor. lia.
  - destruct (tuple_lt y x) eqn:E; simpl.
    + apply tuple_lt_pos in E. rewrite Forall_forall in *.
      intros z [<-|Hz]; [lia|]. apply in_insert_sorted in Hz as [->|Hz]; [exact E|].
      apply H. now right.
    + apply tuple_lt_false_pos in E. constructor; [lia|].
      rewrite Forall_forall in *. intros z Hz. specialize (H z Hz). lia.
Qed.

Lemma sort_head_lowest l : head_lowest (sort l).
Proof.
  unfold sort. induction l as [|x l IH]; simpl; [exact I|].
  now apply insert_sorted_head_lowest.
Qed.

Lemma sort_nonempty l : l <> [] -> sort l <> [].
Proof.
  destruct l as [|x l]; [congruence|]. intros _ H.
  assert (In x (sort (x :: l))) as Hin by (apply in_sort; now left).
  rewrite H in Hin. destruct Hin.
Qed.

Lemma has_placeholder_found text (repl : dict) :
  has_placeholder text repl = true -> find_placeholders text repl <> [].
Proof.
  unfold has_placeholder. intros H. apply existsb_exists in H as [k [Hk Hc]].
  unfold keys in Hk. apply in_map_iff in Hk as [[k' v] [<- Hin]]. simpl in Hc.
  assert (In (find text k', k', v) (find_placeholders text repl)) as Hf.
  { apply in_find_placeholders. repeat split; auto.
    intros Hm. apply find_minus_one in Hm. congruence. }
  intros E. rewrite E in Hf. destruct Hf.
Qed.

(** A pass depends on the map only through the match it resolves. *)
Lemma replace_only_the_match so (p : Paragraph) (repl : dict) cv pos ph v rest :
  sort (find_placeholders (paragraph_text p) repl) = (pos, ph, v) :: rest ->
  _replace_in_paragraph so p repl cv = _replace_in_paragraph so p [(ph, v)] cv.
Proof.
  intros Hs. destruct (sort_head_found _ _ _ _ _ _ Hs) as (Hin & Hp & Hpos).
  unfold _replace_in_paragraph.
  rewrite (sort_head_has_placeholder _ _ _ _ _ _ Hs).
  rewrite (has_placeholder_of_key (paragraph_text p) [(ph, v)] ph v)
    by (simpl; auto; lia).
  simpl negb. cbv iota.
  destruct (index_paragraph p) as [cm els]. destruct els; [reflexivity|].
  rewrite Hs. unfold find_placeholders. simpl. rewrite <- Hp.
  destruct (Z.eqb_spec pos (-1)); [lia|]. reflexivity.
Qed.


(** ** Reading the map after an assignment *)

Lemma dict_lookup_set (r : dict) k v k' :
  dict_lookup (dict_set r k v) k' =
  if String.eqb k' k then Some v else dict_lookup r k'.
Proof.
  induction r as [|[k0 v0] r IH]; simpl.
  - destruct (String.eqb k' k); reflexivity.
  - destruct (String.eqb_spec k k0) as [->|Hne]; simpl.
    + destruct (String.eqb k' k0); reflexivity.
    + rewrite IH. destruct (String.eqb_spec k' k0) as [->|Hne'].
      * destruct (String.eqb_spec k0 k); [congruence | reflexivity].
      * reflexivity.
Qed.

Lemma dict_in_lookup (d : dict) k :
  dict_in k d = true <-> exists v, dict_lookup d k = Some v.
Proof.
  induction d as [|[k0 v0] d IH]; simpl.
  - split; [discriminate | intros [v H]; discriminate].
  - destruct (String.eqb k k0); simpl; [split; eauto | exact IH].
Qed.

Lemma dict_in_false_lookup (d : dict) k :
  dict_in k d = false <-> dict_lookup d k = None.
Proof.
  induction d as [|[k0 v0] d IH]; simpl.
  - tauto.
  - destruct (String.eqb k k0); simpl; [split; discriminate | exact IH].
Qed.

Lemma dict_get_found (d : dict) k v default :
  dict_lookup d k = Some v -> dict_get d k default = v.
Proof. intros H. unfold dict_get. now rewrite H. Qed.

Lemma dict_get_missing (d : dict) k default :
  dict_in k d = false -> dict_get d k default = default.
Proof. intros H. apply dict_in_false_lookup in H. unfold dict_get. now rewrite H. Qed.

(** ** The keys of the sections *)

Lemma eqb_append_l (a x y : string) :
  String.eqb (a ++ x) (a ++ y) = String.eqb x y.
Proof.
  induction a as [|c a IH]; simpl; [reflexivity|]. now rewrite Ascii.eqb_refl.
Qed.

Lemma prefix_append_l (a x y : string) :
  String.prefix (a ++ x) (a ++ y) = String.prefix x y.
Proof.
  induction a as [|c a IH]; cbn [append]; [reflexivity|].
  change (String.prefix (String c (a ++ x)) (String c (a ++ y)))
    with (if ascii_dec c c then String.prefix (a ++ x) (a ++ y) else false).
  destruct (ascii_dec c c); [exact IH | congruence].
Qed.

Lemma prefix_cons (c d : ascii) (a b : string) :
  String.prefix (String c a) (String d b) = true <-> c = d /\ String.prefix a b = true.
Proof.
  change (String.prefix (String c a) (String d b))
    with (if ascii_dec c d then String.prefix a b else false).
  destruct (ascii_dec c d); split; intros H; try tauto; try discriminate.
Qed.

Lemma separator_prefix (a b y : string) :
  no_underscore a -> no_underscore b ->
  String.prefix (a ++ "_") (b ++ String "_" y) = true -> a = b.
Proof.
  revert b. induction a as [|c a IH]; intros [|d b] Ha Hb H;
    cbn [append no_underscore] in *.
  - reflexivity.
  - apply prefix_cons in H as [<- _]. now destruct Hb.
  - apply prefix_cons in H as [-> _]. now destruct Ha.
  - apply prefix_cons in H as [-> H]. f_equal. apply IH; tauto.
Qed.

Lemma no_underscore_uint d : no_underscore (NilEmpty.string_of_uint d).
Proof. induction d; simpl; auto; split; auto; discriminate. Qed.

Lemma no_underscore_str_of_nat n : no_underscore (str_of_nat n).
Proof.
  unfold str_of_nat, NilZero.string_of_uint.
  destruct (Nat.to_uint n); try apply no_underscore_uint.
  simpl. split; [discriminate | exact I].
Qed.

Lemma str_of_nat_inj i j : str_of_nat i = str_of_nat j -> i = j.
Proof.
  assert (forall n, match NilZero.uint_of_string (str_of_nat n) with
                    | Some d => Nat.of_uint d
                    | None => 0%nat
                    end = n) as H.
  { intros n. unfold str_of_nat. pose proof (Unsigned.of_to n) as Hn.
    destruct (Nat.to_uint n) eqn:E;
      try (rewrite NilZero.usu by discriminate; exact Hn).
    simpl in *. exact Hn. }
  intros E. rewrite <- (H i), <- (H j), E. reflexivity.
Qed.

(** The keys of entry [j] of a section all start with the section's
    name, the position and an underscore; a key of entry [i] starts so
    only when [i] is [j]. *)
Lemma entry_prefix (section : string) (i j : nat) (rest : string) :
  String.prefix (section ++ str_of_nat j ++ "_")
                (section ++ str_of_nat i ++ String "_" rest) = true -> i = j.
Proof.
  rewrite prefix_append_l. intros H. apply separator_prefix in H.
  - symmetry. now apply str_of_nat_inj.
  - apply no_underscore_str_of_nat.
  - apply no_underscore_str_of_nat.
Qed.

(** ** What a stage of the flattener leaves alone *)

Lemma frame_refl w r : frame w r r.
Proof. intros k _. reflexivity. Qed.

Lemma frame_trans w r1 r2 r3 : frame w r1 r2 -> frame w r2 r3 -> frame w r1 r3.
Proof. intros H1 H2 k Hk. now rewrite (H2 k Hk), (H1 k Hk). Qed.

Lemma frame_set (w : string -> bool) r k v : w k = true -> frame w r (dict_set r k v).
Proof.
  intros Hw k' Hk'. rewrite dict_lookup_set.
  destruct (String.eqb_spec k' k); [congruence | reflexivity].
Qed.

Lemma frame_weaken (w1 w2 : string -> bool) r r' :
  (forall k, w1 k = true -> w2 k = true) -> frame w1 r r' -> frame w2 r r'.
Proof.
  intros Hw H k Hk. apply H. destruct (w1 k) eqn:E; [|reflexivity].
  apply Hw in E. congruence.
Qed.

Lemma prefix_shorter (a b k : string) :
  String.prefix (a ++ b) k = true -> String.prefix a k = true.
Proof.
  rewrite !prefix_iff. intros [rest ->]. exists (b ++ rest)%string.
  now rewrite append_assoc.
Qed.

Lemma for_enumerate_frame body (w : string -> bool) :
  (forall idx x r r', body idx x r = Ok r' -> frame w r r') ->
  forall items idx r r', for_enumerate body idx items r = Ok r' -> frame w r r'.
Proof.
  intros Hb. induction items as [|x items IH]; intros idx r r' H; simpl in H.
  - injection H as <-. apply frame_refl.
  - destruct (body idx x r) as [r1|e] eqn:E; [|discriminate]. simpl in H.
    eapply frame_trans; [eapply Hb; eauto | eapply IH; eauto].
Qed.

(** Entries after position [idx] write in their own frames. *)
Lemma for_enumerate_later body (w : nat -> string -> bool) :
  (forall idx x r r', body idx x r = Ok r' -> frame (w idx) r r') ->
  forall items idx r r' k,
    for_enumerate body idx items r = Ok r' ->
    (forall j, (idx <= j)%nat -> w j k = false) ->
    dict_lookup r' k = dict_lookup r k.
Proof.
  intros Hb. induction items as [|x items IH]; intros idx r r' k H Hk; simpl in H.
  - now injection H as <-.
  - destruct (body idx x r) as [r1|e] eqn:E; [|discriminate]. simpl in H.
    rewrite (IH _ _ _ k H) by (intros j Hj; apply Hk; lia).
    apply (Hb _ _ _ _ E). apply Hk. lia.
Qed.

(** The loop reaches entry [n] and goes on from what the entry leaves. *)
Lemma for_enumerate_nth body : forall items idx r r' n x,
  for_enumerate body idx items r = Ok r' ->
  nth_error items n = Some x ->
  exists r1 r2,
    body (idx + n)%nat x r1 = Ok r2 /\
    for_enumerate body (S (idx + n)) (skipn (S n) items) r2 = Ok r'.
Proof.
  induction items as [|y items IH]; intros idx r r' n x H Hn.
  - destruct n; discriminate.
  - simpl in H. destruct (body idx y r) as [r1|e] eqn:E; [|discriminate]. simpl in H.
    destruct n as [|n]; simpl in Hn.
    + injection Hn as ->. exists r, r1. rewrite Nat.add_0_r. simpl. auto.
    + destruct (IH _ _ _ _ _ H Hn) as (ra & rb & H1 & H2).
      exists ra, rb. replace (idx + S n)%nat with (S idx + n)%nat by lia. auto.
Qed.

Lemma section_loop_list cv section body r r' es :
  dict_lookup cv section = Some (VList es) ->
  section_loop cv section body r = Ok r' ->
  for_enumerate body 1%nat es r = Ok r'.
Proof.
  intros Hl H. unfold section_loop in H.
  assert (dict_in section cv = true) as Hin by (apply dict_in_lookup; eauto).
  rewrite Hin, (dict_get_found _ _ _ _ Hl) in H. exact H.
Qed.

Lemma section_loop_frame cv section body (w : string -> bool) r r' :
  (forall idx x r r', body idx x r = Ok r' -> frame w r r') ->
  section_loop cv section body r = Ok r' -> frame w r r'.
Proof.
  intros Hb H. unfold section_loop in H.
  destruct (dict_in section cv); [|injection H as <-; apply frame_refl].
  destruct (iterate _) as [items|e]; [|discriminate]. simpl in H.
  eapply for_enumerate_frame; eauto.
Qed.

(** Closes [prefix pre key = true] for a key spelled from [pre]. *)
Ltac key_prefix :=
  apply prefix_iff;
  unfold edu_key, exp_key, exp_achievement_key, proj_key, proj_desc_key;
  simpl; eexists; rewrite ?append_assoc; simpl; reflexivity.

Lemma education_entry_frame so idx edu r r' :
  education_entry so idx edu r = Ok r' ->
  frame (String.prefix ("{{EDU_" ++ str_of_nat idx ++ "_")) r r'.
Proof.
  unfold education_entry. destruct edu as [| | | | |e]; try discriminate.
  destruct (join_if_list _ _) as [c|]; [|discriminate]. simpl.
  intros H. destruct (truthy c); injection H as <-;
    repeat (eapply frame_trans; [|apply frame_set; key_prefix]); apply frame_refl.
Qed.

Lemma set_items_frame (key : nat -> string) (w : string -> bool) :
  (forall j, w (key j) = true) ->
  forall items idx r r',
    for_enumerate (fun j x r => Ok (dict_set r (key j) x)) idx items r = Ok r' ->
    frame w r r'.
Proof.
  intros Hk. apply for_enumerate_frame. intros idx x r r' H. injection H as <-.
  now apply frame_set.
Qed.

Lemma experience_entry_frame so idx exp r r' :
  experience_entry so idx exp r = Ok r' ->
  frame (String.prefix ("{{EXP_" ++ str_of_nat idx ++ "_")) r r'.
Proof.
  unfold experience_entry. destruct exp as [| | | | |e]; try discriminate.
  destruct (dict_get e "achievements" (VList [])) as [| | | |achievements|];
    try (intros H; injection H as <-;
         repeat (eapply frame_trans; [|apply frame_set; key_prefix]); apply frame_refl).
  destruct (for_enumerate _ _ _ _) as [r1|] eqn:E; [|discriminate]. simpl.
  destruct (join_values _ _) as [c|]; [|discriminate]. simpl.
  intros H. injection H as <-.
  eapply frame_trans; [|apply frame_set; key_prefix].
  eapply frame_trans; [|eapply (set_items_frame (exp_achievement_key idx)); eauto].
  - repeat (eapply frame_trans; [|apply frame_set; key_prefix]); apply frame_refl.
  - intros j. key_prefix.
Qed.

Lemma project_entry_frame idx proj r r' :
  project_entry idx proj r = Ok r' ->
  frame (String.prefix ("{{PROJ_" ++ str_of_nat idx ++ "_")) r r'.
Proof.
  unfold project_entry. destruct proj as [| | | | |p]; try discriminate.
  set (ds := match dict_get p "descriptions" (dict_get p "description" (VList [])) with
             | VStr _ => _ | _ => _ end).
  destruct ds as [| | | |ds|];
    try (intros H; injection H as <-;
         repeat (eapply frame_trans; [|apply frame_set; key_prefix]); apply frame_refl).
  destruct (for_enumerate _ _ _ _) as [r1|] eqn:E; [|discriminate]. simpl.
  intros H.
  assert (exists c, r' = dict_set r1 (proj_key idx "DESC") c) as [c ->].
  { destruct ds as [|d [|d' ds']].
    - destruct (join_values newline []) as [c|]; [|discriminate]. injection H as <-. eauto.
    - injection H as <-. eauto.
    - destruct (join_values newline (d :: d' :: ds')) as [c|]; [|discriminate].
      injection H as <-. eauto. }
  eapply frame_trans; [|apply frame_set; key_prefix].
  eapply frame_trans; [|eapply (set_items_frame (proj_desc_key idx)); eauto].
  - repeat (eapply frame_trans; [|apply frame_set; key_prefix]); apply frame_refl.
  - intros j. key_prefix.
Qed.

Lemma skills_tokens_frame skills r r' :
  skills_tokens skills r = Ok r' -> frame (String.prefix "{{SKILL") r r'.
Proof.
  unfold skills_tokens. destruct skills as [| | | | |s];
    try (intros H; injection H as <-; apply frame_refl).
  intros H.
  destruct (dict_in "languages" s);
    [destruct (join_if_list _ _) as [l|]; [|discriminate]|]; simpl in H;
  (destruct (dict_in (if dict_in "frameworks_tools" s then _ else _) s);
    [destruct (join_if_list _ _) as [f|]; [|discriminate]|]); simpl in H;
  injection H as <-;
  destruct (dict_in "language_processing" s), (dict_in "data_visualization" s);
  repeat (eapply frame_trans; [|apply frame_set; reflexivity]); apply frame_refl.
Qed.

(** The stages of [_build_replacements], one after the other. *)
Lemma build_stages so (cv : dict) (r : dict) :
  _build_replacements so cv = Ok r ->
  exists r1 r2 r3 r4,
    (if dict_in "personal_info" cv
     then personal_info_tokens (dict_get cv "personal_info" VNone) []
     else Ok []) = Ok r1 /\
    section_loop cv "education" (education_entry so) r1 = Ok r2 /\
    section_loop cv "experience" (experience_entry so) r2 = Ok r3 /\
    (if dict_in "skills" cv
     then skills_tokens (dict_get cv "skills" VNone) r3
     else Ok r3) = Ok r4 /\
    section_loop cv "projects" project_entry r4 = Ok r.
Proof.
  unfold _build_replacements. intros H.
  destruct (if dict_in "personal_info" cv then _ else _) as [r1|] eqn:E1;
    [|discriminate].
  simpl in H.
  destruct (section_loop cv "education" _ r1) as [r2|] eqn:E2; [|discriminate].
  simpl in H.
  destruct (section_loop cv "experience" _ r2) as [r3|] eqn:E3; [|discriminate].
  simpl in H.
  destruct (if dict_in "skills" cv then _ else _) as [r4|] eqn:E4; [|discriminate].
  simpl in H. exists r1, r2, r3, r4. repeat split; assumption.
Qed.

Lemma education_frame so cv r r' :
  section_loop cv "education" (education_entry so) r = Ok r' ->
  frame (String.prefix "{{EDU_") r r'.
Proof.
  apply section_loop_frame. intros idx x r0 r0' H.
  eapply frame_weaken; [|eapply education_entry_frame; eauto].
  intros k. apply prefix_shorter.
Qed.

Lemma experience_frame so cv r r' :
  section_loop cv "experience" (experience_entry so) r = Ok r' ->
  frame (String.prefix "{{EXP_") r r'.
Proof.
  apply section_loop_frame. intros idx x r0 r0' H.
  eapply frame_weaken; [|eapply experience_entry_frame; eauto].
  intros k. apply prefix_shorter.
Qed.

Lemma projects_frame cv r r' :
  section_loop cv "projects" project_entry r = Ok r' ->
  frame (String.prefix "{{PROJ_") r r'.
Proof.
  apply section_loop_frame. intros idx x r0 r0' H.
  eapply frame_weaken; [|eapply project_entry_frame; eauto].
  intros k. apply prefix_shorter.
Qed.

Lemma skills_frame cv r r' :
  (if dict_in "skills" cv then skills_tokens (dict_get cv "skills" VNone) r else Ok r)
  = Ok r' ->
  frame (String.prefix "{{SKILL") r r'.
Proof.
  destruct (dict_in "skills" cv); [apply skills_tokens_frame|].
  intros H. injection H as <-. apply frame_refl.
Qed.

(** ** The tokens of an entry *)

Lemma prefix_cons_same (c : ascii) (a b : string) :
  String.prefix (String c a) (String c b) = String.prefix a b.
Proof. exact (prefix_append_l (String c "") a b). Qed.

(** Decides [prefix pre key] for a key of the same entry. *)
Ltac key_not_prefix :=
  simpl; repeat (rewrite prefix_cons_same || rewrite prefix_append_l); reflexivity.

(** Decides [key =? key'] for two keys of one entry. *)
Ltac key_eqb :=
  unfold edu_key, exp_key, exp_achievement_key, proj_key, proj_desc_key;
  rewrite ?eqb_append_l; simpl.

Lemma education_entry_tokens so idx e r r' :
  education_entry so idx (VDict e) r = Ok r' ->
  dict_lookup r' (edu_key idx "SCHOOL")
    = Some (dict_get e "school" (dict_get e "institution" empty)) /\
  dict_lookup r' (edu_key idx "LOCATION") = Some (dict_get e "location" empty) /\
  dict_lookup r' (edu_key idx "DEGREE") = Some (dict_get e "degree" empty) /\
  dict_lookup r' (edu_key idx "DATE") = Some (entry_date so e) /\
  exists courses,
    dict_lookup r' (edu_key idx "COURSES") = Some courses /\
    (dict_in "courses" e = false -> courses = empty).
Proof.
  unfold education_entry.
  destruct (join_if_list ", " (dict_get e "courses" empty)) as [c|] eqn:J;
    [|discriminate].
  cbn [bind]. intros H.
  assert (dict_in "courses" e = false -> c = empty) as Hc.
  { intros Hm. rewrite (dict_get_missing _ _ _ Hm) in J. now injection J as <-. }
  destruct (truthy c) eqn:T; injection H as <-; rewrite !dict_lookup_set;
    repeat split; try (key_eqb; reflexivity).
  - exists c. split; [key_eqb; reflexivity|]. exact Hc.
  - exists empty. split; [key_eqb; reflexivity|]. reflexivity.
Qed.

Lemma experience_entry_tokens so idx e r r' :
  experience_entry so idx (VDict e) r = Ok r' ->
  dict_lookup r' (exp_key idx "COMPANY") = Some (dict_get e "company" empty) /\
  dict_lookup r' (exp_key idx "LOCATION") = Some (dict_get e "location" empty) /\
  dict_lookup r' (exp_key idx "TITLE") = Some (dict_get e "title" empty) /\
  dict_lookup r' (exp_key idx "DATE") = Some (entry_date so e) /\
  (dict_in "achievements" e = false ->
   dict_lookup r' (exp_key idx "ACHIEVEMENTS") = Some empty).
Proof.
  unfold experience_entry.
  set (r0 := dict_set (dict_set (dict_set (dict_set r _ _) _ _) _ _) _ _).
  assert (dict_lookup r0 (exp_key idx "COMPANY") = Some (dict_get e "company" empty) /\
          dict_lookup r0 (exp_key idx "LOCATION") = Some (dict_get e "location" empty) /\
          dict_lookup r0 (exp_key idx "TITLE") = Some (dict_get e "title" empty) /\
          dict_lookup r0 (exp_key idx "DATE") = Some (entry_date so e)) as H0.
  { subst r0. rewrite !dict_lookup_set. repeat split; key_eqb; reflexivity. }
  destruct (dict_in "achievements" e) eqn:A.
  - destruct (dict_get e "achievements" (VList [])) as [| | | |achievements|];
      try (intros H; injection H as <-; repeat split; try apply H0;
           intros; discriminate).
    destruct (for_enumerate _ _ _ _) as [r1|] eqn:E; [|discriminate]. cbn [bind].
    destruct (join_values _ _) as [c|]; [|discriminate]. cbn [bind].
    intros H. injection H as <-.
    assert (frame (String.prefix ("{{EXP_" ++ str_of_nat idx ++ "_ACHIEVEMENT_")) r0 r1)
      as F.
    { eapply (set_items_frame (exp_achievement_key idx)); eauto. intros j. key_prefix. }
    rewrite !dict_lookup_set.
    repeat split; try (intros; discriminate); key_eqb;
      (rewrite F; [apply H0|]); key_not_prefix.
  - rewrite (dict_get_missing _ _ _ A). cbn [for_enumerate bind join_values strings_of].
    intros H. injection H as <-. rewrite !dict_lookup_set.
    repeat split; key_eqb; try apply H0. reflexivity.
Qed.

Lemma project_entry_tokens idx p r r' :
  project_entry idx (VDict p) r = Ok r' ->
  dict_lookup r' (proj_key idx "NAME") = Some (dict_get p "name" empty) /\
  dict_lookup r' (proj_key idx "DATE") = Some (dict_get p "date" empty) /\
  (dict_in "descriptions" p = false -> dict_in "description" p = false ->
   dict_lookup r' (proj_key idx "DESC") = Some empty).
Proof.
  unfold project_entry.
  set (r0 := dict_set (dict_set r _ _) _ _).
  assert (dict_lookup r0 (proj_key idx "NAME") = Some (dict_get p "name" empty) /\
          dict_lookup r0 (proj_key idx "DATE") = Some (dict_get p "date" empty)) as H0.
  { subst r0. rewrite !dict_lookup_set. split; key_eqb; reflexivity. }
  set (ds := match dict_get p "descriptions" (dict_get p "description" (VList [])) with
             | VStr _ => _ | _ => _ end).
  assert (dict_in "descriptions" p = false -> dict_in "description" p = false ->
          ds = VList []) as Hds.
  { intros H1 H2. subst ds. now rewrite (dict_get_missing _ _ _ H1), (dict_get_missing _ _ _ H2). }
  destruct ds as [| | | |ds|];
    try (intros H; injection H as <-; repeat split; try apply H0;
         intros H1 H2; specialize (Hds H1 H2); discriminate).
  destruct (for_enumerate _ _ _ _) as [r1|] eqn:E; [|discriminate]. cbn [bind].
  assert (frame (String.prefix ("{{PROJ_" ++ str_of_nat idx ++ "_DESC_")) r0 r1) as F.
  { eapply (set_items_frame (proj_desc_key idx)); eauto. intros j. key_prefix. }
  intros H.
  assert (exists c, r' = dict_set r1 (proj_key idx "DESC") c /\ (ds = [] -> c = empty))
    as (c & -> & Hc).
  { destruct ds as [|d [|d' ds']].
    - cbn in H. injection H as <-. eauto.
    - injection H as <-. eexists. split; [reflexivity | discriminate].
    - destruct (join_values newline (d :: d' :: ds')) as [c|]; [|discriminate].
      injection H as <-. eexists. split; [reflexivity | discriminate]. }
  rewrite !dict_lookup_set. repeat split.
  - key_eqb. rewrite F; [apply H0|]. key_not_prefix.
  - key_eqb. rewrite F; [apply H0|]. key_not_prefix.
  - intros H1 H2. specialize (Hds H1 H2). injection Hds as ->.
    rewrite String.eqb_refl. now rewrite Hc.
Qed.

(** ** After a stage *)

Lemma after_skills_stage cv r4 r k :
  section_loop cv "projects" project_entry r4 = Ok r ->
  String.prefix "{{PROJ_" k = false ->
  dict_lookup r k = dict_lookup r4 k.
Proof. intros H Hk. exact (projects_frame _ _ _ H k Hk). Qed.

Lemma after_experience_stage cv r3 r4 r k :
  (if dict_in "skills" cv then skills_tokens (dict_get cv "skills" VNone) r3 else Ok r3)
  = Ok r4 ->
  section_loop cv "projects" project_entry r4 = Ok r ->
  String.prefix "{{SKILL" k = false ->
  String.prefix "{{PROJ_" k = false ->
  dict_lookup r k = dict_lookup r3 k.
Proof.
  intros H4 H5 Hs Hp. rewrite (after_skills_stage _ _ _ _ H5 Hp).
  exact (skills_frame _ _ _ H4 k Hs).
Qed.

Lemma after_education_stage so cv r2 r3 r4 r k :
  section_loop cv "experience" (experience_entry so) r2 = Ok r3 ->
  (if dict_in "skills" cv then skills_tokens (dict_get cv "skills" VNone) r3 else Ok r3)
  = Ok r4 ->
  section_loop cv "projects" project_entry r4 = Ok r ->
  String.prefix "{{EXP_" k = false ->
  String.prefix "{{SKILL" k = false ->
  String.prefix "{{PROJ_" k = false ->
  dict_lookup r k = dict_lookup r2 k.
Proof.
  intros H3 H4 H5 He Hs Hp. rewrite (after_experience_stage _ _ _ _ _ H4 H5 Hs Hp).
  exact (experience_frame _ _ _ _ H3 k He).
Qed.

(** A key of entry [idx] is not written by a later entry. *)
Lemma later_entries body section items idx r r' rest :
  (forall j x r r', body j x r = Ok r' ->
                    frame (String.prefix (section ++ str_of_nat j ++ "_")) r r') ->
  for_enumerate body (S idx) items r = Ok r' ->
  dict_lookup r' (section ++ str_of_nat idx ++ String "_" rest)
  = dict_lookup r (section ++ str_of_nat idx ++ String "_" rest).
Proof.
  intros Hb H.
  apply (for_enumerate_later body
           (fun j => String.prefix (section ++ str_of_nat j ++ "_")) Hb _ _ _ _ _ H).
  intros j Hj.
  destruct (String.prefix _ _) eqn:E; [|reflexivity].
  apply entry_prefix in E. lia.
Qed.

(** The entry at position [i] of a section list, and what follows it. *)
Lemma reach_entry cv section body r r' es i x :
  dict_lookup cv section = Some (VList es) ->
  nth_error es i = Some x ->
  section_loop cv section body r = Ok r' ->
  exists ra rb,
    body (S i) x ra = Ok rb /\
    for_enumerate body (S (S i)) (skipn (S i) es) rb = Ok r'.
Proof.
  intros Hl Hn H. apply (section_loop_list _ _ _ _ _ _ Hl) in H.
  destruct (for_enumerate_nth _ _ _ _ _ _ _ H Hn) as (ra & rb & H1 & H2).
  exists ra, rb. auto.
Qed.

(** ** The tokens of a section in the finished map *)

Lemma education_tokens so (cv r : dict) es i e :
  _build_replacements so cv = Ok r ->
  dict_lookup cv "education" = Some (VList es) ->
  nth_error es i = Some (VDict e) ->
  dict_lookup r (edu_key (S i) "SCHOOL")
    = Some (dict_get e "school" (dict_get e "institution" empty)) /\
  dict_lookup r (edu_key (S i) "LOCATION") = Some (dict_get e "location" empty) /\
  dict_lookup r (edu_key (S i) "DEGREE") = Some (dict_get e "degree" empty) /\
  dict_lookup r (edu_key (S i) "DATE") = Some (entry_date so e) /\
  exists courses,
    dict_lookup r (edu_key (S i) "COURSES") = Some courses /\
    (dict_in "courses" e = false -> courses = empty).
Proof.
  intros H Hl Hn.
  destruct (build_stages _ _ _ H) as (r1 & r2 & r3 & r4 & H1 & H2 & H3 & H4 & H5).
  destruct (reach_entry _ _ _ _ _ _ _ _ Hl Hn H2) as (ra & rb & Hb & Hrest).
  assert (forall f, dict_lookup r (edu_key (S i) f) = dict_lookup rb (edu_key (S i) f))
    as Keep.
  { intros f.
    rewrite (after_education_stage _ _ _ _ _ _ _ H3 H4 H5) by reflexivity.
    exact (later_entries (education_entry so) "{{EDU_" _ (S i) _ _ (f ++ "}}")%string
             (education_entry_frame so) Hrest). }
  rewrite !Keep. exact (education_entry_tokens _ _ _ _ _ Hb).
Qed.

Lemma experience_tokens so (cv r : dict) es i e :
  _build_replacements so cv = Ok r ->
  dict_lookup cv "experience" = Some (VList es) ->
  nth_error es i = Some (VDict e) ->
  dict_lookup r (exp_key (S i) "COMPANY") = Some (dict_get e "company" empty) /\
  dict_lookup r (exp_key (S i) "LOCATION") = Some (dict_get e "location" empty) /\
  dict_lookup r (exp_key (S i) "TITLE") = Some (dict_get e "title" empty) /\
  dict_lookup r (exp_key (S i) "DATE") = Some (entry_date so e) /\
  (dict_in "achievements" e = false ->
   dict_lookup r (exp_key (S i) "ACHIEVEMENTS") = Some empty).
Proof.
  intros H Hl Hn.
  destruct (build_stages _ _ _ H) as (r1 & r2 & r3 & r4 & H1 & H2 & H3 & H4 & H5).
  destruct (reach_entry _ _ _ _ _ _ _ _ Hl Hn H3) as (ra & rb & Hb & Hrest).
  assert (forall f, dict_lookup r (exp_key (S i) f) = dict_lookup rb (exp_key (S i) f))
    as Keep.
  { intros f.
    rewrite (after_experience_stage _ _ _ _ _ H4 H5) by reflexivity.
    exact (later_entries (experience_entry so) "{{EXP_" _ (S i) _ _ (f ++ "}}")%string
             (experience_entry_frame so) Hrest). }
  rewrite !Keep. exact (experience_entry_tokens _ _ _ _ _ Hb).
Qed.

Lemma project_tokens so (cv r : dict) ps i p :
  _build_replacements so cv = Ok r ->
  dict_lookup cv "projects" = Some (VList ps) ->
  nth_error ps i = Some (VDict p) ->
  dict_lookup r (proj_key (S i) "NAME") = Some (dict_get p "name" empty) /\
  dict_lookup r (proj_key (S i) "DATE") = Some (dict_get p "date" empty) /\
  (dict_in "descriptions" p = false -> dict_in "description" p = false ->
   dict_lookup r (proj_key (S i) "DESC") = Some empty).
Proof.
  intros H Hl Hn.
  destruct (build_stages _ _ _ H) as (r1 & r2 & r3 & r4 & H1 & H2 & H3 & H4 & H5).
  destruct (reach_entry _ _ _ _ _ _ _ _ Hl Hn H5) as (ra & rb & Hb & Hrest).
  assert (forall f, dict_lookup r (proj_key (S i) f) = dict_lookup rb (proj_key (S i) f))
    as Keep.
  { intros f.
    exact (later_entries project_entry "{{PROJ_" _ (S i) _ _ (f ++ "}}")%string
             project_entry_frame Hrest). }
  rewrite !Keep. exact (project_entry_tokens _ _ _ _ Hb).
Qed.

Lemma personal_tokens so (cv r : dict) p :
  _build_replacements so cv = Ok r ->
  dict_lookup cv "personal_info" = Some (VDict p) ->
  dict_lookup r "{{NAME}}" = Some (dict_get p "name" empty) /\
  dict_lookup r "{{Name}}" = Some (dict_get p "name" empty) /\
  dict_lookup r "{{LOCATION}}" = Some (dict_get p "location" empty) /\
  dict_lookup r "{{EMAIL}}" = Some (dict_get p "email" empty) /\
  dict_lookup r "{{PHONE}}" = Some (dict_get p "phone" empty) /\
  dict_lookup r "{{GITHUB}}" = Some (dict_get p "github" empty) /\
  dict_lookup r "{{LINKEDIN}}" = Some (dict_get p "linkedin" empty).
Proof.
  intros H Hl.
  destruct (build_stages _ _ _ H) as (r1 & r2 & r3 & r4 & H1 & H2 & H3 & H4 & H5).
  assert (dict_in "personal_info" cv = true) as Hin by (apply dict_in_lookup; eauto).
  rewrite Hin, (dict_get_found _ _ _ _ Hl) in H1. cbn in H1. injection H1 as <-.
  assert (forall k, String.prefix "{{EDU_" k = false -> String.prefix "{{EXP_" k = false ->
                    String.prefix "{{SKILL" k = false -> String.prefix "{{PROJ_" k = false ->
                    dict_lookup r k = dict_lookup
                      [("{{NAME}}", dict_get p "name" empty);
                       ("{{Name}}", dict_get p "name" empty);
                       ("{{LOCATION}}", dict_get p "location" empty);
                       ("{{EMAIL}}", dict_get p "email" empty);
                       ("{{PHONE}}", dict_get p "phone" empty);
                       ("{{GITHUB}}", dict_get p "github" empty);
                       ("{{LINKEDIN}}", dict_get p "linkedin" empty)] k) as Keep.
  { intros k He Hx Hs Hp.
    rewrite (after_education_stage _ _ _ _ _ _ _ H3 H4 H5) by assumption.
    exact (education_frame _ _ _ _ H2 k He). }
  repeat split; rewrite Keep by reflexivity; reflexivity.
Qed.

Lemma personal_stage_no_skill_key (cv r1 : dict) k :
  (if dict_in "personal_info" cv
   then personal_info_tokens (dict_get cv "personal_info" VNone) []
   else Ok []) = Ok r1 ->
  String.prefix "{{SKILL" k = true ->
  dict_lookup r1 k = None.
Proof.
  intros H Hk. apply prefix_iff in Hk as [rest ->].
  destruct (dict_in "personal_info" cv); [|now injection H as <-].
  destruct (dict_get cv "personal_info" VNone); try discriminate.
  cbn in H. injection H as <-. reflexivity.
Qed.

Lemma skills_stage_absent (s r3 r4 : dict) :
  skills_tokens (VDict s) r3 = Ok r4 ->
  (forall k, String.prefix "{{SKILL" k = true -> dict_lookup r3 k = None) ->
  (dict_in "languages" s = false ->
   dict_lookup r4 "{{SKILL_LANGUAGE}}" = None /\
   dict_lookup r4 "{{SKILLS_LANGUAGES}}" = None) /\
  (dict_in "frameworks_tools" s = false -> dict_in "frameworks_and_tools" s = false ->
   dict_lookup r4 "{{SKILL_FRAME_TOOL}}" = None /\
   dict_lookup r4 "{{SKILLS_FRAMEWORKS_TOOLS}}" = None) /\
  (dict_in "language_processing" s = false ->
   dict_lookup r4 "{{SKILLS_LANGUAGE_PROCESSING}}" = None) /\
  (dict_in "data_visualization" s = false ->
   dict_lookup r4 "{{SKILLS_DATA_VIZ}}" = None).
Proof.
  intros H N. unfold skills_tokens in H.
  destruct (dict_in "languages" s) eqn:L;
    [destruct (join_if_list ", " (dict_get s "languages" VNone)); [|discriminate]|];
    cbn [bind] in H;
    (destruct (dict_in "frameworks_tools" s) eqn:F1;
     [|destruct (dict_in "frameworks_and_tools" s) eqn:F2]);
    try rewrite F1 in H; try rewrite F2 in H;
    try (destruct (join_if_list ", " (dict_get s _ VNone)); [|discriminate]);
    cbn [bind] in H;
    destruct (dict_in "language_processing" s) eqn:P;
    destruct (dict_in "data_visualization" s) eqn:D;
    injection H as <-; rewrite ?dict_lookup_set; simpl;
    repeat split; intros; try discriminate; apply N; reflexivity.
Qed.

Lemma skills_tokens_absent so (cv r : dict) s :
  _build_replacements so cv = Ok r ->
  dict_lookup cv "skills" = Some (VDict s) ->
  (dict_in "languages" s = false ->
   dict_lookup r "{{SKILL_LANGUAGE}}" = None /\
   dict_lookup r "{{SKILLS_LANGUAGES}}" = None) /\
  (dict_in "frameworks_tools" s = false -> dict_in "frameworks_and_tools" s = false ->
   dict_lookup r "{{SKILL_FRAME_TOOL}}" = None /\
   dict_lookup r "{{SKILLS_FRAMEWORKS_TOOLS}}" = None) /\
  (dict_in "language_processing" s = false ->
   dict_lookup r "{{SKILLS_LANGUAGE_PROCESSING}}" = None) /\
  (dict_in "data_visualization" s = false ->
   dict_lookup r "{{SKILLS_DATA_VIZ}}" = None).
Proof.
  intros H Hl.
  destruct (build_stages _ _ _ H) as (r1 & r2 & r3 & r4 & H1 & H2 & H3 & H4 & H5).
  assert (dict_in "skills" cv = true) as Hin by (apply dict_in_lookup; eauto).
  rewrite Hin, (dict_get_found _ _ _ _ Hl) in H4.
  assert (forall k, String.prefix "{{SKILL" k = true -> dict_lookup r3 k = None) as N.
  { intros k Hk. apply prefix_iff in Hk as [rest ->].
    rewrite (experience_frame _ _ _ _ H3) by reflexivity.
    rewrite (education_frame _ _ _ _ H2) by reflexivity.
    apply (personal_stage_no_skill_key _ _ _ H1). apply prefix_iff. now exists rest. }
  rewrite !(after_skills_stage _ _ _ _ H5) by reflexivity.
  exact (skills_stage_absent _ _ _ H4 N).
Qed.

(** Claim C4, at an input where it fails: a profile whose [skills]
    section is there and has no [languages] field.  The tokens of the
    field are not keys of the map. *)
Lemma skills_without_languages_has_no_token :
  _build_replacements (fun _ => "")
    [("skills", VDict [("frameworks_tools", VList [VStr "Django"; VStr "Docker"])])]
  = Ok [("{{SKILL_FRAME_TOOL}}", VStr "Django, Docker");
        ("{{SKILLS_FRAMEWORKS_TOOLS}}", VStr "Django, Docker")]
  /\
  dict_in "{{SKILL_LANGUAGE}}"
    [("{{SKILL_FRAME_TOOL}}", VStr "Django, Docker");
     ("{{SKILLS_FRAMEWORKS_TOOLS}}", VStr "Django, Docker")] = false.
Proof. split; reflexivity. Qed.

(** Claim C4, amended.  In the finished map every fixed token of
    [personal_info] and of an entry of [education], [experience] or
    [projects] is a key, and its value is the field of the entry, or the
    empty string when the field is missing ([dict_get] with the default
    [empty]; for the date, [entry_date]; for the joined tokens, the
    empty string when the list is missing).  The tokens of [skills] are
    keys only for the fields that are there: a missing field leaves its
    tokens out of the map. *)
Theorem section_tokens_assigned so (cv r : dict) :
  _build_replacements so cv = Ok r ->
  (forall p,
      dict_lookup cv "personal_info" = Some (VDict p) ->
      dict_lookup r "{{NAME}}" = Some (dict_get p "name" empty) /\
      dict_lookup r "{{Name}}" = Some (dict_get p "name" empty) /\
      dict_lookup r "{{LOCATION}}" = Some (dict_get p "location" empty) /\
      dict_lookup r "{{EMAIL}}" = Some (dict_get p "email" empty) /\
      dict_lookup r "{{PHONE}}" = Some (dict_get p "phone" empty) /\
      dict_lookup r "{{GITHUB}}" = Some (dict_get p "github" empty) /\
      dict_lookup r "{{LINKEDIN}}" = Some (dict_get p "linkedin" empty)) /\
  (forall es i e,
      dict_lookup cv "education" = Some (VList es) ->
      nth_error es i = Some (VDict e) ->
      dict_lookup r (edu_key (S i) "SCHOOL")
        = Some (dict_get e "school" (dict_get e "institution" empty)) /\
      dict_lookup r (edu_key (S i) "LOCATION") = Some (dict_get e "location" empty) /\
      dict_lookup r (edu_key (S i) "DEGREE") = Some (dict_get e "degree" empty) /\
      dict_lookup r (edu_key (S i) "DATE") = Some (entry_date so e) /\
      exists courses,
        dict_lookup r (edu_key (S i) "COURSES") = Some courses /\
        (dict_in "courses" e = false -> courses = empty)) /\
  (forall es i e,
      dict_lookup cv "experience" = Some (VList es) ->
      nth_error es i = Some (VDict e) ->
      dict_lookup r (exp_key (S i) "COMPANY") = Some (dict_get e "company" empty) /\
      dict_lookup r (exp_key (S i) "LOCATION") = Some (dict_get e "location" empty) /\
      dict_lookup r (exp_key (S i) "TITLE") = Some (dict_get e "title" empty) /\
      dict_lookup r (exp_key (S i) "DATE") = Some (entry_date so e) /\
      (dict_in "achievements" e = false ->
       dict_lookup r (exp_key (S i) "ACHIEVEMENTS") = Some empty)) /\
  (forall ps i p,
      dict_lookup cv "projects" = Some (VList ps) ->
      nth_error ps i = Some (VDict p) ->
      dict_lookup r (proj_key (S i) "NAME") = Some (dict_get p "name" empty) /\
      dict_lookup r (proj_key (S i) "DATE") = Some (dict_get p "date" empty) /\
      (dict_in "descriptions" p = false -> dict_in "description" p = false ->
       dict_lookup r (proj_key (S i) "DESC") = Some empty)) /\
  (forall s,
      dict_lookup cv "skills" = Some (VDict s) ->
      (dict_in "languages" s = false ->
       dict_lookup r "{{SKILL_LANGUAGE}}" = None /\
       dict_lookup r "{{SKILLS_LANGUAGES}}" = None) /\
      (dict_in "frameworks_tools" s = false -> dict_in "frameworks_and_tools" s = false ->
       dict_lookup r "{{SKILL_FRAME_TOOL}}" = None /\
       dict_lookup r "{{SKILLS_FRAMEWORKS_TOOLS}}" = None) /\
      (dict_in "language_processing" s = false ->
       dict_lookup r "{{SKILLS_LANGUAGE_PROCESSING}}" = None) /\
      (dict_in "data_visualization" s = false ->
       dict_lookup r "{{SKILLS_DATA_VIZ}}" = None)).
Proof.
  intros H. repeat apply conj.
  - intros p. exact (personal_tokens so cv r p H).
  - intros es i e. exact (education_tokens so cv r es i e H).
  - intros es i e. exact (experience_tokens so cv r es i e H).
  - intros ps i p. exact (project_tokens so cv r ps i p H).
  - intros s. exact (skills_tokens_absent so cv r s H).
Qed.

(** The date of an entry without [date] and without one of the two ends
    is the empty string. *)
Lemma entry_date_missing so (e : dict) :
  dict_in "date" e = false ->
  dict_in "start_date" e = false \/ dict_in "end_date" e = false ->
  entry_date so e = empty.
Proof.
  intros Hd Hs. unfold entry_date. rewrite (dict_get_missing _ _ _ Hd).
  destruct Hs as [-> | ->]; simpl; [reflexivity|].
  now rewrite andb_false_r.
Qed.

Lemma section_tokens_assigned_witness :
  dict_lookup sparse_map "{{EMAIL}}" = Some empty /\
  dict_lookup sparse_map "{{EDU_1_DEGREE}}" = Some empty /\
  dict_lookup sparse_map "{{EXP_1_ACHIEVEMENTS}}" = Some empty /\
  dict_lookup sparse_map "{{PROJ_1_DESC}}" = Some empty /\
  dict_lookup sparse_map "{{SKILL_LANGUAGE}}" = None.
Proof.
  pose proof (section_tokens_assigned (fun _ => "") sparse_profile sparse_map eq_refl)
    as (Hp & He & Hx & Hj & Hs).
  refine (conj _ (conj _ (conj _ (conj _ _)))).
  - exact (proj1 (proj2 (proj2 (proj2 (Hp _ eq_refl))))).
  - exact (proj1 (proj2 (proj2 (He _ 0%nat _ eq_refl eq_refl)))).
  - exact (proj2 (proj2 (proj2 (proj2 (Hx _ 0%nat _ eq_refl eq_refl)))) eq_refl).
  - exact (proj2 (proj2 (Hj _ 0%nat _ eq_refl eq_refl)) eq_refl eq_refl).
  - exact (proj1 (proj1 (Hs _ eq_refl) eq_refl)).
Defined.

(** ** Cutting and counting in a text *)

Lemma braces_append (a b : string) :
  braces (a ++ b) = (braces a + braces b)%nat.
Proof. induction a as [|c a IH]; simpl; [reflexivity | rewrite IH; lia]. Qed.

Lemma braces_take_drop (n : nat) (s : string) :
  braces s = (braces (take n s) + braces (drop n s))%nat.
Proof. now rewrite <- braces_append, take_drop. Qed.

Lemma braces_drop_le (n : nat) (s : string) : (braces (drop n s) <= braces s)%nat.
Proof. rewrite (braces_take_drop n s). lia. Qed.

Lemma take_app_plus (a b : string) (n : nat) :
  take (String.length a + n) (a ++ b) = (a ++ take n b)%string.
Proof. induction a as [|c a IH]; simpl; [reflexivity | now rewrite IH]. Qed.

Lemma drop_app_plus (a b : string) (n : nat) :
  drop (String.length a + n) (a ++ b) = drop n b.
Proof. induction a as [|c a IH]; simpl; [reflexivity | exact IH]. Qed.

Lemma take_app_le (a b : string) (n : nat) :
  (n <= String.length a)%nat -> take n (a ++ b) = take n a.
Proof.
  revert a. induction n as [|n IH]; intros [|c a] H; simpl in *;
    try reflexivity; try lia.
  rewrite IH; [reflexivity | lia].
Qed.

Lemma drop_app_le (a b : string) (n : nat) :
  (n <= String.length a)%nat -> drop n (a ++ b) = (drop n a ++ b)%string.
Proof.
  revert a. induction n as [|n IH]; intros [|c a] H; simpl in *;
    try reflexivity; try lia.
  apply IH. lia.
Qed.

Lemma drop_drop (m n : nat) (s : string) : drop n (drop m s) = drop (m + n) s.
Proof.
  revert s. induction m as [|m IH]; intros s; simpl.
  - now destruct s.
  - destruct s as [|c s]; [now destruct n | apply IH].
Qed.

Lemma length_drop (n : nat) (s : string) :
  String.length (drop n s) = (String.length s - n)%nat.
Proof.
  revert s. induction n as [|n IH]; intros [|c s]; simpl; try reflexivity. apply IH.
Qed.

Lemma concat_str_cons (x : string) (l : list string) :
  concat_str (x :: l) = (x ++ concat_str l)%string.
Proof.
  unfold concat_str, join. destruct l; simpl; [now rewrite append_empty_r | reflexivity].
Qed.

Lemma concat_str_app (l m : list string) :
  concat_str (l ++ m) = (concat_str l ++ concat_str m)%string.
Proof.
  induction l as [|x l IH]; [reflexivity|].
  change ((x :: l) ++ m) with (x :: (l ++ m)).
  now rewrite !concat_str_cons, IH, append_assoc.
Qed.

Lemma paragraph_text_app (p q : Paragraph) :
  paragraph_text (p ++ q) = (paragraph_text p ++ paragraph_text q)%string.
Proof. unfold paragraph_text. now rewrite map_app, concat_str_app. Qed.

Lemma paragraph_text_cons (n : node) (p : Paragraph) :
  paragraph_text (n :: p) = (node_text n ++ paragraph_text p)%string.
Proof. unfold paragraph_text. simpl map. apply concat_str_cons. Qed.

(** When [find] answers [n], the text is what precedes the match, the
    token, and what follows it. *)
Lemma find_splits (hay needle : string) (n : nat) :
  find hay needle = Z.of_nat n ->
  hay = (take n hay ++ needle ++ drop (n + String.length needle) hay)%string.
Proof.
  intros H. destruct (find_first _ _ _ H) as ([after Ha] & Hn & _).
  assert (drop (n + String.length needle) hay = after) as ->; [|exact Ha].
  rewrite Ha at 1. rewrite <- (length_take n hay Hn) at 1.
  rewrite drop_app_plus. apply drop_app_length.
Qed.

(** ** The indexed text, element by element *)

Lemma indexed_text_app (a b : list (element * string)) :
  indexed_text (a ++ b) = (indexed_text a ++ indexed_text b)%string.
Proof.
  induction a as [|e a IH]; simpl; [reflexivity | now rewrite IH, append_assoc].
Qed.

Lemma indexed_text_split (els : list (element * string)) i e t :
  nth_error els i = Some (e, t) ->
  indexed_text els
  = (indexed_text (firstn i els) ++ t ++ indexed_text (skipn (S i) els))%string.
Proof.
  revert i. induction els as [|x els IH]; intros [|i] H; simpl in H; try discriminate.
  - injection H as ->. reflexivity.
  - simpl. rewrite (IH i H). now rewrite append_assoc.
Qed.

Lemma chars_before_length (els : list (element * string)) i :
  chars_before els i = Z.of_nat (String.length (indexed_text (firstn i els))).
Proof.
  unfold chars_before. induction (firstn i els) as [|x l IH]; simpl; [reflexivity|].
  rewrite IH, length_append. unfold len. lia.
Qed.

Lemma indexed_text_paragraph (p : Paragraph) :
  well_indexed p -> indexed_text (elements_of p) = paragraph_text p.
Proof.
  induction p as [|n p IH]; intros H; [reflexivity|].
  rewrite paragraph_text_cons. unfold elements_of. simpl flat_map.
  rewrite indexed_text_app. fold (elements_of p).
  rewrite IH by (intros h Hh; apply H; now right).
  f_equal. destruct n; simpl; try reflexivity.
  - now rewrite append_empty_r.
  - rewrite append_empty_r. apply H. now left.
Qed.

Lemma element_run_text (p : Paragraph) r t :
  In (E_run r, t) (elements_of p) -> t = run_text r.
Proof.
  unfold elements_of. rewrite in_flat_map. intros [n [_ H]].
  destruct n; simpl in H; try tauto; destruct H as [H|[]]; try discriminate.
  now injection H as <- <-.
Qed.

Lemma element_hyperlink_text (p : Paragraph) h t :
  In (E_hyperlink h, t) (elements_of p) ->
  t = hyperlink_display_text h /\ In (N_hyperlink h) p.
Proof.
  unfold elements_of. rewrite in_flat_map. intros [n [Hn H]].
  destruct n; simpl in H; try tauto; destruct H as [H|[]]; try discriminate.
  injection H as <- <-. auto.
Qed.

(** ** The text of a rebuilt paragraph *)

Lemma items_text_app (a b : list content_item) :
  items_text (a ++ b) = (items_text a ++ items_text b)%string.
Proof. unfold items_text. now rewrite map_app, concat_str_app. Qed.

(** A rebuilt run reads back its text with a line feed for every
    carriage return, so the text of the items and the text of the
    children they give agree once both are read that way. *)
Lemma text_plain_nodes (items : list content_item) :
  no_new_hyperlink items ->
  read_back (paragraph_text (flat_map plain_nodes items)) = read_back (items_text items).
Proof.
  induction 1 as [|it items Hit _ IH]; [reflexivity|].
  simpl flat_map. rewrite paragraph_text_app, read_back_append, IH.
  unfold items_text. simpl map. rewrite concat_str_cons, read_back_append. f_equal.
  destruct it; try contradiction; unfold paragraph_text;
    cbn [plain_nodes map node_text run_text item_text];
    rewrite ?concat_str_cons; change (concat_str []) with "";
    rewrite ?append_empty_r, ?read_back_twice; reflexivity.
Qed.

Lemma text_hyperlink_path_nodes (items : list content_item) :
  string_urls items ->
  read_back (paragraph_text (flat_map hyperlink_path_nodes items))
  = read_back (items_text items).
Proof.
  induction 1 as [|it items Hit _ IH]; [reflexivity|].
  simpl flat_map. rewrite paragraph_text_app, read_back_append, IH.
  unfold items_text. simpl map. rewrite concat_str_cons, read_back_append. f_equal.
  destruct it as [text src|text src|d src url|h]; [| |destruct Hit as [u ->]|];
    unfold paragraph_text;
    cbn [hyperlink_path_nodes map node_text run_text item_text];
    rewrite ?concat_str_cons; change (concat_str []) with "";
    rewrite ?append_empty_r, ?read_back_twice; reflexivity.
Qed.

Lemma braces_read_back (s : string) : braces (read_back s) = braces s.
Proof.
  induction s as [|c s IH]; simpl; [reflexivity|]. rewrite IH.
  destruct (Ascii.eqb_spec c carriage_return) as [->|]; reflexivity.
Qed.

Lemma braces_plain_nodes (items : list content_item) :
  no_new_hyperlink items ->
  braces (paragraph_text (flat_map plain_nodes items)) = braces (items_text items).
Proof.
  intros H. rewrite <- braces_read_back, text_plain_nodes by assumption.
  apply braces_read_back.
Qed.

Lemma braces_hyperlink_path_nodes (items : list content_item) :
  string_urls items ->
  braces (paragraph_text (flat_map hyperlink_path_nodes items)) = braces (items_text items).
Proof.
  intros H. rewrite <- braces_read_back, text_hyperlink_path_nodes by assumption.
  apply braces_read_back.
Qed.

Lemma clear_paragraph_only_pPr (p : Paragraph) :
  Forall (fun n => is_pPr n = true) (clear_paragraph p).
Proof.
  assert (Forall (fun n => is_pPr n = true) (clear_content p)) as Hc.
  { apply Forall_forall. intros n Hn. now apply filter_In in Hn. }
  assert (forall q, Forall (fun n => is_pPr n = true) q ->
                    Forall (fun n => is_pPr n = true) (remove_pPr q)) as Hr.
  { induction 1 as [|n q Hn Hq IH]; simpl; [constructor|].
    destruct n; try discriminate. exact Hq. }
  unfold clear_paragraph, restore_pPr.
  destruct (pPr p); [|exact Hc].
  constructor; [reflexivity|]. destruct (pPr (clear_content p)); auto.
Qed.

Lemma paragraph_text_clear (p : Paragraph) : paragraph_text (clear_paragraph p) = "".
Proof.
  induction (clear_paragraph_only_pPr p) as [|n q Hn _ IH]; [reflexivity|].
  rewrite paragraph_text_cons, IH. destruct n; try discriminate. reflexivity.
Qed.

Lemma no_new_hyperlink_app a b :
  no_new_hyperlink a -> no_new_hyperlink b -> no_new_hyperlink (a ++ b).
Proof. unfold no_new_hyperlink. intros. now apply Forall_app. Qed.

Lemma no_new_hyperlink_whole els : no_new_hyperlink (whole_elements els).
Proof.
  unfold no_new_hyperlink, whole_elements. apply Forall_flat_map, Forall_forall.
  intros [[r|h] t] _; simpl; [destruct (String.eqb t "")|]; repeat constructor.
Qed.

Lemma no_new_hyperlink_text_before e o : no_new_hyperlink (text_before e o).
Proof.
  unfold no_new_hyperlink, text_before. destruct e; [|constructor].
  destruct (String.eqb _ _); repeat constructor.
Qed.

Lemma no_new_hyperlink_text_after els i z : no_new_hyperlink (text_after els i z).
Proof.
  unfold no_new_hyperlink, text_after.
  destruct (nth_error els i) as [[[r|h] t]|]; try constructor.
  destruct (String.eqb _ _); repeat constructor.
Qed.

(** Elements taken whole keep their text. *)
Lemma whole_elements_text (p : Paragraph) (els : list (element * string)) :
  well_indexed p ->
  (forall x, In x els -> In x (elements_of p)) ->
  items_text (whole_elements els) = indexed_text els.
Proof.
  intros Hw. induction els as [|[e t] els IH]; intros Hin; [reflexivity|].
  change (whole_elements ((e, t) :: els))
    with ((match e with
           | E_run r => if String.eqb t "" then [] else [text_item t r]
           | E_hyperlink h => [existing_hyperlink_item h]
           end) ++ whole_elements els).
  rewrite items_text_app, IH by (intros x Hx; apply Hin; now right).
  simpl indexed_text. f_equal.
  destruct e as [r|h].
  - destruct (String.eqb_spec t ""); [now subst | unfold items_text; simpl; reflexivity].
  - destruct (element_hyperlink_text p h t (Hin _ (or_introl eq_refl))) as [-> Hh].
    unfold items_text. simpl. symmetry. now apply Hw.
Qed.

Lemma slice_to_nat (s : string) (n : nat) : slice_to s (Z.of_nat n) = take n s.
Proof.
  unfold slice_to, bound. destruct (Z.ltb_spec (Z.of_nat n) 0); [lia|].
  now rewrite Nat2Z.id.
Qed.

Lemma slice_from_nat (s : string) (n : nat) : slice_from s (Z.of_nat n) = drop n s.
Proof.
  unfold slice_from, bound. destruct (Z.ltb_spec (Z.of_nat n) 0); [lia|].
  now rewrite Nat2Z.id.
Qed.

Lemma text_before_text (r : Run) (o : nat) :
  items_text (text_before (E_run r) o) = take o (run_text r).
Proof.
  unfold text_before. rewrite slice_to_nat.
  destruct (String.eqb_spec (take o (run_text r)) "") as [->|]; reflexivity.
Qed.

Lemma text_after_run_text (els : list (element * string)) i r t (placeholder_end : Z) :
  nth_error els i = Some (E_run r, t) ->
  items_text (text_after els i placeholder_end)
  = slice_from (run_text r) (placeholder_end - chars_before els i).
Proof.
  intros H. unfold text_after. rewrite H.
  destruct (String.eqb_spec (slice_from (run_text r) (placeholder_end - chars_before els i)) "")
    as [->|]; reflexivity.
Qed.

Lemma text_after_hyperlink_text (els : list (element * string)) i h t (placeholder_end : Z) :
  nth_error els i = Some (E_hyperlink h, t) ->
  text_after els i placeholder_end = [].
Proof. intros H. unfold text_after. now rewrite H. Qed.

(** ** The span of a match *)

Lemma resolve_span_inside cm (n : nat) (ph : string) :
  (0 < String.length ph)%nat ->
  (n + String.length ph <= List.length cm)%nat ->
  exists start endp,
    resolve_span cm (Z.of_nat n) ph = Some (Ok (start, fst (fst endp))) /\
    nth_error cm n = Some start /\
    nth_error cm (n + String.length ph - 1) = Some endp.
Proof.
  intros Hph Hfit. unfold resolve_span, len.
  destruct (Z.leb_spec (Z.of_nat (List.length cm)) (Z.of_nat n)); [lia|].
  destruct (item_nonneg cm (Z.of_nat n)) as (start & -> & Hs); [lia|].
  rewrite Nat2Z.id in Hs. cbn [bind].
  destruct (Z.ltb_spec (Z.of_nat n + Z.of_nat (String.length ph) - 1)
                       (Z.of_nat (List.length cm))); [|lia].
  destruct (item_nonneg cm (Z.of_nat n + Z.of_nat (String.length ph) - 1))
    as (endp & -> & He); [lia|].
  replace (Z.to_nat (Z.of_nat n + Z.of_nat (String.length ph) - 1))
    with (n + String.length ph - 1)%nat in He by lia.
  cbn [bind]. exists start, endp. auto.
Qed.

(** The start and the end of a match in a paragraph whose hyperlinks
    are indexed by their text: the elements that hold its first and its
    last character, and where these sit in them. *)
Lemma span_of_match (p : Paragraph) (ph : string) (n : nat) :
  well_indexed p ->
  find (paragraph_text p) ph = Z.of_nat n ->
  (0 < String.length ph)%nat ->
  exists si sk so' ei se st ee te eo,
    resolve_span (char_map_of 0 (elements_of p)) (Z.of_nat n) ph
    = Some (Ok ((si, sk, so'), ei)) /\
    nth_error (elements_of p) si = Some (se, st) /\
    (so' < String.length st)%nat /\
    n = (String.length (indexed_text (firstn si (elements_of p))) + so')%nat /\
    nth_error (elements_of p) ei = Some (ee, te) /\
    (eo < String.length te)%nat /\
    (n + String.length ph - 1
     = String.length (indexed_text (firstn ei (elements_of p))) + eo)%nat.
Proof.
  intros Hw Hf Hph.
  pose proof (find_fits _ _ _ Hf) as Hfit.
  rewrite <- (indexed_text_paragraph p Hw), <- (length_char_map_of _ 0%nat) in Hfit.
  destruct (resolve_span_inside _ n ph Hph Hfit)
    as ([[si sk] so'] & [[ei ek] eo] & Hr & Hs & He).
  destruct (nth_char_map_of _ _ _ _ _ _ Hs) as (se & st & _ & Hse & _ & Hso & Hn).
  destruct (nth_char_map_of _ _ _ _ _ _ He) as (ee & te & _ & Hee & _ & Heo & Hm).
  rewrite Nat.sub_0_r in *.
  exists si, sk, so', ei, se, st, ee, te, eo. simpl in Hr. auto 10.
Qed.

Lemma plain_hyperlinks_well_indexed p : plain_hyperlinks p -> well_indexed p.
Proof. intros H h Hh. now apply H. Qed.

(** A match that begins with a brace begins in a run. *)
Lemma match_starts_in_run (p : Paragraph) (ph' : string) (n : nat) si se st so' :
  plain_hyperlinks p ->
  find (paragraph_text p) (String "{" ph') = Z.of_nat n ->
  nth_error (elements_of p) si = Some (se, st) ->
  (so' < String.length st)%nat ->
  n = (String.length (indexed_text (firstn si (elements_of p))) + so')%nat ->
  exists r, se = E_run r /\ st = run_text r.
Proof.
  intros Hp Hf Hse Hso Hn.
  destruct se as [r|h].
  - exists r. split; [reflexivity|].
    eapply element_run_text. eapply nth_error_In; eauto.
  - exfalso.
    destruct (element_hyperlink_text p h st (nth_error_In _ _ Hse)) as [Hst Hin].
    destruct (Hp h Hin) as [Hd Hb]. rewrite <- Hd, <- Hst in Hb.
    pose proof (find_splits _ _ _ Hf) as Hsplit.
    apply (f_equal (drop n)) in Hsplit.
    rewrite <- (length_take n (paragraph_text p)) in Hsplit at 2
      by (pose proof (find_fits _ _ _ Hf); lia).
    rewrite drop_app_length in Hsplit.
    rewrite <- (indexed_text_paragraph p (plain_hyperlinks_well_indexed p Hp)) in Hsplit at 1.
    rewrite (indexed_text_split _ _ _ _ Hse), Hn, drop_app_plus in Hsplit.
    rewrite drop_app_le in Hsplit by lia.
    pose proof (length_drop so' st) as Hl.
    pose proof (braces_drop_le so' st) as Hle.
    destruct (drop so' st) as [|c rest]; simpl in Hl; [lia|].
    simpl in Hsplit. injection Hsplit as -> _. simpl in Hle. lia.
Qed.

(** The text of the new content: what precedes the match, the
    replacement, and a tail of what follows the match (all of it when
    the match ends in a run). *)
Lemma new_content_text (p : Paragraph) (n : nat) (ph : string)
    si so' ei rs ee te eo :
  well_indexed p ->
  (0 < String.length ph)%nat ->
  nth_error (elements_of p) si = Some (E_run rs, run_text rs) ->
  (so' < String.length (run_text rs))%nat ->
  n = (String.length (indexed_text (firstn si (elements_of p))) + so')%nat ->
  nth_error (elements_of p) ei = Some (ee, te) ->
  (eo < String.length te)%nat ->
  (n + String.length ph - 1
   = String.length (indexed_text (firstn ei (elements_of p))) + eo)%nat ->
  exists q,
    (n + String.length ph <= q)%nat /\
    (forall r, ee = E_run r -> q = (n + String.length ph)%nat) /\
    forall mid,
      items_text
        (whole_elements (firstn si (elements_of p))
         ++ text_before (E_run rs) so'
         ++ [mid]
         ++ text_after (elements_of p) ei (Z.of_nat n + len ph)
         ++ whole_elements (skipn (ei + 1) (elements_of p)))
      = (take n (paragraph_text p) ++ item_text mid ++ drop q (paragraph_text p))%string.
Proof.
  intros Hw Hph Hs Hso Hn He Heo Hm.
  set (els := elements_of p) in *.
  pose proof (indexed_text_paragraph p Hw) as HT. fold els in HT.
  assert ((indexed_text (firstn si els) ++ take so' (run_text rs))%string
          = take n (paragraph_text p)) as Hhead.
  { rewrite <- HT, (indexed_text_split _ _ _ _ Hs), Hn, take_app_plus.
    rewrite take_app_le by lia. reflexivity. }
  pose proof (indexed_text_split _ _ _ _ He) as Hsplit. rewrite HT in Hsplit.
  assert (forall mid tail,
             items_text
               (whole_elements (firstn si els) ++ text_before (E_run rs) so'
                ++ [mid] ++ tail ++ whole_elements (skipn (ei + 1) els))
             = (take n (paragraph_text p) ++ item_text mid ++ items_text tail
                ++ indexed_text (skipn (S ei) els))%string) as Hitems.
  { intros mid tail. rewrite !items_text_app.
    rewrite (whole_elements_text p (firstn si els) Hw)
      by (intros x Hx; eapply in_firstn; eauto).
    rewrite (whole_elements_text p (skipn (ei + 1) els) Hw)
      by (intros x Hx; eapply in_skipn; eauto).
    rewrite text_before_text.
    assert (items_text [mid] = item_text mid) as -> by (unfold items_text; reflexivity).
    rewrite Nat.add_1_r, <- Hhead, !append_assoc. reflexivity. }
  destruct ee as [r|h].
  - exists (n + String.length ph)%nat. split; [lia|]. split; [reflexivity|].
    intros mid. rewrite Hitems.
    assert (te = run_text r) as ->
        by (eapply element_run_text; eapply nth_error_In; eauto).
    rewrite (text_after_run_text _ _ _ _ _ He), chars_before_length.
    replace (Z.of_nat n + len ph
             - Z.of_nat (String.length (indexed_text (firstn ei els))))
      with (Z.of_nat (eo + 1)) by (unfold len; lia).
    rewrite slice_from_nat.
    assert (drop (n + String.length ph) (paragraph_text p)
            = (drop (eo + 1) (run_text r) ++ indexed_text (skipn (S ei) els))%string)
      as ->.
    { rewrite Hsplit at 1.
      replace (n + String.length ph)%nat
        with (String.length (indexed_text (firstn ei els)) + (eo + 1))%nat by lia.
      rewrite drop_app_plus. apply drop_app_le. lia. }
    reflexivity.
  - exists (String.length (indexed_text (firstn ei els)) + String.length te)%nat.
    split; [lia|]. split; [discriminate|].
    intros mid. rewrite Hitems.
    rewrite (text_after_hyperlink_text _ _ _ _ _ He).
    assert (drop (String.length (indexed_text (firstn ei els)) + String.length te)
                 (paragraph_text p)
            = indexed_text (skipn (S ei) els)) as ->.
    { rewrite Hsplit at 1. rewrite drop_app_plus. apply drop_app_length. }
    reflexivity.
Qed.

(** Taking the match out takes its braces out. *)
Lemma braces_after_splice (text ph middle : string) (n q : nat) :
  find text ph = Z.of_nat n ->
  (n + String.length ph <= q)%nat ->
  braces middle = 0%nat ->
  (braces (take n text ++ middle ++ drop q text) + braces ph <= braces text)%nat.
Proof.
  intros Hf Hq Hm.
  pose proof (find_splits _ _ _ Hf) as Hsplit.
  rewrite !braces_append, Hm.
  rewrite Hsplit at 3. rewrite !braces_append.
  replace q with (n + String.length ph + (q - (n + String.length ph)))%nat by lia.
  rewrite <- drop_drop.
  pose proof (braces_drop_le (q - (n + String.length ph))
                (drop (n + String.length ph) text)).
  lia.
Qed.

(** ** The hyperlinks of a rebuilt paragraph *)

Lemma in_whole_elements els it :
  In it (whole_elements els) ->
  (exists text r, it = text_item text r) \/
  (exists h t, it = existing_hyperlink_item h /\ In (E_hyperlink h, t) els).
Proof.
  unfold whole_elements. rewrite in_flat_map. intros [[[r|h] t] [He H]]; simpl in H.
  - destruct (String.eqb t ""); [destruct H|]. destruct H as [<-|[]]. left. eauto.
  - destruct H as [<-|[]]. right. eauto.
Qed.

Lemma in_text_before e o it :
  In it (text_before e o) -> exists text r, it = text_item text r.
Proof.
  unfold text_before. destruct e; [|intros []].
  destruct (String.eqb _ _); [intros [] | intros [<-|[]]; eauto].
Qed.

Lemma in_text_after els i z it :
  In it (text_after els i z) -> exists text r, it = text_item text r.
Proof.
  unfold text_after. destruct (nth_error els i) as [[[r|h] t]|]; try (intros []).
  destruct (String.eqb _ _); [intros [] | intros [<-|[]]; eauto].
Qed.

(** The items of the new content: the replacement, text, and hyperlinks
    the paragraph had. *)
Lemma in_new_content (p : Paragraph) si se so' mid ei z it :
  In it (whole_elements (firstn si (elements_of p))
         ++ text_before se so'
         ++ [mid]
         ++ text_after (elements_of p) ei z
         ++ whole_elements (skipn (ei + 1) (elements_of p))) ->
  it = mid \/
  (exists text r, it = text_item text r) \/
  (exists h, it = existing_hyperlink_item h /\ In (N_hyperlink h) p).
Proof.
  intros H. apply in_app_iff in H as [H|H].
  - apply in_whole_elements in H as [H|(h & t & -> & H)]; [auto|].
    right; right. exists h. split; [reflexivity|].
    apply in_firstn in H. eapply hyperlink_of_elements; eauto.
  - apply in_app_iff in H as [H|H].
    + apply in_text_before in H. auto.
    + destruct H as [H|H]; [now left|]. cbn [app] in H.
      apply in_app_iff in H as [H|H].
      * apply in_text_after in H. auto.
      * apply in_whole_elements in H as [H|(h & t & -> & H)]; [auto|].
        right; right. exists h. split; [reflexivity|].
        apply in_skipn in H. eapply hyperlink_of_elements; eauto.
Qed.

Lemma new_content_string_urls (p : Paragraph) si se so' mid ei z :
  string_urls [mid] ->
  string_urls (whole_elements (firstn si (elements_of p))
               ++ text_before se so'
               ++ [mid]
               ++ text_after (elements_of p) ei z
               ++ whole_elements (skipn (ei + 1) (elements_of p))).
Proof.
  intros H. repeat apply string_urls_app;
    auto using string_urls_whole, string_urls_text_before, string_urls_text_after.
Qed.

Lemma new_content_no_new_hyperlink (p : Paragraph) si se so' text r ei z :
  no_new_hyperlink (whole_elements (firstn si (elements_of p))
                    ++ text_before se so'
                    ++ [value_item text r]
                    ++ text_after (elements_of p) ei z
                    ++ whole_elements (skipn (ei + 1) (elements_of p))).
Proof.
  repeat apply no_new_hyperlink_app;
    auto using no_new_hyperlink_whole, no_new_hyperlink_text_before,
      no_new_hyperlink_text_after.
  repeat constructor.
Qed.

Lemma new_content_xml_values (p : Paragraph) si se so' mid ei z :
  xml_values [mid] ->
  xml_values (whole_elements (firstn si (elements_of p))
              ++ text_before se so'
              ++ [mid]
              ++ text_after (elements_of p) ei z
              ++ whole_elements (skipn (ei + 1) (elements_of p))).
Proof.
  intros H. repeat apply xml_values_app;
    auto using xml_values_whole, xml_values_text_before, xml_values_text_after.
Qed.

Lemma hyperlink_of_hyperlink_path_nodes items h :
  In (N_hyperlink h) (flat_map hyperlink_path_nodes items) ->
  In (existing_hyperlink_item h) items \/
  exists d tr u, In (hyperlink_item d tr (VStr u)) items /\ h = new_hyperlink d tr u.
Proof.
  rewrite in_flat_map. intros [it [Hit H]].
  destruct it as [text src|text src|d src url|h']; simpl in H.
  - destruct H as [H|[]]. discriminate.
  - destruct H as [H|[]]. discriminate.
  - destruct url as [| | |u| |]; try (now destruct H).
    destruct H as [H|[]]. injection H as <-. right. eauto.
  - destruct H as [H|[]]. injection H as ->. now left.
Qed.

Lemma first_run_exists (els : list (element * string)) i r t :
  nth_error els i = Some (E_run r, t) -> exists tr, first_run els = Some tr.
Proof.
  revert i. induction els as [|[[r'|h] t'] els IH]; intros [|i] H; simpl in *;
    try discriminate; eauto.
Qed.

(** ** The whole document *)

Lemma nth_error_store_set (st : list Paragraph) (i j : nat) (p : Paragraph) :
  nth_error (store_set st i p) j =
  if Nat.eqb j i then (match nth_error st i with Some _ => Some p | None => None end)
  else nth_error st j.
Proof.
  revert i j. induction st as [|q st IH]; intros [|i] [|j]; simpl; try reflexivity.
  - now destruct (Nat.eqb j i).
  - apply IH.
Qed.

Lemma length_store_set (st : list Paragraph) (i : nat) (p : Paragraph) :
  List.length (store_set st i p) = List.length st.
Proof.
  revert i. induction st as [|q st IH]; intros [|i]; simpl; auto.
Qed.

(** ** The tokens the flattener makes begin with two braces *)

Lemma tokens_braced_set (r : dict) k v :
  tokens_braced r -> String.prefix "{{" k = true -> tokens_braced (dict_set r k v).
Proof.
  unfold tokens_braced, keys. intros Hr Hk.
  induction r as [|[k0 v0] r IH]; simpl.
  - intros k' [<-|[]]. exact Hk.
  - destruct (String.eqb k k0); simpl.
    + intros k' Hin. apply Hr. exact Hin.
    + intros k' [<-|Hin]; [apply Hr; now left|].
      apply IH; [|exact Hin]. intros k'' H''. apply Hr. now right.
Qed.

Lemma for_enumerate_braced body :
  (forall idx x r r', tokens_braced r -> body idx x r = Ok r' -> tokens_braced r') ->
  forall items idx r r',
    tokens_braced r -> for_enumerate body idx items r = Ok r' -> tokens_braced r'.
Proof.
  intros Hb. induction items as [|x items IH]; intros idx r r' Hr H; simpl in H.
  - now injection H as <-.
  - destruct (body idx x r) as [r1|] eqn:E; [|discriminate]. simpl in H.
    eapply IH; [|exact H]. eapply Hb; eauto.
Qed.

Lemma section_loop_braced cv section body r r' :
  (forall idx x r r', tokens_braced r -> body idx x r = Ok r' -> tokens_braced r') ->
  tokens_braced r -> section_loop cv section body r = Ok r' -> tokens_braced r'.
Proof.
  intros Hb Hr H. unfold section_loop in H.
  destruct (dict_in section cv); [|now injection H as <-].
  destruct (iterate _) as [items|]; [|discriminate]. simpl in H.
  eapply for_enumerate_braced; eauto.
Qed.

(** Closes [tokens_braced] of a map made by assignments to section keys. *)
Ltac braced :=
  repeat (apply tokens_braced_set; [|reflexivity]); try assumption.

Lemma set_items_braced (key : nat -> string) :
  (forall j, String.prefix "{{" (key j) = true) ->
  forall items idx r r',
    tokens_braced r ->
    for_enumerate (fun j x r => Ok (dict_set r (key j) x)) idx items r = Ok r' ->
    tokens_braced r'.
Proof.
  intros Hk. apply for_enumerate_braced. intros idx x r r' Hr H. injection H as <-.
  now apply tokens_braced_set.
Qed.

Lemma personal_info_tokens_braced personal r r' :
  tokens_braced r -> personal_info_tokens personal r = Ok r' -> tokens_braced r'.
Proof.
  intros Hr H. destruct personal; try discriminate.
  cbn in H. injection H as <-. braced.
Qed.

Lemma education_entry_braced so idx edu r r' :
  tokens_braced r -> education_entry so idx edu r = Ok r' -> tokens_braced r'.
Proof.
  intros Hr H. unfold education_entry in H. destruct edu; try discriminate.
  destruct (join_if_list _ _) as [c|]; [|discriminate]. cbn [bind] in H.
  destruct (truthy c); injection H as <-; braced.
Qed.

Lemma experience_entry_braced so idx exp r r' :
  tokens_braced r -> experience_entry so idx exp r = Ok r' -> tokens_braced r'.
Proof.
  intros Hr H. unfold experience_entry in H. destruct exp as [| | | | |e]; try discriminate.
  destruct (dict_get e "achievements" (VList [])) as [| | | |achievements|];
    try (injection H as <-; braced).
  destruct (for_enumerate _ _ _ _) as [r1|] eqn:E; [|discriminate]. cbn [bind] in H.
  destruct (join_values _ _) as [c|]; [|discriminate]. cbn [bind] in H.
  injection H as <-. apply tokens_braced_set; [|reflexivity].
  eapply (set_items_braced (exp_achievement_key idx)); [reflexivity| |exact E]. braced.
Qed.

Lemma project_entry_braced idx proj r r' :
  tokens_braced r -> project_entry idx proj r = Ok r' -> tokens_braced r'.
Proof.
  intros Hr H. unfold project_entry in H. destruct proj as [| | | | |p]; try discriminate.
  set (ds := match dict_get p "descriptions" (dict_get p "description" (VList [])) with
             | VStr _ => _ | _ => _ end) in H.
  destruct ds as [| | | |ds|]; try (injection H as <-; braced).
  destruct (for_enumerate _ _ _ _) as [r1|] eqn:E; [|discriminate]. cbn [bind] in H.
  assert (tokens_braced r1) as Hr1.
  { eapply (set_items_braced (proj_desc_key idx)); [reflexivity| |exact E]. braced. }
  destruct ds as [|d [|d' ds']].
  - cbn in H. injection H as <-. braced.
  - injection H as <-. braced.
  - destruct (join_values newline (d :: d' :: ds')) as [c|]; [|discriminate].
    injection H as <-. braced.
Qed.

Lemma skills_tokens_braced skills r r' :
  tokens_braced r -> skills_tokens skills r = Ok r' -> tokens_braced r'.
Proof.
  intros Hr H. unfold skills_tokens in H.
  destruct skills as [| | | | |s]; try (now injection H as <-).
  destruct (dict_in "languages" s);
    [destruct (join_if_list _ _) as [l|]; [|discriminate]|]; cbn [bind] in H;
  (destruct (dict_in (if dict_in "frameworks_tools" s then _ else _) s);
    [destruct (join_if_list _ _) as [f|]; [|discriminate]|]); cbn [bind] in H;
  injection H as <-;
  destruct (dict_in "language_processing" s), (dict_in "data_visualization" s);
  braced.
Qed.

Lemma build_replacements_braced so (cv r : dict) :
  _build_replacements so cv = Ok r -> tokens_braced r.
Proof.
  intros H.
  destruct (build_stages _ _ _ H) as (r1 & r2 & r3 & r4 & H1 & H2 & H3 & H4 & H5).
  assert (tokens_braced []) as H0 by (intros k []).
  assert (tokens_braced r1) as B1.
  { destruct (dict_in "personal_info" cv); [|now injection H1 as <-].
    eapply personal_info_tokens_braced; eauto. }
  assert (tokens_braced r2) as B2
      by (eapply section_loop_braced; [apply education_entry_braced| |]; eauto).
  assert (tokens_braced r3) as B3
      by (eapply section_loop_braced; [apply experience_entry_braced| |]; eauto).
  assert (tokens_braced r4) as B4.
  { destruct (dict_in "skills" cv); [|now injection H4 as <-].
    eapply skills_tokens_braced; eauto. }
  eapply section_loop_braced; [apply project_entry_braced| |]; eauto.
Qed.

(** Claim C1, at an input where it fails: one run with the token 21
    times.  Each of the 20 passes replaces the first occurrence left,
    and the last one is still in the text when the fill is over. *)
Lemma cap_leaves_a_token :
  dict_lookup
    (match _build_replacements (fun _ => "") named with Ok r => r | Raise _ => [] end)
    "{{NAME}}" = Some (VStr "Ann") /\
  fill_template (fun _ => "") names_document named
  = Ok {| store := [repeat (N_r {| run_text := "Ann"; run_font := no_font |}) 20
                    ++ [N_r {| run_text := "{{NAME}}"; run_font := no_font |}]];
          doc_paragraphs := [0%nat];
          doc_tables := [] |} /\
  occurs "{{NAME}}"
    (paragraph_text
       (repeat (N_r {| run_text := "Ann"; run_font := no_font |}) 20
        ++ [N_r {| run_text := "{{NAME}}"; run_font := no_font |}])).
Proof.
  split; [reflexivity|]. split; [vm_compute; reflexivity|].
  exists (times 20 "Ann"), "". vm_compute. reflexivity.
Qed.

(** Another input where a token stays: it sits in a hyperlink of the
    template and the paragraph has no run.  No pass finds a run to take
    the formatting from, so every pass returns at once. *)
Lemma token_inside_hyperlink_remains :
  dict_lookup
    (match _build_replacements (fun _ => "") contact with Ok r => r | Raise _ => [] end)
    "{{EMAIL}}" = Some (VStr "jane@example.org") /\
  fill_template (fun _ => "") email_document contact = Ok email_document /\
  occurs "{{EMAIL}}" (paragraph_text email_link).
Proof.
  split; [reflexivity|]. split; [reflexivity|]. now exists "", "".
Qed.

(** ** What a pass keeps *)

Lemma element_is_run (p : Paragraph) i e t :
  (forall h, ~ In (N_hyperlink h) p) ->
  nth_error (elements_of p) i = Some (e, t) ->
  exists r, e = E_run r /\ t = run_text r.
Proof.
  intros Hp He. destruct e as [r|h].
  - exists r. split; [reflexivity|].
    eapply element_run_text. eapply nth_error_In; eauto.
  - destruct (element_hyperlink_text p h t (nth_error_In _ _ He)) as [_ Hin].
    now apply Hp in Hin.
Qed.

(* ================================================================== *)
(** * Further properties of the flattener *)

(** ** One token for each item of a list *)

Lemma append_cancel_r (x y c : string) : (x ++ c = y ++ c)%string -> x = y.
Proof.
  revert y. induction x as [|a x IH]; intros [|b y] H; simpl in H.
  - reflexivity.
  - apply (f_equal String.length) in H. simpl in H. rewrite length_append in H. lia.
  - apply (f_equal String.length) in H. simpl in H. rewrite length_append in H. lia.
  - injection H as -> H. f_equal. now apply IH.
Qed.

Lemma append_cancel_l (a x y : string) : (a ++ x = a ++ y)%string -> x = y.
Proof. induction a as [|c a IH]; simpl; intros H; [assumption|]. injection H as H. auto. Qed.

Lemma exp_achievement_key_inj idx a b :
  exp_achievement_key idx a = exp_achievement_key idx b -> a = b.
Proof.
  unfold exp_achievement_key. intros H.
  do 3 apply append_cancel_l in H. apply append_cancel_r in H.
  now apply str_of_nat_inj.
Qed.

Lemma proj_desc_key_inj idx a b : proj_desc_key idx a = proj_desc_key idx b -> a = b.
Proof.
  unfold proj_desc_key. intros H.
  do 3 apply append_cancel_l in H. apply append_cancel_r in H.
  now apply str_of_nat_inj.
Qed.

(** A loop that assigns item [j] to [key j], for an injective [key]:
    the token of an item reads that item afterwards. *)
Lemma set_items_lookup (key : nat -> string) :
  (forall a b, key a = key b -> a = b) ->
  forall items idx r r' j x,
    for_enumerate (fun j x r => Ok (dict_set r (key j) x)) idx items r = Ok r' ->
    nth_error items j = Some x ->
    dict_lookup r' (key (idx + j)%nat) = Some x.
Proof.
  intros Hinj. induction items as [|y items IH]; intros idx r r' j x H Hn.
  - destruct j; discriminate.
  - cbn [for_enumerate bind] in H. destruct j as [|j].
    + cbn in Hn. injection Hn as ->. rewrite Nat.add_0_r.
      assert (dict_lookup r' (key idx) = dict_lookup (dict_set r (key idx) x) (key idx))
        as K.
      { apply (for_enumerate_later
                 (fun j x r => Ok (dict_set r (key j) x))
                 (fun j k => String.eqb (key j) k)) with (idx := S idx) (items := items).
        - intros i z r0 r0' E. injection E as <-. apply frame_set, String.eqb_refl.
        - exact H.
        - intros i Hi. apply String.eqb_neq. intros E. apply Hinj in E. lia. }
      rewrite K, dict_lookup_set, String.eqb_refl. reflexivity.
    + cbn in Hn. replace (idx + S j)%nat with (S idx + j)%nat by lia.
      eapply IH; eauto.
Qed.

(** What an experience entry with a list of achievements writes. *)
Lemma experience_entry_achievements so idx e r r' achs :
  experience_entry so idx (VDict e) r = Ok r' ->
  dict_lookup e "achievements" = Some (VList achs) ->
  (forall j a, nth_error achs j = Some a ->
               dict_lookup r' (exp_achievement_key idx (S j)) = Some a) /\
  exists ss, strings_of achs = Ok ss /\
             dict_lookup r' (exp_key idx "ACHIEVEMENTS") = Some (VStr (join newline ss)).
Proof.
  unfold experience_entry. intros H Ha.
  rewrite (dict_get_found _ _ _ _ Ha) in H.
  destruct (for_enumerate _ _ _ _) as [r1|] eqn:E; [|discriminate]. cbn [bind] in H.
  unfold join_values in H.
  destruct (strings_of achs) as [ss|] eqn:Hss; [|discriminate]. cbn [bind] in H.
  injection H as <-. split.
  - intros j a Hj. rewrite dict_lookup_set.
    replace (String.eqb (exp_achievement_key idx (S j)) (exp_key idx "ACHIEVEMENTS"))
      with false by (symmetry; key_eqb; reflexivity).
    exact (set_items_lookup (exp_achievement_key idx) (exp_achievement_key_inj idx)
             _ _ _ _ _ _ E Hj).
  - exists ss. split; [reflexivity|]. rewrite dict_lookup_set.
    now rewrite String.eqb_refl.
Qed.

(** The entry at position [i] of the experience list, and the tokens of
    that entry in the finished map. *)
Lemma experience_kept so (cv r : dict) es i x :
  _build_replacements so cv = Ok r ->
  dict_lookup cv "experience" = Some (VList es) ->
  nth_error es i = Some x ->
  exists ra rb,
    experience_entry so (S i) x ra = Ok rb /\
    forall rest,
      dict_lookup r ("{{EXP_" ++ str_of_nat (S i) ++ String "_" rest)
      = dict_lookup rb ("{{EXP_" ++ str_of_nat (S i) ++ String "_" rest).
Proof.
  intros H Hl Hn.
  destruct (build_stages _ _ _ H) as (r1 & r2 & r3 & r4 & H1 & H2 & H3 & H4 & H5).
  destruct (reach_entry _ _ _ _ _ _ _ _ Hl Hn H3) as (ra & rb & Hb & Hrest).
  exists ra, rb. split; [exact Hb|]. intros rest.
  rewrite (after_experience_stage _ _ _ _ _ H4 H5) by reflexivity.
  exact (later_entries (experience_entry so) "{{EXP_" _ (S i) _ _ rest
           (experience_entry_frame so) Hrest).
Qed.

Lemma education_kept so (cv r : dict) es i x :
  _build_replacements so cv = Ok r ->
  dict_lookup cv "education" = Some (VList es) ->
  nth_error es i = Some x ->
  exists ra rb,
    education_entry so (S i) x ra = Ok rb /\
    forall rest,
      dict_lookup r ("{{EDU_" ++ str_of_nat (S i) ++ String "_" rest)
      = dict_lookup rb ("{{EDU_" ++ str_of_nat (S i) ++ String "_" rest).
Proof.
  intros H Hl Hn.
  destruct (build_stages _ _ _ H) as (r1 & r2 & r3 & r4 & H1 & H2 & H3 & H4 & H5).
  destruct (reach_entry _ _ _ _ _ _ _ _ Hl Hn H2) as (ra & rb & Hb & Hrest).
  exists ra, rb. split; [exact Hb|]. intros rest.
  rewrite (after_education_stage _ _ _ _ _ _ _ H3 H4 H5) by reflexivity.
  exact (later_entries (education_entry so) "{{EDU_" _ (S i) _ _ rest
           (education_entry_frame so) Hrest).
Qed.

Lemma project_kept so (cv r : dict) ps i x :
  _build_replacements so cv = Ok r ->
  dict_lookup cv "projects" = Some (VList ps) ->
  nth_error ps i = Some x ->
  exists ra rb,
    project_entry (S i) x ra = Ok rb /\
    forall rest,
      dict_lookup r ("{{PROJ_" ++ str_of_nat (S i) ++ String "_" rest)
      = dict_lookup rb ("{{PROJ_" ++ str_of_nat (S i) ++ String "_" rest).
Proof.
  intros H Hl Hn.
  destruct (build_stages _ _ _ H) as (r1 & r2 & r3 & r4 & H1 & H2 & H3 & H4 & H5).
  destruct (reach_entry _ _ _ _ _ _ _ _ Hl Hn H5) as (ra & rb & Hb & Hrest).
  exists ra, rb. split; [exact Hb|]. intros rest.
  exact (later_entries project_entry "{{PROJ_" _ (S i) _ _ rest
           project_entry_frame Hrest).
Qed.

(** Property X1.  For the experience entry at position [i + 1] whose
    [achievements] is a list, the finished map holds one token
    [{{EXP_<i+1>_ACHIEVEMENT_<j+1>}}] for each item, mapped to that item,
    and the token [{{EXP_<i+1>_ACHIEVEMENTS}}] mapped to the items joined
    by a newline (so the flattener returns only when they are all
    strings). *)
Theorem achievements_flattened so (cv r : dict) es i e achs :
  _build_replacements so cv = Ok r ->
  dict_lookup cv "experience" = Some (VList es) ->
  nth_error es i = Some (VDict e) ->
  dict_lookup e "achievements" = Some (VList achs) ->
  (forall j a, nth_error achs j = Some a ->
               dict_lookup r (exp_achievement_key (S i) (S j)) = Some a) /\
  exists ss, strings_of achs = Ok ss /\
             dict_lookup r (exp_key (S i) "ACHIEVEMENTS") = Some (VStr (join newline ss)).
Proof.
  intros H Hl Hn Ha.
  destruct (experience_kept _ _ _ _ _ _ H Hl Hn) as (ra & rb & Hb & Keep).
  destruct (experience_entry_achievements _ _ _ _ _ _ Hb Ha) as (A & ss & Hss & B).
  split.
  - intros j a Hj. rewrite <- (A j a Hj).
    exact (Keep ("ACHIEVEMENT_" ++ str_of_nat (S j) ++ "}}")%string).
  - exists ss. split; [exact Hss|]. rewrite <- B. exact (Keep "ACHIEVEMENTS}}").
Qed.

Lemma achievements_flattened_witness :
  dict_lookup acme_map "{{EXP_1_ACHIEVEMENT_2}}" = Some (VStr "Cut costs") /\
  dict_lookup acme_map "{{EXP_1_ACHIEVEMENTS}}"
  = Some (VStr ("Shipped the filler" ++ newline ++ "Cut costs")).
Proof.
  destruct (achievements_flattened (fun _ => "") acme_profile acme_map _ 0%nat _ _
              eq_refl eq_refl eq_refl eq_refl) as (A & ss & Hss & B).
  refine (conj (A 1%nat _ eq_refl) _).
  injection Hss as <-. exact B.
Defined.

(** ** The descriptions of a project *)

(** The loop over a list of descriptions and the combined token. *)
Lemma project_descriptions_core idx (ds : list value) (r0 r' : dict) :
  (r <- for_enumerate
          (fun desc_idx desc r => Ok (dict_set r (proj_desc_key idx desc_idx) desc))
          1%nat ds r0 ;;
   match ds with
   | [d] => Ok (dict_set r (proj_key idx "DESC") d)
   | _ => combined <- join_values newline ds ;;
          Ok (dict_set r (proj_key idx "DESC") combined)
   end) = Ok r' ->
  (forall j d, nth_error ds j = Some d ->
               dict_lookup r' (proj_desc_key idx (S j)) = Some d) /\
  (forall d, ds = [d] -> dict_lookup r' (proj_key idx "DESC") = Some d) /\
  (List.length ds <> 1%nat ->
   exists ss, strings_of ds = Ok ss /\
              dict_lookup r' (proj_key idx "DESC") = Some (VStr (join newline ss))).
Proof.
  destruct (for_enumerate _ _ _ _) as [r1|] eqn:E; [|discriminate]. cbn [bind].
  intros H.
  assert (exists c, r' = dict_set r1 (proj_key idx "DESC") c /\
                    (forall d, ds = [d] -> c = d) /\
                    (List.length ds <> 1%nat ->
                     exists ss, strings_of ds = Ok ss /\ c = VStr (join newline ss)))
    as (c & -> & C1 & C2).
  { unfold join_values in H. destruct ds as [|d [|d' ds']].
    - cbn in H. injection H as <-. eexists. split; [reflexivity|]. split.
      + discriminate.
      + intros _. exists []. split; reflexivity.
    - injection H as <-. exists d. split; [reflexivity|]. split.
      + now intros ? [= ->].
      + intros N. now elim N.
    - destruct (strings_of (d :: d' :: ds')) as [ss|]; [|discriminate].
      cbn [bind] in H. injection H as <-. eexists. split; [reflexivity|]. split.
      + discriminate.
      + intros _. exists ss. split; reflexivity. }
  split; [|split].
  - intros j d Hj. rewrite dict_lookup_set.
    replace (String.eqb (proj_desc_key idx (S j)) (proj_key idx "DESC"))
      with false by (symmetry; key_eqb; reflexivity).
    exact (set_items_lookup (proj_desc_key idx) (proj_desc_key_inj idx)
             _ _ _ _ _ _ E Hj).
  - intros d Hd. rewrite dict_lookup_set, String.eqb_refl. f_equal. now apply C1.
  - intros N. destruct (C2 N) as (ss & Hss & ->). exists ss. split; [exact Hss|].
    now rewrite dict_lookup_set, String.eqb_refl.
Qed.

Lemma project_entry_descriptions idx p r r' :
  project_entry idx (VDict p) r = Ok r' ->
  (forall s,
      dict_get p "descriptions" (dict_get p "description" (VList [])) = VStr s ->
      dict_lookup r' (proj_desc_key idx 1) = Some (VStr s) /\
      dict_lookup r' (proj_key idx "DESC") = Some (VStr s)) /\
  (forall ds,
      dict_get p "descriptions" (dict_get p "description" (VList [])) = VList ds ->
      (forall j d, nth_error ds j = Some d ->
                   dict_lookup r' (proj_desc_key idx (S j)) = Some d) /\
      (forall d, ds = [d] -> dict_lookup r' (proj_key idx "DESC") = Some d) /\
      (List.length ds <> 1%nat ->
       exists ss, strings_of ds = Ok ss /\
                  dict_lookup r' (proj_key idx "DESC") = Some (VStr (join newline ss)))).
Proof.
  unfold project_entry. intros H. split.
  - intros s Hs. rewrite Hs in H.
    destruct (project_descriptions_core _ _ _ _ H) as (A & B & _).
    split; [exact (A 0%nat _ eq_refl) | exact (B _ eq_refl)].
  - intros ds Hd. rewrite Hd in H. exact (project_descriptions_core _ _ _ _ H).
Qed.

(** Property X2.  For the project at position [i + 1], [descriptions]
    is read before [description].  A single string counts as a list of
    one item.  Each item [j + 1] of the list is the value of
    [{{PROJ_<i+1>_DESC_<j+1>}}]; the combined token [{{PROJ_<i+1>_DESC}}]
    is the item itself when there is exactly one, whatever its type, and
    the items joined by a newline otherwise. *)
Theorem descriptions_flattened so (cv r : dict) ps i p :
  _build_replacements so cv = Ok r ->
  dict_lookup cv "projects" = Some (VList ps) ->
  nth_error ps i = Some (VDict p) ->
  (forall s,
      dict_get p "descriptions" (dict_get p "description" (VList [])) = VStr s ->
      dict_lookup r (proj_desc_key (S i) 1) = Some (VStr s) /\
      dict_lookup r (proj_key (S i) "DESC") = Some (VStr s)) /\
  (forall ds,
      dict_get p "descriptions" (dict_get p "description" (VList [])) = VList ds ->
      (forall j d, nth_error ds j = Some d ->
                   dict_lookup r (proj_desc_key (S i) (S j)) = Some d) /\
      (forall d, ds = [d] -> dict_lookup r (proj_key (S i) "DESC") = Some d) /\
      (List.length ds <> 1%nat ->
       exists ss, strings_of ds = Ok ss /\
                  dict_lookup r (proj_key (S i) "DESC") = Some (VStr (join newline ss)))).
Proof.
  intros H Hl Hn.
  destruct (project_kept _ _ _ _ _ _ H Hl Hn) as (ra & rb & Hb & Keep).
  assert (forall j, dict_lookup r (proj_desc_key (S i) j)
                    = dict_lookup rb (proj_desc_key (S i) j)) as K1.
  { intros j. exact (Keep ("DESC_" ++ str_of_nat j ++ "}}")%string). }
  assert (dict_lookup r (proj_key (S i) "DESC") = dict_lookup rb (proj_key (S i) "DESC"))
    as K2 by exact (Keep "DESC}}").
  destruct (project_entry_descriptions _ _ _ _ Hb) as (A & B).
  split.
  - intros s Hs. rewrite K1, K2. exact (A s Hs).
  - intros ds Hd. destruct (B ds Hd) as (B1 & B2 & B3). split; [|split].
    + intros j d Hj. rewrite K1. exact (B1 j d Hj).
    + intros d E. rewrite K2. exact (B2 d E).
    + intros N. rewrite K2. exact (B3 N).
Qed.

Lemma descriptions_flattened_witness :
  (dict_lookup acme_map "{{PROJ_1_DESC_1}}" = Some (VStr "Fills templates") /\
   dict_lookup acme_map "{{PROJ_1_DESC}}" = Some (VStr "Fills templates")) /\
  dict_lookup acme_map "{{PROJ_2_DESC_2}}" = Some (VStr "Prints them") /\
  dict_lookup acme_map "{{PROJ_2_DESC}}"
  = Some (VStr ("Checks proofs" ++ newline ++ "Prints them")).
Proof.
  refine (conj (proj1 (descriptions_flattened (fun _ => "") acme_profile acme_map _ 0%nat _
                         eq_refl eq_refl eq_refl) _ eq_refl) _).
  destruct (proj2 (descriptions_flattened (fun _ => "") acme_profile acme_map _ 1%nat _
                     eq_refl eq_refl eq_refl) _ eq_refl) as (A & _ & B).
  refine (conj (A 1%nat _ eq_refl) _).
  destruct B as (ss & Hss & B); [discriminate|].
  injection Hss as <-. exact B.
Defined.

(** ** The two spellings of a date *)

Lemma entry_date_cases so (e : dict) :
  (truthy (dict_get e "date" empty) = true ->
   entry_date so e = dict_get e "date" empty) /\
  (truthy (dict_get e "date" empty) = false ->
   forall s t,
     dict_lookup e "start_date" = Some s -> dict_lookup e "end_date" = Some t ->
     entry_date so e
     = VStr (py_str so s ++ " " ++ en_dash ++ " " ++ py_str so t)%string) /\
  (truthy (dict_get e "date" empty) = false ->
   dict_in "start_date" e = false \/ dict_in "end_date" e = false ->
   entry_date so e = dict_get e "date" empty).
Proof.
  unfold entry_date. split; [|split].
  - intros ->. reflexivity.
  - intros -> s t Hs Ht.
    assert (dict_in "start_date" e = true) as -> by (apply dict_in_lookup; eauto).
    assert (dict_in "end_date" e = true) as -> by (apply dict_in_lookup; eauto).
    cbn [negb andb].
    now rewrite (dict_get_found _ _ _ _ Hs), (dict_get_found _ _ _ _ Ht).
  - intros -> [-> | ->]; cbn [negb andb]; [reflexivity|].
    destruct (dict_in "start_date" e); reflexivity.
Qed.

(** Property X3.  The date token of an education or experience entry:
    a [date] that counts as true is taken as it is; otherwise, when both
    [start_date] and [end_date] are there, the token is the text of the
    one, an en dash between two spaces, and the text of the other; and
    when one of the two is missing the token is the [date] read, the
    empty string when there is none. *)
Theorem date_token so (cv r : dict) section key es i e :
  _build_replacements so cv = Ok r ->
  (section = "education" /\ key = edu_key (S i) "DATE") \/
  (section = "experience" /\ key = exp_key (S i) "DATE") ->
  dict_lookup cv section = Some (VList es) ->
  nth_error es i = Some (VDict e) ->
  (truthy (dict_get e "date" empty) = true ->
   dict_lookup r key = Some (dict_get e "date" empty)) /\
  (truthy (dict_get e "date" empty) = false ->
   forall s t,
     dict_lookup e "start_date" = Some s -> dict_lookup e "end_date" = Some t ->
     dict_lookup r key
     = Some (VStr (py_str so s ++ " " ++ en_dash ++ " " ++ py_str so t)%string)) /\
  (truthy (dict_get e "date" empty) = false ->
   dict_in "start_date" e = false \/ dict_in "end_date" e = false ->
   dict_lookup r key = Some (dict_get e "date" empty)).
Proof.
  intros H Hs Hl Hn.
  assert (dict_lookup r key = Some (entry_date so e)) as ->.
  { destruct Hs as [[-> ->] | [-> ->]].
    - apply (education_tokens _ _ _ _ _ _ H Hl Hn).
    - apply (experience_tokens _ _ _ _ _ _ H Hl Hn). }
  destruct (entry_date_cases so e) as (A & B & C).
  split; [|split].
  - intros T. now rewrite A.
  - intros T s t Hs' Ht. now rewrite (B T s t Hs' Ht).
  - intros T M. now rewrite C.
Qed.

Lemma date_token_witness :
  dict_lookup acme_map "{{EDU_1_DATE}}" = Some (VStr ("2015 " ++ en_dash ++ " 2019")) /\
  dict_lookup acme_map "{{EXP_1_DATE}}" = Some (VStr "2020").
Proof.
  refine (conj _ _).
  - exact (proj1 (proj2 (date_token (fun _ => "") acme_profile acme_map
                           "education" _ _ 0%nat _ eq_refl (or_introl (conj eq_refl eq_refl))
                           eq_refl eq_refl))
             eq_refl _ _ eq_refl eq_refl).
  - exact (proj1 (date_token (fun _ => "") acme_profile acme_map
                    "experience" _ _ 0%nat _ eq_refl (or_intror (conj eq_refl eq_refl))
                    eq_refl eq_refl)
             eq_refl).
Defined.

(** ** The school and the courses *)

(** Property X4.  The school token of an education entry is its
    [school]; without one it is its [institution]. *)
Theorem school_or_institution so (cv r : dict) es i e :
  _build_replacements so cv = Ok r ->
  dict_lookup cv "education" = Some (VList es) ->
  nth_error es i = Some (VDict e) ->
  (forall v, dict_lookup e "school" = Some v ->
             dict_lookup r (edu_key (S i) "SCHOOL") = Some v) /\
  (dict_in "school" e = false ->
   forall v, dict_lookup e "institution" = Some v ->
             dict_lookup r (edu_key (S i) "SCHOOL") = Some v).
Proof.
  intros H Hl Hn.
  destruct (education_tokens _ _ _ _ _ _ H Hl Hn) as (-> & _).
  split.
  - intros v Hv. now rewrite (dict_get_found _ _ _ _ Hv).
  - intros M v Hv. now rewrite (dict_get_missing _ _ _ M), (dict_get_found _ _ _ _ Hv).
Qed.

Lemma school_or_institution_witness :
  dict_lookup acme_map "{{EDU_1_SCHOOL}}" = Some (VStr "MIT").
Proof.
  exact (proj2 (school_or_institution (fun _ => "") acme_profile acme_map _ 0%nat _
                  eq_refl eq_refl eq_refl) eq_refl _ eq_refl).
Defined.

Lemma truthy_str_false (s : string) : truthy (VStr s) = false -> s = "".
Proof.
  cbn [truthy]. destruct (String.eqb s "") eqn:E; [|discriminate].
  intros _. now apply String.eqb_eq.
Qed.

Lemma education_entry_courses so idx e r r' :
  education_entry so idx (VDict e) r = Ok r' ->
  (forall l,
      dict_get e "courses" empty = VList l ->
      exists ss, strings_of l = Ok ss /\
                 dict_lookup r' (edu_key idx "COURSES") = Some (VStr (join ", " ss))) /\
  ((forall l, dict_get e "courses" empty <> VList l) ->
   dict_lookup r' (edu_key idx "COURSES")
   = Some (if truthy (dict_get e "courses" empty)
           then dict_get e "courses" empty else empty)).
Proof.
  unfold education_entry. intros H. split.
  - intros l Hc. rewrite Hc in H. cbn [join_if_list] in H. unfold join_values in H.
    destruct (strings_of l) as [ss|]; [|discriminate]. cbn [bind] in H.
    exists ss. split; [reflexivity|].
    destruct (truthy (VStr (join ", " ss))) eqn:T; injection H as <-;
      rewrite dict_lookup_set, String.eqb_refl; [reflexivity|].
    now rewrite (truthy_str_false _ T).
  - intros N.
    assert (join_if_list ", " (dict_get e "courses" empty)
            = Ok (dict_get e "courses" empty)) as J.
    { destruct (dict_get e "courses" empty) as [| | | |l|]; try reflexivity.
      now elim (N l). }
    rewrite J in H. cbn [bind] in H.
    destruct (truthy (dict_get e "courses" empty)); injection H as <-;
      now rewrite dict_lookup_set, String.eqb_refl.
Qed.

(** Property X5.  The courses token of an education entry: a list is
    joined by a comma and a space (so the flattener returns only when
    its items are strings); any other value is kept when it counts as
    true and gives the empty string when it does not. *)
Theorem courses_token so (cv r : dict) es i e :
  _build_replacements so cv = Ok r ->
  dict_lookup cv "education" = Some (VList es) ->
  nth_error es i = Some (VDict e) ->
  (forall l,
      dict_get e "courses" empty = VList l ->
      exists ss, strings_of l = Ok ss /\
                 dict_lookup r (edu_key (S i) "COURSES") = Some (VStr (join ", " ss))) /\
  ((forall l, dict_get e "courses" empty <> VList l) ->
   dict_lookup r (edu_key (S i) "COURSES")
   = Some (if truthy (dict_get e "courses" empty)
           then dict_get e "courses" empty else empty)).
Proof.
  intros H Hl Hn.
  destruct (education_kept _ _ _ _ _ _ H Hl Hn) as (ra & rb & Hb & Keep).
  assert (dict_lookup r (edu_key (S i) "COURSES") = dict_lookup rb (edu_key (S i) "COURSES"))
    as -> by exact (Keep "COURSES}}").
  exact (education_entry_courses _ _ _ _ _ Hb).
Qed.

Lemma courses_token_witness :
  dict_lookup acme_map "{{EDU_1_COURSES}}" = Some (VStr "Algorithms, Compilers").
Proof.
  destruct (proj1 (courses_token (fun _ => "") acme_profile acme_map _ 0%nat _
                     eq_refl eq_refl eq_refl) _ eq_refl) as (ss & Hss & C).
  injection Hss as <-. exact C.
Defined.

(** ** The skills that are given *)

Lemma dict_field (d : dict) k :
  (exists v, dict_lookup d k = Some v /\ dict_in k d = true /\
             forall default, dict_get d k default = v) \/
  (dict_lookup d k = None /\ dict_in k d = false).
Proof.
  destruct (dict_lookup d k) as [v|] eqn:L.
  - left. exists v. split; [reflexivity|]. split.
    + apply dict_in_lookup. eauto.
    + intros default. now apply dict_get_found.
  - right. split; [reflexivity|]. now apply dict_in_false_lookup.
Qed.

Ltac skill_field s k H :=
  let v := fresh "v" in let L := fresh "L" in let I := fresh "I" in let G := fresh "G" in
  destruct (dict_field s k) as [(v & L & I & G) | (L & I)];
  [rewrite ?I in H; cbv iota in H; rewrite ?G in H | rewrite ?I in H; cbv iota in H].

Ltac skill_join s k H :=
  let v := fresh "v" in let L := fresh "L" in let I := fresh "I" in let G := fresh "G" in
  let x := fresh "x" in let J := fresh "J" in
  destruct (dict_field s k) as [(v & L & I & G) | (L & I)];
  [rewrite ?I in H; cbv iota in H; rewrite ?G in H;
   destruct (join_if_list ", " v) as [x|] eqn:J; [|cbn [bind] in H; discriminate];
   cbn [bind] in H
  |rewrite ?I in H; cbv iota in H; cbn [bind] in H].

Lemma skills_stage_assigned (s r3 r4 : dict) :
  skills_tokens (VDict s) r3 = Ok r4 ->
  (forall v, dict_lookup s "languages" = Some v ->
     exists langs, join_if_list ", " v = Ok langs /\
       dict_lookup r4 "{{SKILL_LANGUAGE}}" = Some langs /\
       dict_lookup r4 "{{SKILLS_LANGUAGES}}" = Some langs) /\
  (forall v, dict_lookup s "frameworks_tools" = Some v ->
     exists frameworks, join_if_list ", " v = Ok frameworks /\
       dict_lookup r4 "{{SKILL_FRAME_TOOL}}" = Some frameworks /\
       dict_lookup r4 "{{SKILLS_FRAMEWORKS_TOOLS}}" = Some frameworks) /\
  (dict_in "frameworks_tools" s = false ->
   forall v, dict_lookup s "frameworks_and_tools" = Some v ->
     exists frameworks, join_if_list ", " v = Ok frameworks /\
       dict_lookup r4 "{{SKILL_FRAME_TOOL}}" = Some frameworks /\
       dict_lookup r4 "{{SKILLS_FRAMEWORKS_TOOLS}}" = Some frameworks) /\
  (forall v, dict_lookup s "language_processing" = Some v ->
             dict_lookup r4 "{{SKILLS_LANGUAGE_PROCESSING}}" = Some v) /\
  (forall v, dict_lookup s "data_visualization" = Some v ->
             dict_lookup r4 "{{SKILLS_DATA_VIZ}}" = Some v).
Proof.
  intros H. unfold skills_tokens in H.
  skill_join s "languages" H;
    (skill_join s "frameworks_tools" H; [|skill_join s "frameworks_and_tools" H]);
    skill_field s "language_processing" H;
    skill_field s "data_visualization" H;
    injection H as <-;
    (split; [|split; [|split; [|split]]]);
    intros; try congruence;
    rewrite ?dict_lookup_set; cbn [String.eqb Ascii.eqb Bool.eqb];
    try congruence;
    (eexists; split; [|split; reflexivity]; congruence).
Qed.

(** Property X6.  The skills that the profile gives: [languages] and
    the frameworks are joined by a comma and a space when they are lists
    and kept as they are otherwise, each under its two tokens;
    [frameworks_tools] is read, and [frameworks_and_tools] only without
    it; [language_processing] and [data_visualization] are taken as they
    are. *)
Theorem skills_tokens_assigned so (cv r s : dict) :
  _build_replacements so cv = Ok r ->
  dict_lookup cv "skills" = Some (VDict s) ->
  (forall v, dict_lookup s "languages" = Some v ->
     exists langs, join_if_list ", " v = Ok langs /\
       dict_lookup r "{{SKILL_LANGUAGE}}" = Some langs /\
       dict_lookup r "{{SKILLS_LANGUAGES}}" = Some langs) /\
  (forall v, dict_lookup s "frameworks_tools" = Some v ->
     exists frameworks, join_if_list ", " v = Ok frameworks /\
       dict_lookup r "{{SKILL_FRAME_TOOL}}" = Some frameworks /\
       dict_lookup r "{{SKILLS_FRAMEWORKS_TOOLS}}" = Some frameworks) /\
  (dict_in "frameworks_tools" s = false ->
   forall v, dict_lookup s "frameworks_and_tools" = Some v ->
     exists frameworks, join_if_list ", " v = Ok frameworks /\
       dict_lookup r "{{SKILL_FRAME_TOOL}}" = Some frameworks /\
       dict_lookup r "{{SKILLS_FRAMEWORKS_TOOLS}}" = Some frameworks) /\
  (forall v, dict_lookup s "language_processing" = Some v ->
             dict_lookup r "{{SKILLS_LANGUAGE_PROCESSING}}" = Some v) /\
  (forall v, dict_lookup s "data_visualization" = Some v ->
             dict_lookup r "{{SKILLS_DATA_VIZ}}" = Some v).
Proof.
  intros H Hl.
  destruct (build_stages _ _ _ H) as (r1 & r2 & r3 & r4 & H1 & H2 & H3 & H4 & H5).
  assert (dict_in "skills" cv = true) as Hin by (apply dict_in_lookup; eauto).
  rewrite Hin, (dict_get_found _ _ _ _ Hl) in H4.
  rewrite !(after_skills_stage _ _ _ _ H5) by reflexivity.
  exact (skills_stage_assigned _ _ _ H4).
Qed.

Lemma skills_tokens_assigned_witness :
  dict_lookup acme_map "{{SKILLS_LANGUAGES}}" = Some (VStr "Python, OCaml") /\
  dict_lookup acme_map "{{SKILL_FRAME_TOOL}}" = Some (VStr "Docker") /\
  dict_lookup acme_map "{{SKILLS_DATA_VIZ}}" = Some (VStr "Matplotlib").
Proof.
  pose proof (skills_tokens_assigned (fun _ => "") acme_profile acme_map _
                eq_refl eq_refl) as (A & _ & B & _ & C).
  destruct (A _ eq_refl) as (langs & JL & _ & A2).
  destruct (B eq_refl _ eq_refl) as (frameworks & JF & B1 & _).
  injection JL as <-. injection JF as <-.
  exact (conj A2 (conj B1 (C _ eq_refl))).
Defined.

(** ** The keys of the finished map, section by section *)

Lemma prefix_both (p q k : string) :
  String.prefix p k = true -> String.prefix q k = true ->
  String.prefix p q = true \/ String.prefix q p = true.
Proof.
  revert q k. induction p as [|a p IH]; intros q k Hp Hq.
  - left. now destruct q.
  - destruct q as [|b q]; [right; reflexivity|].
    destruct k as [|c k]; [discriminate|].
    apply prefix_cons in Hp as [-> Hp]. apply prefix_cons in Hq as [-> Hq].
    destruct (IH q k Hp Hq) as [E | E]; [left | right]; now apply prefix_cons.
Qed.

(** The personal stage writes the seven personal tokens and no other. *)
Lemma personal_stage_other (cv r1 : dict) k :
  (if dict_in "personal_info" cv
   then personal_info_tokens (dict_get cv "personal_info" VNone) []
   else Ok []) = Ok r1 ->
  ~ In k personal_keys ->
  dict_lookup r1 k = None.
Proof.
  intros H N.
  destruct (dict_in "personal_info" cv); [|now injection H as <-].
  destruct (dict_get cv "personal_info" VNone); try discriminate.
  cbn in H. injection H as <-. cbn [dict_lookup].
  repeat match goal with
         | |- context [String.eqb k ?t] =>
             let E := fresh "E" in
             destruct (String.eqb k t) eqn:E;
             [apply String.eqb_eq in E; elim N; subst k; cbn; tauto|]
         end.
  reflexivity.
Qed.

Lemma section_key_not_personal k : section_key k = true -> ~ In k personal_keys.
Proof.
  intros H I. cbn in I.
  repeat (destruct I as [<- | I]; [discriminate H|]). exact I.
Qed.

(** After the personal stage a key that belongs to no section reads as
    it did. *)
Lemma after_personal_stage so (cv r r1 r2 r3 r4 : dict) k :
  section_loop cv "education" (education_entry so) r1 = Ok r2 ->
  section_loop cv "experience" (experience_entry so) r2 = Ok r3 ->
  (if dict_in "skills" cv then skills_tokens (dict_get cv "skills" VNone) r3 else Ok r3)
  = Ok r4 ->
  section_loop cv "projects" project_entry r4 = Ok r ->
  section_key k = false ->
  dict_lookup r k = dict_lookup r1 k.
Proof.
  intros H2 H3 H4 H5 K. unfold section_key in K.
  apply orb_false_elim in K as [K Kp]. apply orb_false_elim in K as [K Ks].
  apply orb_false_elim in K as [Ke Kx].
  rewrite (after_education_stage _ _ _ _ _ _ _ H3 H4 H5) by assumption.
  exact (education_frame _ _ _ _ H2 k Ke).
Qed.

(** Property X7.  Every key of the finished map is one of the seven
    personal tokens or begins as the tokens of one of the four other
    sections do. *)
Theorem keys_by_section so (cv r : dict) k :
  _build_replacements so cv = Ok r ->
  dict_in k r = true ->
  In k personal_keys \/ section_key k = true.
Proof.
  intros H Hin.
  destruct (section_key k) eqn:K; [now right|]. left.
  destruct (build_stages _ _ _ H) as (r1 & r2 & r3 & r4 & H1 & H2 & H3 & H4 & H5).
  apply dict_in_lookup in Hin as [v Hv].
  rewrite (after_personal_stage _ _ _ _ _ _ _ _ H2 H3 H4 H5 K) in Hv.
  destruct (in_dec string_dec k personal_keys) as [I | N]; [exact I|].
  rewrite (personal_stage_other _ _ _ H1 N) in Hv. discriminate.
Qed.

Lemma keys_by_section_witness :
  In "{{EDU_1_SCHOOL}}" personal_keys \/ section_key "{{EDU_1_SCHOOL}}" = true.
Proof.
  exact (keys_by_section (fun _ => "") acme_profile acme_map "{{EDU_1_SCHOOL}}"
           eq_refl eq_refl).
Defined.

Ltac other_prefix Hk :=
  match goal with
  | |- String.prefix ?q ?k = false =>
      let E := fresh "E" in
      destruct (String.prefix q k) eqn:E; [|reflexivity];
      destruct (prefix_both _ _ _ Hk E); discriminate
  end.

(** Property X8.  A section the profile does not have leaves no token
    of its own in the finished map, and neither does a [skills] value
    that is not a mapping. *)
Theorem absent_section_leaves_no_token so (cv r : dict) :
  _build_replacements so cv = Ok r ->
  (dict_in "personal_info" cv = false ->
   forall k, In k personal_keys -> dict_lookup r k = None) /\
  (dict_in "education" cv = false ->
   forall k, String.prefix "{{EDU_" k = true -> dict_lookup r k = None) /\
  (dict_in "experience" cv = false ->
   forall k, String.prefix "{{EXP_" k = true -> dict_lookup r k = None) /\
  (dict_in "skills" cv = false \/
   (exists v, dict_lookup cv "skills" = Some v /\ forall s, v <> VDict s) ->
   forall k, String.prefix "{{SKILL" k = true -> dict_lookup r k = None) /\
  (dict_in "projects" cv = false ->
   forall k, String.prefix "{{PROJ_" k = true -> dict_lookup r k = None).
Proof.
  intros H.
  destruct (build_stages _ _ _ H) as (r1 & r2 & r3 & r4 & H1 & H2 & H3 & H4 & H5).
  assert (forall k, section_key k = true -> dict_lookup r1 k = None) as P1.
  { intros k K. apply (personal_stage_other _ _ _ H1). now apply section_key_not_personal. }
  split; [|split; [|split; [|split]]].
  - intros A k I.
    assert (section_key k = false) as K.
    { cbn in I. repeat (destruct I as [<- | I]; [reflexivity|]). elim I. }
    rewrite (after_personal_stage _ _ _ _ _ _ _ _ H2 H3 H4 H5 K).
    rewrite A in H1. now injection H1 as <-.
  - intros A k Hk.
    rewrite (after_education_stage _ _ _ _ _ _ _ H3 H4 H5) by other_prefix Hk.
    unfold section_loop in H2. rewrite A in H2. injection H2 as <-.
    apply P1. unfold section_key. now rewrite Hk.
  - intros A k Hk.
    rewrite (after_experience_stage _ _ _ _ _ H4 H5) by other_prefix Hk.
    unfold section_loop in H3. rewrite A in H3. injection H3 as <-.
    rewrite (education_frame _ _ _ _ H2 k) by other_prefix Hk.
    apply P1. unfold section_key. rewrite Hk. now rewrite orb_true_r.
  - intros A k Hk.
    rewrite (after_skills_stage _ _ _ _ H5) by other_prefix Hk.
    assert (r4 = r3) as ->.
    { destruct A as [A | (v & Hv & N)].
      - rewrite A in H4. now injection H4 as <-.
      - assert (dict_in "skills" cv = true) as Hin by (apply dict_in_lookup; eauto).
        rewrite Hin, (dict_get_found _ _ _ _ Hv) in H4.
        destruct v as [| | | | |s]; try (now injection H4 as <-). now elim (N s). }
    rewrite (experience_frame _ _ _ _ H3 k) by other_prefix Hk.
    rewrite (education_frame _ _ _ _ H2 k) by other_prefix Hk.
    apply P1. unfold section_key. rewrite Hk. now rewrite !orb_true_r.
  - intros A k Hk.
    unfold section_loop in H5. rewrite A in H5. injection H5 as <-.
    rewrite (skills_frame _ _ _ H4 k) by other_prefix Hk.
    rewrite (experience_frame _ _ _ _ H3 k) by other_prefix Hk.
    rewrite (education_frame _ _ _ _ H2 k) by other_prefix Hk.
    apply P1. unfold section_key. rewrite Hk. now rewrite !orb_true_r.
Qed.

Lemma absent_section_leaves_no_token_witness :
  dict_lookup acme_map "{{NAME}}" = None.
Proof.
  exact (proj1 (absent_section_leaves_no_token (fun _ => "") acme_profile acme_map eq_refl)
           eq_refl "{{NAME}}" (or_introl eq_refl)).
Defined.

(** ** What the flattener asks of the profile *)

Lemma for_enumerate_all body (P : value -> Prop) :
  (forall idx x r r', body idx x r = Ok r' -> P x) ->
  forall items idx r r',
    for_enumerate body idx items r = Ok r' -> forall x, In x items -> P x.
Proof.
  intros Hb. induction items as [|y items IH]; intros idx r r' H x I; [elim I|].
  cbn [for_enumerate] in H. destruct (body idx y r) as [r1|] eqn:B; [|discriminate].
  cbn [bind] in H. destruct I as [<- | I]; [eapply Hb; eauto | eapply IH; eauto].
Qed.

Lemma section_loop_entries cv section body r r' v :
  (forall idx x r r', body idx x r = Ok r' -> exists d, x = VDict d) ->
  section_loop cv section body r = Ok r' ->
  dict_lookup cv section = Some v ->
  exists items, iterate v = Ok items /\ forall x, In x items -> exists d, x = VDict d.
Proof.
  intros Hb H Hl. unfold section_loop in H.
  assert (dict_in section cv = true) as Hin by (apply dict_in_lookup; eauto).
  rewrite Hin, (dict_get_found _ _ _ _ Hl) in H.
  destruct (iterate v) as [items|]; [|discriminate]. cbn [bind] in H.
  exists items. split; [reflexivity|].
  exact (for_enumerate_all body _ Hb _ _ _ _ H).
Qed.

Lemma education_entry_mapping so idx x r r' :
  education_entry so idx x r = Ok r' -> exists d, x = VDict d.
Proof. destruct x; try discriminate. eauto. Qed.

Lemma experience_entry_mapping so idx x r r' :
  experience_entry so idx x r = Ok r' -> exists d, x = VDict d.
Proof. destruct x; try discriminate. eauto. Qed.

Lemma project_entry_mapping idx x r r' :
  project_entry idx x r = Ok r' -> exists d, x = VDict d.
Proof. destruct x; try discriminate. eauto. Qed.

(** Property X9.  The flattener returns a map only for a profile whose
    [personal_info], if it has one, is a mapping, and whose [education],
    [experience] and [projects], if it has them, can be iterated and
    yield mappings only. *)
Theorem flattener_returns_only_for so (cv r : dict) :
  _build_replacements so cv = Ok r ->
  (forall v, dict_lookup cv "personal_info" = Some v -> exists d, v = VDict d) /\
  (forall section v,
      In section ["education"; "experience"; "projects"] ->
      dict_lookup cv section = Some v ->
      exists items, iterate v = Ok items /\
                    forall x, In x items -> exists d, x = VDict d).
Proof.
  intros H.
  destruct (build_stages _ _ _ H) as (r1 & r2 & r3 & r4 & H1 & H2 & H3 & H4 & H5).
  split.
  - intros v Hv.
    assert (dict_in "personal_info" cv = true) as Hin by (apply dict_in_lookup; eauto).
    rewrite Hin, (dict_get_found _ _ _ _ Hv) in H1.
    destruct v; try discriminate. eauto.
  - intros section v I Hv. cbn in I. destruct I as [<- | [<- | [<- | []]]].
    + exact (section_loop_entries _ _ _ _ _ _ (education_entry_mapping so) H2 Hv).
    + exact (section_loop_entries _ _ _ _ _ _ (experience_entry_mapping so) H3 Hv).
    + exact (section_loop_entries _ _ _ _ _ _ project_entry_mapping H5 Hv).
Qed.

Lemma flattener_returns_only_for_witness :
  exists items,
    iterate (dict_get acme_profile "projects" VNone) = Ok items /\
    forall x, In x items -> exists d, x = VDict d.
Proof.
  exact (proj2 (flattener_returns_only_for (fun _ => "") acme_profile acme_map eq_refl)
           "projects" _ (or_intror (or_intror (or_introl eq_refl))) eq_refl).
Defined.

(** Property X10.  A [personal_info] that is not a mapping makes the
    flattener raise [AttributeError] at its first [get], and
    [fill_template] raises it in turn before it touches the document. *)
Theorem personal_info_not_a_mapping so (cv : dict) v (doc : Document) :
  dict_lookup cv "personal_info" = Some v ->
  (forall d, v <> VDict d) ->
  _build_replacements so cv = Raise AttributeError /\
  fill_template so doc cv = Raise AttributeError.
Proof.
  intros Hv N.
  assert (_build_replacements so cv = Raise AttributeError) as B.
  { unfold _build_replacements.
    assert (dict_in "personal_info" cv = true) as -> by (apply dict_in_lookup; eauto).
    rewrite (dict_get_found _ _ _ _ Hv).
    destruct v as [| | | | |d]; try reflexivity. now elim (N d). }
  split; [exact B|]. unfold fill_template. now rewrite B.
Qed.

Lemma personal_info_not_a_mapping_witness :
  _build_replacements (fun _ => "") [("personal_info", VStr "Ann")]
  = Raise AttributeError /\
  fill_template (fun _ => "") names_document [("personal_info", VStr "Ann")]
  = Raise AttributeError.
Proof.
  apply (personal_info_not_a_mapping (fun _ => "") _ (VStr "Ann")).
  - reflexivity.
  - intros d. discriminate.
Defined.

(** Property X11.  With a personal section that passes, an [education]
    that is [None], a boolean or a number makes the flattener raise
    [TypeError]: the value cannot be enumerated. *)
Theorem scalar_education_raises so (cv : dict) v (doc : Document) :
  dict_in "personal_info" cv = false \/
  (exists d, dict_lookup cv "personal_info" = Some (VDict d)) ->
  dict_lookup cv "education" = Some v ->
  v = VNone \/ (exists b, v = VBool b) \/ (exists z, v = VInt z) ->
  _build_replacements so cv = Raise TypeError /\
  fill_template so doc cv = Raise TypeError.
Proof.
  intros P Hv S.
  assert (_build_replacements so cv = Raise TypeError) as B.
  { unfold _build_replacements.
    assert (exists r1, (if dict_in "personal_info" cv
                        then personal_info_tokens (dict_get cv "personal_info" VNone) []
                        else Ok []) = Ok r1) as [r1 ->].
    { destruct P as [-> | (d & Hd)]; [eauto|].
      assert (dict_in "personal_info" cv = true) as -> by (apply dict_in_lookup; eauto).
      rewrite (dict_get_found _ _ _ _ Hd). cbn. eauto. }
    cbn [bind]. unfold section_loop at 1.
    assert (dict_in "education" cv = true) as -> by (apply dict_in_lookup; eauto).
    rewrite (dict_get_found _ _ _ _ Hv).
    destruct S as [-> | [[b ->] | [z ->]]]; reflexivity. }
  split; [exact B|]. unfold fill_template. now rewrite B.
Qed.

Lemma scalar_education_raises_witness :
  _build_replacements (fun _ => "") [("education", VNone)] = Raise TypeError /\
  fill_template (fun _ => "") names_document [("education", VNone)] = Raise TypeError.
Proof.
  apply (scalar_education_raises (fun _ => "") _ VNone).
  - left. reflexivity.
  - reflexivity.
  - left. reflexivity.
Defined.

(* ================================================================== *)
(** * Further properties of the engine *)

(** ** The anatomy of a pass *)

Lemma run_of_elements (p : Paragraph) r t :
  In (E_run r, t) (elements_of p) -> In (N_r r) p.
Proof.
  unfold elements_of. rewrite in_flat_map. intros [n [Hn H]].
  destruct n; simpl in H; try tauto; destruct H as [H|[]]; try discriminate.
  injection H as <- _. exact Hn.
Qed.

Lemma first_run_in (els : list (element * string)) tr :
  first_run els = Some tr -> exists t, In (E_run tr, t) els.
Proof.
  induction els as [|[[r|h] t] els IH]; simpl; [discriminate| |].
  - intros [= ->]. exists t. now left.
  - intros H. destruct (IH H) as [t' I]. exists t'. now right.
Qed.

Lemma whole_elements_from (p : Paragraph) (els : list (element * string)) :
  (forall x, In x els -> In x (elements_of p)) ->
  Forall (item_from p) (whole_elements els).
Proof.
  intros Hsub. apply Forall_forall. intros it. unfold whole_elements.
  rewrite in_flat_map. intros [[[r|h] t] [He H]]; simpl in H.
  - destruct (String.eqb t "") eqn:E; [destruct H|]. destruct H as [<- | []].
    split; [eapply run_of_elements; eauto|]. now apply String.eqb_neq.
  - destruct H as [<- | []]. simpl. eapply hyperlink_of_elements; eauto.
Qed.

Lemma text_before_from (p : Paragraph) se so' :
  (forall r, se = E_run r -> In (N_r r) p) ->
  Forall (item_from p) (text_before se so').
Proof.
  intros Hr. unfold text_before. destruct se as [r|h]; [|constructor].
  destruct (String.eqb _ _) eqn:E; constructor; [|constructor].
  split; [now apply Hr|]. now apply String.eqb_neq.
Qed.

Lemma text_after_from (p : Paragraph) ei z :
  Forall (item_from p) (text_after (elements_of p) ei z).
Proof.
  unfold text_after.
  destruct (nth_error (elements_of p) ei) as [[[r|h] t]|] eqn:N; try constructor.
  destruct (String.eqb _ _) eqn:E; constructor; [|constructor].
  split; [|now apply String.eqb_neq].
  apply nth_error_In in N. eapply run_of_elements; eauto.
Qed.

Lemma items_behind_from (p : Paragraph) ei z :
  Forall (item_from p)
    (text_after (elements_of p) ei z
     ++ whole_elements (skipn (ei + 1) (elements_of p))).
Proof.
  apply Forall_app. split; [apply text_after_from|].
  apply whole_elements_from. intros x. apply in_skipn.
Qed.

Lemma items_in_front_from (p : Paragraph) si se st so' :
  nth_error (elements_of p) si = Some (se, st) ->
  Forall (item_from p)
    (whole_elements (firstn si (elements_of p)) ++ text_before se so').
Proof.
  intros N. apply Forall_app. split.
  - apply whole_elements_from. intros x. apply in_firstn.
  - apply text_before_from. intros r ->. apply nth_error_In in N.
    eapply run_of_elements; eauto.
Qed.

Lemma element_at_nth (els : list (element * string)) i e :
  element_at els i = Ok e -> nth_error els i = Some e.
Proof. unfold element_at. destruct (nth_error els i); now intros [= ->]. Qed.

(** Every way the call can leave: the paragraph as it was, or a
    paragraph rebuilt from the items of the pass. *)
Lemma replace_in_paragraph_cases so (p : Paragraph) (repl : dict) cv :
  _replace_in_paragraph so p repl cv = (p, Returned) \/
  (exists e, _replace_in_paragraph so p repl cv = (p, Raised e)) \/
  rebuilt_from so p repl cv (_replace_in_paragraph so p repl cv).
Proof.
  unfold _replace_in_paragraph.
  destruct (negb _); [now left|]. rewrite index_paragraph_eq.
  destruct (elements_of p) as [|e0 els0] eqn:Els; [now left|]. rewrite <- Els.
  destruct (sort _) as [|[[pos ph] v] rest] eqn:Hs; [now left|].
  destruct (match cv with Some _ => is_hyperlink_placeholder ph && cv_given cv
                     | None => false end) eqn:Path.
  - destruct cv as [cvd|]; [|discriminate]. rewrite Path.
    apply andb_true_iff in Path as [Hph Hcv].
    unfold replace_hyperlink.
    destruct (resolve_span _ pos ph) as [[[[[si sk] so'] ei]|e]|]; [| |now left];
      [|right; left; now exists e].
    destruct (first_run (elements_of p)) as [tr|] eqn:Hrun; [|now left].
    destruct (profile_url cvd _) as [url|e]; [|right; left; now exists e].
    destruct (element_at (elements_of p) si) as [[se st]|e] eqn:Hat;
      [|right; left; now exists e].
    apply element_at_nth in Hat.
    right; right.
    exists pos, ph, v, rest,
      (whole_elements (firstn si (elements_of p)) ++ text_before se so'),
      (hyperlink_item (if String.eqb ph "{{GITHUB}}" then "Github" else "Linkedin")
         tr url),
      (text_after (elements_of p) ei (pos + len ph)
       ++ whole_elements (skipn (ei + 1) (elements_of p))).
    split; [exact Hs|]. split; [eapply items_in_front_from; eauto|].
    split; [apply items_behind_from|]. right.
    exists tr, (if String.eqb ph "{{GITHUB}}" then "Github" else "Linkedin"), url.
    split. { destruct (first_run_in _ _ Hrun) as [t I]. eapply run_of_elements; eauto. }
    split; [reflexivity|].
    split. { destruct (String.eqb ph "{{GITHUB}}"); auto. }
    split; [exact Hcv|]. split; [exact Hph|].
    rewrite <- app_assoc. reflexivity.
  - assert (match cv with
            | Some cvd =>
                if is_hyperlink_placeholder ph && cv_given cv
                then replace_hyperlink p (char_map_of 0 (elements_of p)) (elements_of p)
                       pos ph cvd
                else replace_plain so p (char_map_of 0 (elements_of p)) (elements_of p)
                       pos ph v
            | None => replace_plain so p (char_map_of 0 (elements_of p)) (elements_of p)
                        pos ph v
            end
            = replace_plain so p (char_map_of 0 (elements_of p)) (elements_of p) pos ph v)
      as ->.
    { destruct cv; [now rewrite Path | reflexivity]. }
    assert (cv_given cv = false \/ is_hyperlink_placeholder ph = false) as Hplain.
    { destruct cv as [cvd|]; [|now left].
      apply andb_false_iff in Path as [H | H]; auto. }
    unfold replace_plain.
    destruct (resolve_span _ pos ph) as [[[[[si sk] so'] ei]|e]|]; [| |now left];
      [|right; left; now exists e].
    destruct (element_at (elements_of p) si) as [[se st]|e] eqn:Hat;
      [|right; left; now exists e].
    apply element_at_nth in Hat.
    destruct (match se with E_run r => Some r | E_hyperlink _ => first_run (elements_of p) end)
      as [tr|] eqn:Htr; [|now left].
    right; right.
    exists pos, ph, v, rest,
      (whole_elements (firstn si (elements_of p)) ++ text_before se so'),
      (value_item (py_str so v) tr),
      (text_after (elements_of p) ei (pos + len ph)
       ++ whole_elements (skipn (ei + 1) (elements_of p))).
    split; [exact Hs|]. split; [eapply items_in_front_from; eauto|].
    split; [apply items_behind_from|]. left.
    exists tr. split.
    { destruct se as [r|h].
      - injection Htr as <-. apply nth_error_In in Hat. eapply run_of_elements; eauto.
      - destruct (first_run_in _ _ Htr) as [t I]. eapply run_of_elements; eauto. }
    split; [reflexivity|]. split; [exact Hplain|].
    now rewrite plain_content_parts.
Qed.

Lemma item_from_xml_values (p : Paragraph) items :
  Forall (item_from p) items -> xml_values items.
Proof.
  induction 1 as [|it items Hit _ IH]; constructor; [|exact IH].
  destruct it; simpl in *; auto.
Qed.

(** What the rebuild loop of the hyperlink branch has appended when it
    stops, by [return] or by an exception. *)
Lemma rebuild_hyperlink_path_appends items : forall p0,
  xml_values items ->
  exists nodes,
    fst (rebuild_hyperlink_path items p0) = p0 ++ nodes /\
    forall n, In n nodes -> exists it, In it items /\ In n (hyperlink_path_nodes it).
Proof.
  induction items as [|it items IH]; intros p0 X.
  - exists []. split; [symmetry; apply app_nil_r | intros n []].
  - inversion X as [|? ? Xit Xrest]; subst.
    destruct it as [text src | text src | d src url | h]; cbn [rebuild_hyperlink_path].
    + destruct (IH (add_run_kept p0 text (copy_font_hyperlink_path (run_font src))) Xrest)
        as (nodes & E & Hn).
      eexists (_ :: nodes). split.
      * rewrite E. unfold add_run_kept. rewrite <- app_assoc. reflexivity.
      * intros n [<- | I].
        -- eexists. split; [left; reflexivity | left; reflexivity].
        -- destruct (Hn n I) as (it & Hit & Hin). exists it. split; [now right | exact Hin].
    + rewrite (add_run_compatible _ _ _ Xit).
      destruct (IH (add_run_kept p0 text (copy_font_hyperlink_path (run_font src))) Xrest)
        as (nodes & E & Hn).
      eexists (_ :: nodes). split.
      * rewrite E. unfold add_run_kept. rewrite <- app_assoc. reflexivity.
      * intros n [<- | I].
        -- eexists. split; [left; reflexivity | left; reflexivity].
        -- destruct (Hn n I) as (it & Hit & Hin). exists it. split; [now right | exact Hin].
    + destruct url as [| | |u| |]; cbn [_add_hyperlink];
        try (exists []; split; [symmetry; apply app_nil_r | intros n []]).
      destruct (IH (p0 ++ [N_hyperlink
                            {| target := normalize_url u;
                               hyperlink_runs :=
                                 [{| hr_rPr := hyperlink_rPr src; hr_texts := [d] |}] |}])
                  Xrest)
        as (nodes & E & Hn).
      eexists (_ :: nodes). split.
      * rewrite E, <- app_assoc. reflexivity.
      * intros n [<- | I].
        -- eexists. split; [left; reflexivity | left; reflexivity].
        -- destruct (Hn n I) as (it & Hit & Hin). exists it. split; [now right | exact Hin].
    + destruct (IH (p0 ++ [N_hyperlink h]) Xrest) as (nodes & E & Hn).
      eexists (_ :: nodes). split.
      * rewrite E, <- app_assoc. reflexivity.
      * intros n [<- | I].
        -- eexists. split; [left; reflexivity | left; reflexivity].
        -- destruct (Hn n I) as (it & Hit & Hin). exists it. split; [now right | exact Hin].
Qed.

Lemma in_clear_paragraph (p : Paragraph) n : In n (clear_paragraph p) -> is_pPr n = true.
Proof.
  intros I. pose proof (clear_paragraph_only_pPr p) as F.
  rewrite Forall_forall in F. now apply F.
Qed.

(** The children of a rebuilt paragraph: those of the cleared paragraph,
    which are properties blocks, and what the items have given, on the
    plain path or on the hyperlink path.  On the plain path the run of
    the value is there when the call returns; when [add_run] raises for
    it, the run it leaves is there, and nothing behind it. *)
Lemma in_rebuilt so (p : Paragraph) (repl : dict) cv n :
  rebuilt_from so p repl cv (_replace_in_paragraph so p repl cv) ->
  In n (fst (_replace_in_paragraph so p repl cv)) ->
  is_pPr n = true \/
  exists pos ph v rest,
    sort (find_placeholders (paragraph_text p) repl) = (pos, ph, v) :: rest /\
    (((cv_given cv = false \/ is_hyperlink_placeholder ph = false) /\
      ((exists it, In n (plain_nodes it) /\ item_from p it) \/
       (exists tr, In (N_r tr) p /\
                   In n (plain_nodes (value_item (py_str so v) tr)) /\
                   snd (_replace_in_paragraph so p repl cv) = Returned) \/
       (exists content,
           n = N_r {| run_text := content; run_font := no_font |} /\
           xml_compatible (py_str so v) = false /\
           snd (_replace_in_paragraph so p repl cv) = Raised ValueError))) \/
     (cv_given cv = true /\ is_hyperlink_placeholder ph = true /\
      exists it,
        In n (hyperlink_path_nodes it) /\
        (item_from p it \/
         exists tr display url,
           In (N_r tr) p /\ it = hyperlink_item display tr url /\
           (display = "Github" \/ display = "Linkedin")))).
Proof.
  intros (pos & ph & v & rest & A & mid & B & Hs & HA & HB & Hcase) I.
  pose proof (item_from_xml_values _ _ HA) as XA.
  pose proof (item_from_xml_values _ _ HB) as XB.
  rewrite Forall_forall in HA, HB.
  destruct Hcase as [(tr & Htr & -> & Hplain & E) | (tr & d & url & Htr & -> & Hd & Hcv & Hph & E)].
  - destruct (rebuild_value_cases A (py_str so v) tr B (clear_paragraph p) XA XB)
      as [E' | (content & X & E')]; rewrite E' in E; rewrite E in I |- *;
      cbn [fst snd] in *.
    + apply in_app_iff in I as [I | I]; [left; now apply in_clear_paragraph in I|].
      right. exists pos, ph, v, rest. split; [exact Hs|]. left. split; [exact Hplain|].
      apply in_flat_map in I as (it & Hit & Hn).
      apply in_app_iff in Hit as [Hit | [<- | Hit]].
      * left. exists it. split; [exact Hn | now apply HA].
      * right; left. exists tr. auto.
      * left. exists it. split; [exact Hn | now apply HB].
    + apply in_app_iff in I as [I | I]; [left; now apply in_clear_paragraph in I|].
      right. exists pos, ph, v, rest. split; [exact Hs|]. left. split; [exact Hplain|].
      apply in_app_iff in I as [I | [<- | []]].
      * apply in_flat_map in I as (it & Hit & Hn).
        left. exists it. split; [exact Hn | now apply HA].
      * right; right. exists content. auto.
  - rewrite E in I.
    assert (xml_values (A ++ hyperlink_item d tr url :: B)) as X
        by (apply xml_values_app; [exact XA | constructor; [exact Logic.I | exact XB]]).
    destruct (rebuild_hyperlink_path_appends (A ++ hyperlink_item d tr url :: B)
                (clear_paragraph p) X) as (nodes & E' & Hn).
    rewrite E' in I.
    apply in_app_iff in I as [I | I]; [left; now apply in_clear_paragraph in I|].
    right. exists pos, ph, v, rest.
    destruct (Hn n I) as (it & Hit & Hin).
    split; [exact Hs|]. right. split; [exact Hcv|]. split; [exact Hph|].
    exists it. split; [exact Hin|].
    apply in_app_iff in Hit as [Hit | [<- | Hit]].
    + left. now apply HA.
    + right. exists tr, d, url. auto.
    + left. now apply HB.
Qed.

Lemma in_plain_nodes n it :
  In n (plain_nodes it) ->
  (exists text src, (it = text_item text src \/ it = value_item text src) /\
     n = N_r {| run_text := read_back text; run_font := copy_font (run_font src) |}) \/
  (exists h, it = existing_hyperlink_item h /\ n = N_hyperlink h).
Proof.
  destruct it as [text src | text src | d src url | h]; cbn; intros H; try tauto;
    destruct H as [<- | []]; eauto 6.
Qed.

Lemma in_hyperlink_path_nodes n it :
  In n (hyperlink_path_nodes it) ->
  (exists text src, (it = text_item text src \/ it = value_item text src) /\
     n = N_r {| run_text := read_back text;
                run_font := copy_font_hyperlink_path (run_font src) |}) \/
  (exists d src u, it = hyperlink_item d src (VStr u) /\
     n = N_hyperlink (new_hyperlink d src u)) \/
  (exists h, it = existing_hyperlink_item h /\ n = N_hyperlink h).
Proof.
  destruct it as [text src | text src | d src url | h]; cbn; intros H.
  - destruct H as [<- | []]. left. eauto 6.
  - destruct H as [<- | []]. left. eauto 6.
  - destruct url; cbn in H; try tauto. destruct H as [<- | []]. right; left. eauto.
  - destruct H as [<- | []]. right; right. eauto.
Qed.

(** Property X12.  A call that changes the paragraph keeps of its
    children only the properties block, runs and hyperlinks: whatever
    else the paragraph held (a bookmark, a comment mark, a tracked
    change) is gone from it. *)
Theorem other_children_are_dropped so (p : Paragraph) (repl : dict) cv :
  fst (_replace_in_paragraph so p repl cv) = p \/
  forall tag, ~ In (N_other tag) (fst (_replace_in_paragraph so p repl cv)).
Proof.
  destruct (replace_in_paragraph_cases so p repl cv) as [E | [[e E] | R]];
    [left; now rewrite E | left; now rewrite E | right].
  intros tag I.
  destruct (in_rebuilt so p repl cv _ R I)
    as [H | (pos & ph & v & rest & _ &
             [(_ & [(it & H & _) | [(tr & _ & H & _) | (content & H & _)]])
             | (_ & _ & it & H & _)])];
    [discriminate| | | discriminate |].
  - apply in_plain_nodes in H as [(t & src & _ & H) | (h & _ & H)]; discriminate.
  - apply in_plain_nodes in H as [(t & src & _ & H) | (h & _ & H)]; discriminate.
  - apply in_hyperlink_path_nodes in H
      as [(t & src & _ & H) | [(d & src & u & _ & H) | (h & _ & H)]]; discriminate.
Qed.

Lemma bookmark_is_dropped :
  _replace_in_paragraph (fun _ => "") bookmarked ann None
  = ([N_pPr {| jc := Some "center"; pStyle := None; numPr := None |};
      N_r {| run_text := "Ann"; run_font := arial_11_bold |}], Returned) /\
  ~ In (N_other "bookmarkStart")
       (fst (_replace_in_paragraph (fun _ => "") bookmarked ann None)).
Proof.
  split; [reflexivity|].
  destruct (other_children_are_dropped (fun _ => "") bookmarked ann None) as [E | N].
  - discriminate E.
  - exact (N "bookmarkStart").
Defined.

(** ** The fonts after a pass *)

(** Property X13.  On the plain path (no profile is given, or no key
    of the map is [{{GITHUB}}] or [{{LINKEDIN}}]) every run of the
    paragraph after the call carries the font, all six attributes, of a
    run the paragraph had before.  The one exception is the run
    [add_run] leaves when it raises [ValueError] for a value that XML
    forbids: the call ends there and that run has no formatting. *)
Theorem plain_path_keeps_fonts so (p : Paragraph) (repl : dict) cv r' :
  cv_given cv = false \/
  (forall k, In k (keys repl) -> is_hyperlink_placeholder k = false) ->
  In (N_r r') (fst (_replace_in_paragraph so p repl cv)) ->
  (exists r, In (N_r r) p /\ run_font r' = run_font r) \/
  (snd (_replace_in_paragraph so p repl cv) = Raised ValueError /\
   run_font r' = no_font).
Proof.
  intros Hplain I.
  destruct (replace_in_paragraph_cases so p repl cv) as [E | [[e E] | R]];
    [rewrite E in I; left; now exists r' | rewrite E in I; left; now exists r' |].
  destruct (in_rebuilt so p repl cv _ R I)
    as [H | (pos & ph & v & rest & Hs &
             [(_ & [(it & H & Hit) | [(tr & Htr & H & _) | (content & H & _ & Hraised)]])
             | (Hcv & Hph & _)])];
    [discriminate| | | |].
  - apply in_plain_nodes in H as [(t & src & [-> | ->] & H) | (h & _ & H)];
      [| destruct Hit | discriminate].
    injection H as ->. cbn [run_font]. rewrite copy_font_all_six.
    left. exists src. split; [|reflexivity]. now destruct Hit.
  - destruct H as [H | []]. injection H as <-. cbn [run_font].
    rewrite copy_font_all_six. left. now exists tr.
  - injection H as ->. right. split; [exact Hraised | reflexivity].
  - exfalso. destruct Hplain as [Hn | Hn]; [congruence|].
    destruct (sort_head_found _ _ _ _ _ _ Hs) as (Hin & _).
    rewrite Hn in Hph; [discriminate|].
    unfold keys. apply in_map_iff. now exists (ph, v).
Qed.

Lemma plain_path_keeps_fonts_witness :
  (exists r, In (N_r r) cell_paragraph /\ arial_11_bold = run_font r) \/
  (snd (_replace_in_paragraph (fun _ => "") cell_paragraph ann None)
   = Raised ValueError /\ arial_11_bold = no_font).
Proof.
  exact (plain_path_keeps_fonts (fun _ => "") cell_paragraph ann None
           {| run_text := "Ann"; run_font := arial_11_bold |}
           (or_introl eq_refl) (or_introl eq_refl)).
Defined.

(** Property X14.  When the call takes the hyperlink branch and
    changes the paragraph, every run it leaves has the name, the size,
    the bold and the italic of a run the paragraph had before, and
    neither an underline nor a colour: the two are lost on every run of
    the paragraph, not only next to the token. *)
Theorem hyperlink_path_keeps_four so (p : Paragraph) (repl cvd : dict)
    pos ph v rest :
  sort (find_placeholders (paragraph_text p) repl) = (pos, ph, v) :: rest ->
  is_hyperlink_placeholder ph = true ->
  cvd <> [] ->
  fst (_replace_in_paragraph so p repl (Some cvd)) = p \/
  forall r', In (N_r r') (fst (_replace_in_paragraph so p repl (Some cvd))) ->
    exists r, In (N_r r) p /\
      run_font r' =
      {| font_name := font_name (run_font r); font_size := font_size (run_font r);
         font_bold := font_bold (run_font r); font_italic := font_italic (run_font r);
         font_underline := None; font_color := None |}.
Proof.
  intros Hs Hph Hcv.
  destruct (replace_in_paragraph_cases so p repl (Some cvd)) as [E | [[e E] | R]];
    [left; now rewrite E | left; now rewrite E | right].
  intros r' I.
  destruct (in_rebuilt so p repl (Some cvd) _ R I)
    as [H | (pos' & ph' & v' & rest' & Hs' & [(Hplain & _) | (_ & _ & it & H & Hit)])];
    [discriminate| |].
  - exfalso. rewrite Hs in Hs'. injection Hs' as _ <- _ _.
    destruct Hplain as [Hn | Hn]; [|congruence].
    destruct cvd; [congruence | discriminate].
  - apply in_hyperlink_path_nodes in H
      as [(t & src & Hsrc & H) | [(d & src & u & _ & H) | (h & _ & H)]];
      try discriminate.
    injection H as ->. exists src. split; [|reflexivity].
    destruct Hsrc as [-> | ->];
      destruct Hit as [Hit | (tr & d & url & _ & Hit & _)];
      try discriminate; now destruct Hit.
Qed.

Lemma hyperlink_path_keeps_four_witness :
  exists r, In (N_r r) underlined_paragraph /\
    {| font_name := Some "Arial"; font_size := Some 139700;
       font_bold := Some true; font_italic := None;
       font_underline := None; font_color := None |} =
    {| font_name := font_name (run_font r); font_size := font_size (run_font r);
       font_bold := font_bold (run_font r); font_italic := font_italic (run_font r);
       font_underline := None; font_color := None |}.
Proof.
  destruct (hyperlink_path_keeps_four (fun _ => "") underlined_paragraph
              [("{{GITHUB}}", VStr "jdoe")] jdoe 9 "{{GITHUB}}" (VStr "jdoe") []
              eq_refl eq_refl) as [E | H].
  - discriminate.
  - discriminate E.
  - exact (H {| run_text := "Profile: ";
                run_font := {| font_name := Some "Arial"; font_size := Some 139700;
                               font_bold := Some true; font_italic := None;
                               font_underline := None; font_color := None |} |}
             (or_introl eq_refl)).
Defined.

(** ** The hyperlinks after a pass *)

(** Property X15.  Every hyperlink element of the paragraph after the
    call is one the paragraph had before, unchanged, or the one the
    call has made: its text is [Github] or [Linkedin], its properties
    come from a run of the paragraph, and its target begins with
    [http://] or [https://]. *)
Theorem hyperlinks_after_a_pass so (p : Paragraph) (repl : dict) cv h :
  In (N_hyperlink h) (fst (_replace_in_paragraph so p repl cv)) ->
  In (N_hyperlink h) p \/
  exists display tr u,
    (display = "Github" \/ display = "Linkedin") /\
    In (N_r tr) p /\
    h = new_hyperlink display tr u /\
    (startswith (target h) "http://" = true \/
     startswith (target h) "https://" = true).
Proof.
  intros I.
  destruct (replace_in_paragraph_cases so p repl cv) as [E | [[e E] | R]];
    [rewrite E in I; now left | rewrite E in I; now left |].
  destruct (in_rebuilt so p repl cv _ R I)
    as [H | (pos & ph & v & rest & Hs &
             [(_ & [(it & H & Hit) | [(tr & _ & H & _) | (content & H & _)]])
             | (_ & _ & it & H & Hit)])];
    [discriminate| | | discriminate |].
  - apply in_plain_nodes in H as [(t & src & _ & H) | (h' & -> & H)]; [discriminate|].
    injection H as ->. left. exact Hit.
  - destruct H as [H | []]. discriminate.
  - apply in_hyperlink_path_nodes in H
      as [(t & src & _ & H) | [(d & src & u & -> & H) | (h' & -> & H)]];
      [discriminate | |].
    + injection H as ->. right.
      destruct Hit as [[] | (tr & d' & url & Htr & [= <- <- <-] & Hd)].
      exists d, src, u. split; [exact Hd|]. split; [exact Htr|]. split; [reflexivity|].
      cbn [new_hyperlink target]. unfold normalize_url.
      destruct (startswith u "http://") eqn:S1; [now left|].
      destruct (startswith u "https://") eqn:S2; [now right|].
      right. cbn [negb andb]. apply prefix_iff. now exists u.
    + injection H as ->. left.
      destruct Hit as [Hit | (tr & d & url & _ & Hit & _)]; [exact Hit | discriminate].
Qed.

Lemma hyperlinks_after_a_pass_witness :
  In (N_hyperlink (new_hyperlink "Github"
                     {| run_text := "Profile: {{GITHUB}}"; run_font := arial_11_bold |}
                     "jdoe")) profile_paragraph \/
  exists display tr u,
    (display = "Github" \/ display = "Linkedin") /\
    In (N_r tr) profile_paragraph /\
    new_hyperlink "Github"
      {| run_text := "Profile: {{GITHUB}}"; run_font := arial_11_bold |} "jdoe"
    = new_hyperlink display tr u /\
    (startswith (target (new_hyperlink "Github"
                   {| run_text := "Profile: {{GITHUB}}"; run_font := arial_11_bold |}
                   "jdoe")) "http://" = true \/
     startswith (target (new_hyperlink "Github"
                   {| run_text := "Profile: {{GITHUB}}"; run_font := arial_11_bold |}
                   "jdoe")) "https://" = true).
Proof.
  exact (hyperlinks_after_a_pass (fun _ => "") profile_paragraph
           [("{{GITHUB}}", VStr "jdoe")] (Some jdoe) _
           (or_intror (or_introl eq_refl))).
Defined.

(** ** Runs without text *)

(** Property X16.  A call that changes the paragraph leaves no run
    without text, except the run that stands for the token: when the
    value printed for it is empty, or when XML forbids a character of
    the value and [add_run] has raised [ValueError] for it.  The empty
    runs of the template are dropped with their formatting. *)
Theorem empty_runs_are_dropped so (p : Paragraph) (repl : dict) cv :
  fst (_replace_in_paragraph so p repl cv) = p \/
  forall r', In (N_r r') (fst (_replace_in_paragraph so p repl cv)) ->
    run_text r' = "" ->
    exists pos ph v rest,
      sort (find_placeholders (paragraph_text p) repl) = (pos, ph, v) :: rest /\
      (py_str so v = "" \/
       (xml_compatible (py_str so v) = false /\
        snd (_replace_in_paragraph so p repl cv) = Raised ValueError)).
Proof.
  destruct (replace_in_paragraph_cases so p repl cv) as [E | [[e E] | R]];
    [left; now rewrite E | left; now rewrite E | right].
  intros r' I Hempty.
  destruct (in_rebuilt so p repl cv _ R I)
    as [H | (pos & ph & v & rest & Hs &
             [(_ & [(it & H & Hit) | [(tr & _ & H & _) | (content & H & X & Hraised)]])
             | (_ & _ & it & H & Hit)])];
    [discriminate| | | |].
  - apply in_plain_nodes in H as [(t & src & [-> | ->] & H) | (h' & _ & H)];
      [| destruct Hit | discriminate].
    injection H as ->. cbn [run_text] in Hempty.
    apply (proj1 (read_back_empty _)) in Hempty. destruct Hit as [_ Hne]. contradiction.
  - destruct H as [H | []]. injection H as <-. cbn [run_text] in Hempty.
    apply (proj1 (read_back_empty _)) in Hempty. exists pos, ph, v, rest. auto.
  - exists pos, ph, v, rest. auto.
  - apply in_hyperlink_path_nodes in H
      as [(t & src & Hsrc & H) | [(d & src & u & _ & H) | (h' & _ & H)]];
      try discriminate.
    injection H as ->. cbn [run_text] in Hempty. apply (proj1 (read_back_empty _)) in Hempty.
    destruct Hsrc as [-> | ->];
      destruct Hit as [Hit | (tr & d & url & _ & Hit & _)];
      try discriminate; [destruct Hit as [_ Hne]; contradiction | destruct Hit].
Qed.

Lemma empty_runs_are_dropped_witness :
  _replace_in_paragraph (fun _ => "") with_empty_run ann None
  = ([N_r {| run_text := "Name: "; run_font := arial_11_bold |};
      N_r {| run_text := "Ann"; run_font := arial_11_bold |}], Returned) /\
  ~ In (N_r {| run_text := ""; run_font := red_underlined |})
       (fst (_replace_in_paragraph (fun _ => "") with_empty_run ann None)).
Proof.
  split; [reflexivity|].
  destruct (empty_runs_are_dropped (fun _ => "") with_empty_run ann None) as [E | H].
  - discriminate E.
  - intros I. destruct (H _ I eq_refl) as (pos & ph & v & rest & Hs & Hv).
    injection Hs as _ _ <- _. destruct Hv as [Hv | [Hv _]]; discriminate Hv.
Defined.

(* ================================================================== *)
(** * Further properties of [_add_hyperlink] and of the document *)

(** ** The target and the text of a new hyperlink *)




(** ** What [fill_template] leaves as it was *)

Lemma fill_each_frame so (repl cv : dict) visits : forall (st st' : list Paragraph) o,
  fill_each so repl cv visits st = (st', o) ->
  List.length st' = List.length st /\
  (forall j, ~ In j visits -> nth_error st' j = nth_error st j) /\
  (forall j q q', nth_error st j = Some q -> nth_error st' j = Some q' ->
                  pPr q' = pPr q).
Proof.
  induction visits as [|i visits IH]; intros st st' o H; cbn [fill_each] in H.
  - injection H as <- _. repeat split; auto. intros j q q' A B. congruence.
  - destruct (nth_error st i) as [para|] eqn:N.
    + destruct (fill_paragraph so repl cv para) as [[para' o'] passes] eqn:F.
      assert (pPr para' = pPr para) as Hp.
      { pose proof (pPr_fill_loop so max_iterations repl cv para) as P.
        unfold fill_paragraph in F. now rewrite F in P. }
      assert (forall j q q', nth_error st j = Some q ->
                nth_error (store_set st i para') j = Some q' -> pPr q' = pPr q) as Hs.
      { intros j q q' A B. rewrite nth_error_store_set in B.
        destruct (Nat.eqb j i) eqn:E.
        - apply Nat.eqb_eq in E. subst j. rewrite N in B, A. congruence.
        - congruence. }
      destruct o' as [|e].
      * destruct (IH _ _ _ H) as (L & U & P). split; [|split].
        -- now rewrite L, length_store_set.
        -- intros j Hj. rewrite U by (intros I; apply Hj; now right).
           rewrite nth_error_store_set.
           destruct (Nat.eqb j i) eqn:E; [|reflexivity].
           apply Nat.eqb_eq in E. elim Hj. now left.
        -- intros j q q' A B.
           destruct (nth_error (store_set st i para') j) as [q1|] eqn:M.
           ++ rewrite (P j q1 q' M B). exact (Hs j q q1 A M).
           ++ apply nth_error_None in M. rewrite length_store_set in M.
              apply nth_error_None in M. congruence.
      * injection H as <- _. split; [|split].
        -- apply length_store_set.
        -- intros j Hj. rewrite nth_error_store_set.
           destruct (Nat.eqb j i) eqn:E; [|reflexivity].
           apply Nat.eqb_eq in E. elim Hj. now left.
        -- exact Hs.
    + destruct (IH _ _ _ H) as (L & U & P). split; [exact L|]. split; [|exact P].
      intros j Hj. apply U. intros I. apply Hj. now right.
Qed.

(** Property X18.  The document [fill_template] would save has the
    paragraphs of the template, as many and in the same places of the
    body and of the tables; a paragraph that neither the body nor a
    table cell lists is as it was; and every paragraph has the
    properties block it had. *)
Theorem fill_template_keeps_the_frame so (doc doc' : Document) (cv : dict) :
  fill_template so doc cv = Ok doc' ->
  List.length (store doc') = List.length (store doc) /\
  doc_paragraphs doc' = doc_paragraphs doc /\
  doc_tables doc' = doc_tables doc /\
  (forall j, ~ In j (doc_paragraphs doc ++ table_visits (doc_tables doc)) ->
             nth_error (store doc') j = nth_error (store doc) j) /\
  (forall j q q', nth_error (store doc) j = Some q ->
                  nth_error (store doc') j = Some q' -> pPr q' = pPr q).
Proof.
  unfold fill_template.
  destruct (_build_replacements so cv) as [repl|]; [|discriminate]. cbn [bind].
  destruct (fill_each so repl cv (doc_paragraphs doc) (store doc)) as [st1 o1] eqn:F1.
  destruct o1; [|discriminate].
  destruct (fill_each so repl cv (table_visits (doc_tables doc)) st1) as [st2 o2] eqn:F2.
  destruct o2; [|discriminate].
  intros [= <-]. cbn [store doc_paragraphs doc_tables].
  destruct (fill_each_frame _ _ _ _ _ _ _ F1) as (L1 & U1 & P1).
  destruct (fill_each_frame _ _ _ _ _ _ _ F2) as (L2 & U2 & P2).
  split; [congruence|]. split; [reflexivity|]. split; [reflexivity|]. split.
  - intros j Hj. rewrite U2, U1; [reflexivity| |];
      intros I; apply Hj; apply in_or_app; auto.
  - intros j q q' A B.
    destruct (nth_error st1 j) as [q1|] eqn:M.
    + rewrite (P2 j q1 q' M B). exact (P1 j q q1 A M).
    + apply nth_error_None in M. rewrite L1 in M. apply nth_error_None in M. congruence.
Qed.

Lemma fill_template_keeps_the_frame_witness :
  exists doc',
    fill_template (fun _ => "") resume john = Ok doc' /\
    List.length (store doc') = 2%nat /\
    doc_tables doc' = doc_tables resume.
Proof.
  eexists. split; [reflexivity|].
  pose proof (fill_template_keeps_the_frame (fun _ => "") resume _ john eq_refl)
    as (L & _ & T & _).
  exact (conj L T).
Defined.

(* ================================================================== *)
(** * The text in front of a token *)

Lemma items_in_front_text (p : Paragraph) si rs so' (n : nat) :
  well_indexed p ->
  nth_error (elements_of p) si = Some (E_run rs, run_text rs) ->
  (so' < String.length (run_text rs))%nat ->
  n = (String.length (indexed_text (firstn si (elements_of p))) + so')%nat ->
  items_text (whole_elements (firstn si (elements_of p)) ++ text_before (E_run rs) so')
  = take n (paragraph_text p).
Proof.
  intros Hw Hs Hso Hn.
  rewrite items_text_app, text_before_text.
  rewrite (whole_elements_text p (firstn si (elements_of p)) Hw)
    by (intros x Hx; eapply in_firstn; eauto).
  rewrite <- (indexed_text_paragraph p Hw), (indexed_text_split _ _ _ _ Hs), Hn.
  rewrite take_app_plus, take_app_le by lia. reflexivity.
Qed.

Lemma no_new_hyperlink_front (p : Paragraph) si se so' :
  no_new_hyperlink (whole_elements (firstn si (elements_of p)) ++ text_before se so').
Proof.
  apply no_new_hyperlink_app;
    [apply no_new_hyperlink_whole | apply no_new_hyperlink_text_before].
Qed.

Lemma no_new_hyperlink_behind (p : Paragraph) ei z :
  no_new_hyperlink (text_after (elements_of p) ei z
                    ++ whole_elements (skipn (ei + 1) (elements_of p))).
Proof.
  apply no_new_hyperlink_app;
    [apply no_new_hyperlink_text_after | apply no_new_hyperlink_whole].
Qed.

(** Property X20.  When every hyperlink of the paragraph is indexed by
    the text python-docx gives it (each of its runs has one text node),
    the match of the pass lies within the character map from its first
    character to its last, so the call does not return at the test of
    the offset and both ends of the span are read from the map. *)
Theorem match_lies_in_the_map (p : Paragraph) (repl : dict) pos ph v rest :
  well_indexed p ->
  sort (find_placeholders (paragraph_text p) repl) = (pos, ph, v) :: rest ->
  ph <> "" ->
  0 <= pos /\
  pos + len ph <= Z.of_nat (List.length (fst (index_paragraph p))) /\
  exists start end_elem_idx,
    resolve_span (fst (index_paragraph p)) pos ph = Some (Ok (start, end_elem_idx)).
Proof.
  intros Hw Hs Hph.
  destruct (sort_head_found _ _ _ _ _ _ Hs) as (_ & Hpos & Hpos0).
  assert (find (paragraph_text p) ph = Z.of_nat (Z.to_nat pos)) as Hf by lia.
  assert (0 < String.length ph)%nat as Hlen by (destruct ph; [congruence | simpl; lia]).
  pose proof (find_fits _ _ _ Hf) as Hfit.
  rewrite index_paragraph_eq. cbn [fst].
  assert (List.length (char_map_of 0 (elements_of p))
          = String.length (paragraph_text p)) as L.
  { rewrite length_char_map_of. now rewrite indexed_text_paragraph. }
  split; [exact Hpos0|]. split; [unfold len; lia|].
  destruct (resolve_span_inside (char_map_of 0 (elements_of p)) (Z.to_nat pos) ph Hlen)
    as (start & endp & Hr & _); [lia|].
  exists start, (fst (fst endp)). rewrite <- Hr. f_equal. lia.
Qed.

Lemma match_lies_in_the_map_witness :
  0 <= 9 /\
  9 + len "{{GITHUB}}" <= Z.of_nat (List.length (fst (index_paragraph profile_paragraph))) /\
  exists start end_elem_idx,
    resolve_span (fst (index_paragraph profile_paragraph)) 9 "{{GITHUB}}"
    = Some (Ok (start, end_elem_idx)).
Proof.
  apply (match_lies_in_the_map profile_paragraph [("{{GITHUB}}", VStr "jdoe")]
           9 "{{GITHUB}}" (VStr "jdoe") []).
  - intros h [E | []]. discriminate E.
  - reflexivity.
  - discriminate.
Defined.

(** ** Paragraphs without a token, met one after the other *)

Lemma fill_each_nothing_to_do so (repl cv : dict) visits (st : list Paragraph) :
  (forall j q, In j visits -> nth_error st j = Some q ->
               has_placeholder (paragraph_text q) repl = false) ->
  fill_each so repl cv visits st = (st, Returned).
Proof.
  induction visits as [|i visits IH]; intros H; [reflexivity|].
  cbn [fill_each]. destruct (nth_error st i) as [para|] eqn:N.
  - unfold fill_paragraph.
    rewrite (fill_loop_without_placeholder so _ repl cv para)
      by (apply (H i); [now left | exact N]).
    rewrite (store_set_same _ _ _ N). apply IH.
    intros j q Hj. apply H. now right.
  - apply IH. intros j q Hj. apply H. now right.
Qed.

(* ================================================================== *)
(** * The loop of passes and the tokens *)

(** ** The anatomy of a pass whose match starts in a run *)

Lemma item_from_string_urls (p : Paragraph) items :
  Forall (item_from p) items -> string_urls items.
Proof.
  induction 1 as [|it items Hit _ IH]; constructor; [|exact IH].
  destruct it; simpl in *; auto. destruct Hit.
Qed.

Lemma item_from_no_new_hyperlink (p : Paragraph) items :
  Forall (item_from p) items -> no_new_hyperlink items.
Proof.
  induction 1 as [|it items Hit _ IH]; constructor; [|exact IH].
  destruct it; simpl in *; auto.
Qed.

Lemma item_from_hyperlink (p : Paragraph) items h :
  Forall (item_from p) items -> In (existing_hyperlink_item h) items ->
  In (N_hyperlink h) p.
Proof.
  intros F I. rewrite Forall_forall in F. exact (F _ I).
Qed.

Lemma has_placeholder_braces (text : string) (repl : dict) :
  tokens_braced repl ->
  has_placeholder text repl = true ->
  (2 <= braces text)%nat.
Proof.
  intros Hk Hh.
  destruct (sort (find_placeholders text repl)) as [|[[pos ph] v] rest] eqn:Hs.
  { apply has_placeholder_found in Hh. now apply sort_nonempty in Hh. }
  destruct (sort_head_found _ _ _ _ _ _ Hs) as (Hin & Hpos & Hpos0).
  assert (String.prefix "{{" ph = true) as Hb.
  { apply Hk. unfold keys. apply in_map_iff. now exists (ph, v). }
  apply prefix_iff in Hb as [ph2 ->].
  assert (find text ("{{" ++ ph2) = Z.of_nat (Z.to_nat pos)) as Hf by lia.
  pose proof (find_splits _ _ _ Hf) as Hsplit.
  rewrite Hsplit, !braces_append. cbn. lia.
Qed.

(** Where a match that fits the text starts and ends, with the types
    the character map records. *)
Lemma span_with_types (p : Paragraph) (ph : string) (n : nat) :
  well_indexed p ->
  find (paragraph_text p) ph = Z.of_nat n ->
  (0 < String.length ph)%nat ->
  exists si sk so' ei ek eo se st ee te,
    resolve_span (char_map_of 0 (elements_of p)) (Z.of_nat n) ph
    = Some (Ok ((si, sk, so'), ei)) /\
    nth_error (char_map_of 0 (elements_of p)) n = Some (si, sk, so') /\
    nth_error (char_map_of 0 (elements_of p)) (n + String.length ph - 1)
    = Some (ei, ek, eo) /\
    nth_error (elements_of p) si = Some (se, st) /\
    elem_type se = sk /\
    (so' < String.length st)%nat /\
    n = (String.length (indexed_text (firstn si (elements_of p))) + so')%nat /\
    nth_error (elements_of p) ei = Some (ee, te) /\
    elem_type ee = ek /\
    (eo < String.length te)%nat /\
    (n + String.length ph - 1
     = String.length (indexed_text (firstn ei (elements_of p))) + eo)%nat.
Proof.
  intros Hw Hf Hph.
  pose proof (find_fits _ _ _ Hf) as Hfit.
  rewrite <- (indexed_text_paragraph p Hw), <- (length_char_map_of _ 0%nat) in Hfit.
  destruct (resolve_span_inside _ n ph Hph Hfit)
    as ([[si sk] so'] & [[ei ek] eo] & Hr & Hs & He).
  destruct (nth_char_map_of _ _ _ _ _ _ Hs) as (se & st & _ & Hse & Hsk & Hso & Hn).
  destruct (nth_char_map_of _ _ _ _ _ _ He) as (ee & te & _ & Hee & Hek & Heo & Hm).
  rewrite Nat.sub_0_r in *.
  exists si, sk, so', ei, ek, eo, se, st, ee, te. simpl in Hr. auto 12.
Qed.

(** The anatomy of a pass whose match starts in a run, when the
    hyperlinks of the paragraph are indexed by their whole text: the
    items in front of the token and behind it, the text they make, and
    the rebuild loop the call runs on them. *)
Lemma pass_anatomy so (p : Paragraph) (repl : dict) cv pos ph v rest i o :
  well_indexed p ->
  sort (find_placeholders (paragraph_text p) repl) = (pos, ph, v) :: rest ->
  ph <> "" ->
  nth_error (fst (index_paragraph p)) (Z.to_nat pos) = Some (i, run, o) ->
  exists rs tr q A B,
    nth_error (snd (index_paragraph p)) i = Some (E_run rs, run_text rs) /\
    first_run (snd (index_paragraph p)) = Some tr /\
    (Z.to_nat pos + String.length ph <= q)%nat /\
    (forall i' o',
        nth_error (fst (index_paragraph p)) (Z.to_nat pos + String.length ph - 1)
        = Some (i', run, o') ->
        q = (Z.to_nat pos + String.length ph)%nat) /\
    Forall (item_from p) A /\ Forall (item_from p) B /\
    items_text A = take (Z.to_nat pos) (paragraph_text p) /\
    items_text B = drop q (paragraph_text p) /\
    (forall mid,
        items_text (A ++ mid :: B)
        = (take (Z.to_nat pos) (paragraph_text p) ++ item_text mid
           ++ drop q (paragraph_text p))%string) /\
    (match cv with
     | Some _ => is_hyperlink_placeholder ph && cv_given cv
     | None => false
     end = false ->
     _replace_in_paragraph so p repl cv
     = rebuild_plain_path (A ++ value_item (py_str so v) rs :: B) (clear_paragraph p)) /\
    (forall cvd,
        cv = Some cvd ->
        is_hyperlink_placeholder ph && cv_given cv = true ->
        exists field display,
          ((ph = "{{GITHUB}}" /\ field = "github" /\ display = "Github") \/
           (ph = "{{LINKEDIN}}" /\ field = "linkedin" /\ display = "Linkedin")) /\
          _replace_in_paragraph so p repl cv
          = match profile_url cvd field with
            | Ok url =>
                rebuild_hyperlink_path (A ++ hyperlink_item display tr url :: B)
                  (clear_paragraph p)
            | Raise e => (p, Raised e)
            end).
Proof.
  intros Hw Hs Hph Hstart.
  rewrite index_paragraph_eq in *. cbn [fst snd] in *.
  destruct (sort_head_found _ _ _ _ _ _ Hs) as (Hin & Hpos & Hpos0).
  assert (find (paragraph_text p) ph = Z.of_nat (Z.to_nat pos)) as Hf by lia.
  assert (pos = Z.of_nat (Z.to_nat pos)) as Hn by lia.
  set (n := Z.to_nat pos) in *. clearbody n. subst pos.
  assert (0 < String.length ph)%nat as Hlen by (destruct ph; [congruence | simpl; lia]).
  destruct (span_with_types p ph n Hw Hf Hlen)
    as (si & sk & so' & ei & ek & eo & se & st & ee & te
        & Hr & Hcs & Hce & Hse & Hsk & Hso & Hsn & Hee & Hek & Heo & Hen).
  rewrite Hcs in Hstart. injection Hstart as -> -> ->.
  destruct se as [rs|h]; [|discriminate].
  assert (st = run_text rs) as ->
      by (eapply element_run_text; eapply nth_error_In; eauto).
  destruct (first_run_exists _ _ _ _ Hse) as [tr Htr].
  destruct (new_content_text p n ph i o ei rs ee te eo Hw)
    as (q & Hq & Hqrun & Htext); auto.
  exists rs, tr, q,
    (whole_elements (firstn i (elements_of p)) ++ text_before (E_run rs) o),
    (text_after (elements_of p) ei (Z.of_nat n + len ph)
     ++ whole_elements (skipn (ei + 1) (elements_of p))).
  assert (has_placeholder (paragraph_text p) repl = true) as Hh
      by exact (sort_head_has_placeholder _ _ _ _ _ _ Hs).
  assert (_replace_in_paragraph so p repl cv
          = match cv with
            | Some cvd =>
                if is_hyperlink_placeholder ph && cv_given cv
                then replace_hyperlink p (char_map_of 0 (elements_of p)) (elements_of p)
                       (Z.of_nat n) ph cvd
                else replace_plain so p (char_map_of 0 (elements_of p)) (elements_of p)
                       (Z.of_nat n) ph v
            | None => replace_plain so p (char_map_of 0 (elements_of p)) (elements_of p)
                        (Z.of_nat n) ph v
            end) as Hcall.
  { unfold _replace_in_paragraph. rewrite Hh. cbn [negb].
    rewrite index_paragraph_eq.
    destruct (elements_of p) as [|e0 els0] eqn:Els; [destruct i; discriminate|].
    rewrite Hs, ?Hf. reflexivity. }
  assert (replace_plain so p (char_map_of 0 (elements_of p)) (elements_of p)
            (Z.of_nat n) ph v
          = rebuild_plain_path
              ((whole_elements (firstn i (elements_of p)) ++ text_before (E_run rs) o)
               ++ value_item (py_str so v) rs
               :: (text_after (elements_of p) ei (Z.of_nat n + len ph)
                   ++ whole_elements (skipn (ei + 1) (elements_of p))))
              (clear_paragraph p)) as Hplain.
  { unfold replace_plain. rewrite Hr. unfold element_at. rewrite Hse.
    now rewrite plain_content_parts. }
  split; [exact Hse|]. split; [exact Htr|]. split; [exact Hq|]. split.
  { intros i' o' Hend. rewrite Hce in Hend. injection Hend as _ Ek _.
    rewrite <- Hek in Ek.
    destruct ee as [re|h]; [|discriminate]. exact (Hqrun re eq_refl). }
  split; [eapply items_in_front_from; eauto|].
  split; [apply items_behind_from|].
  split; [exact (items_in_front_text p i rs o n Hw Hse Hso Hsn)|].
  split.
  { pose proof (Htext (text_item "" rs)) as Hb.
    rewrite plain_content_parts, items_text_app in Hb.
    rewrite (items_in_front_text p i rs o n Hw Hse Hso Hsn) in Hb.
    apply append_cancel_l in Hb.
    unfold items_text in Hb. cbn [map item_text] in Hb.
    rewrite concat_str_cons in Hb. exact Hb. }
  split. { intros mid. rewrite <- plain_content_parts. apply Htext. }
  split.
  - intros Path. rewrite Hcall.
    destruct cv as [cvd|]; [rewrite Path|]; exact Hplain.
  - intros cvd -> Path. rewrite Hcall, Path.
    apply andb_true_iff in Path as [Hhp _].
    exists (if String.eqb ph "{{GITHUB}}" then "github" else "linkedin"),
      (if String.eqb ph "{{GITHUB}}" then "Github" else "Linkedin").
    split.
    { unfold is_hyperlink_placeholder in Hhp.
      destruct (String.eqb_spec ph "{{GITHUB}}") as [-> | _]; [now left|].
      destruct (String.eqb_spec ph "{{LINKEDIN}}") as [-> | _]; [now right|].
      discriminate. }
    unfold replace_hyperlink. rewrite Hr, Htr.
    unfold element_at. rewrite Hse.
    destruct (profile_url cvd _) as [url|e]; [|reflexivity].
    now rewrite plain_content_parts.
Qed.

(** With hyperlinks that hold no opening brace, a token starts in a
    run. *)
Lemma braced_match_in_run (p : Paragraph) (repl : dict) pos ph v rest :
  tokens_braced repl ->
  plain_hyperlinks p ->
  sort (find_placeholders (paragraph_text p) repl) = (pos, ph, v) :: rest ->
  ph <> "" /\ (2 <= braces ph)%nat /\
  exists i o, nth_error (fst (index_paragraph p)) (Z.to_nat pos) = Some (i, run, o).
Proof.
  intros Hk Hp Hs.
  pose proof (plain_hyperlinks_well_indexed p Hp) as Hw.
  destruct (sort_head_found _ _ _ _ _ _ Hs) as (Hin & Hpos & Hpos0).
  assert (String.prefix "{{" ph = true) as Hb.
  { apply Hk. unfold keys. apply in_map_iff. now exists (ph, v). }
  apply prefix_iff in Hb as [ph2 ->]. cbn [append] in *.
  split; [discriminate|]. split; [simpl; lia|].
  assert (find (paragraph_text p) (String "{" (String "{" ph2))
          = Z.of_nat (Z.to_nat pos)) as Hf by lia.
  destruct (span_with_types p _ _ Hw Hf)
    as (si & sk & so' & ei & ek & eo & se & st & ee & te
        & Hr & Hcs & Hce & Hse & Hsk & Hso & Hsn & Hee & Hek & Heo & Hen);
    [simpl; lia|].
  destruct (match_starts_in_run p _ _ si se st so' Hp Hf Hse Hso Hsn) as (rs & -> & ->).
  rewrite index_paragraph_eq. cbn [fst]. subst sk. eauto.
Qed.

(** The loop of the hyperlink branch stops at a URL that is not a
    string: [_add_hyperlink] raises [AttributeError] for it. *)
Lemma rebuild_hyperlink_path_raises (p : Paragraph) A d tr url B : forall p0,
  Forall (item_from p) A ->
  (forall u, url <> VStr u) ->
  rebuild_hyperlink_path (A ++ hyperlink_item d tr url :: B) p0
  = (p0 ++ flat_map hyperlink_path_nodes A, Raised AttributeError).
Proof.
  induction A as [|it A IH]; intros p0 HA Hu.
  - cbn. destruct url as [| | |u| |]; cbn; rewrite ?app_nil_r; try reflexivity.
    now elim (Hu u).
  - inversion HA as [|? ? Hit HA']; subst.
    destruct it as [text src | text src | d' src url' | h];
      [| destruct Hit | destruct Hit |];
      cbn [app rebuild_hyperlink_path flat_map hyperlink_path_nodes];
      rewrite (IH _ HA' Hu); unfold add_run_kept; now rewrite <- app_assoc.
Qed.

Lemma rebuild_hyperlink_path_returned (p : Paragraph) A d tr url B p0 p' :
  Forall (item_from p) A ->
  rebuild_hyperlink_path (A ++ hyperlink_item d tr url :: B) p0 = (p', Returned) ->
  exists u, url = VStr u.
Proof.
  intros HA E. destruct url as [| | |u| |]; try (now exists u);
    rewrite (rebuild_hyperlink_path_raises p) in E by (auto; discriminate);
    discriminate.
Qed.

(** ** One pass takes two braces out *)

Lemma pass_removes_a_brace so (repl cv : dict) (p p' : Paragraph) :
  tokens_braced repl ->
  values_plain so repl ->
  plain_hyperlinks p ->
  has_placeholder (paragraph_text p) repl = true ->
  _replace_in_paragraph so p repl (Some cv) = (p', Returned) ->
  plain_hyperlinks p' /\
  (braces (paragraph_text p') + 2 <= braces (paragraph_text p))%nat.
Proof.
  intros Hk Hv Hp Hh Hret.
  pose proof (plain_hyperlinks_well_indexed p Hp) as Hw.
  destruct (sort (find_placeholders (paragraph_text p) repl))
    as [|[[pos ph] v] rest] eqn:Hs.
  { apply has_placeholder_found in Hh. now apply sort_nonempty in Hh. }
  destruct (sort_head_found _ _ _ _ _ _ Hs) as (Hin & Hpos & Hpos0).
  destruct (braced_match_in_run p repl pos ph v rest Hk Hp Hs) as (Hph & Htwo & i & o & Hi).
  destruct (pass_anatomy so p repl (Some cv) pos ph v rest i o Hw Hs Hph Hi)
    as (rs & tr & q & A & B & _ & _ & Hq & _ & HA & HB & _ & _ & Htext & Hplain & Hlink).
  assert (find (paragraph_text p) ph = Z.of_nat (Z.to_nat pos)) as Hf by lia.
  pose proof (item_from_xml_values _ _ HA) as XA.
  pose proof (item_from_xml_values _ _ HB) as XB.
  destruct (is_hyperlink_placeholder ph && cv_given (Some cv)) eqn:Path.
  - destruct (Hlink cv eq_refl eq_refl) as (field & display & Hd & E).
    rewrite E in Hret.
    destruct (profile_url cv field) as [url|e]; [|discriminate].
    destruct (rebuild_hyperlink_path_returned p _ _ _ _ _ _ _ HA Hret) as [u ->].
    assert (string_urls (A ++ hyperlink_item display tr (VStr u) :: B)) as SU.
    { apply string_urls_app; [eapply item_from_string_urls; eauto|].
      constructor; [now exists u | eapply item_from_string_urls; eauto]. }
    rewrite rebuild_hyperlink_path_nodes in Hret.
    2: exact SU.
    2: { apply xml_values_app; [exact XA | constructor; [exact Logic.I | exact XB]]. }
    injection Hret as <-.
    assert (display = "Github" \/ display = "Linkedin") as Hd'
        by (destruct Hd as [(_ & _ & ->) | (_ & _ & ->)]; auto).
    split.
    + intros h Hh'. apply in_app_iff in Hh' as [Hh'|Hh'];
        [now apply no_hyperlink_in_clear_paragraph in Hh'|].
      apply hyperlink_of_hyperlink_path_nodes in Hh' as [Hh'|(d & tr' & u' & Hh' & ->)].
      * apply Hp. apply in_app_iff in Hh' as [Hh' | [Hh' | Hh']];
          [exact (item_from_hyperlink _ _ _ HA Hh') | discriminate
          | exact (item_from_hyperlink _ _ _ HB Hh')].
      * apply in_app_iff in Hh' as [Hh' | [Hh' | Hh']].
        -- rewrite Forall_forall in HA. destruct (HA _ Hh').
        -- injection Hh' as <- <- <-.
           destruct Hd' as [-> | ->]; split; reflexivity.
        -- rewrite Forall_forall in HB. destruct (HB _ Hh').
    + rewrite paragraph_text_app, paragraph_text_clear. cbn [append].
      rewrite braces_hyperlink_path_nodes, Htext by exact SU.
      cbn [item_text].
      assert (braces display = 0%nat) as Hd0 by (destruct Hd' as [-> | ->]; reflexivity).
      pose proof (braces_after_splice _ _ display _ q Hf Hq Hd0). lia.
  - rewrite (Hplain eq_refl) in Hret.
    destruct (rebuild_value_cases A (py_str so v) rs B (clear_paragraph p) XA XB)
      as [E' | (content & _ & E')]; rewrite E' in Hret; [|discriminate].
    injection Hret as <-. split.
    + intros h Hh'. apply in_app_iff in Hh' as [Hh'|Hh'];
        [now apply no_hyperlink_in_clear_paragraph in Hh'|].
      apply hyperlink_of_plain_nodes in Hh'. apply Hp.
      apply in_app_iff in Hh' as [Hh' | [Hh' | Hh']];
        [exact (item_from_hyperlink _ _ _ HA Hh') | discriminate
        | exact (item_from_hyperlink _ _ _ HB Hh')].
    + rewrite paragraph_text_app, paragraph_text_clear. cbn [append].
      rewrite braces_plain_nodes, Htext.
      * cbn [item_text].
        pose proof (braces_after_splice _ _ (py_str so v) _ q Hf Hq (Hv _ _ Hin)). lia.
      * apply no_new_hyperlink_app; [eapply item_from_no_new_hyperlink; eauto|].
        constructor; [exact Logic.I | eapply item_from_no_new_hyperlink; eauto].
Qed.

Lemma pass_returns so (repl cv : dict) (p : Paragraph) :
  tokens_braced repl ->
  xml_map so repl ->
  urls_are_strings cv ->
  plain_hyperlinks p ->
  has_placeholder (paragraph_text p) repl = true ->
  exists p', _replace_in_paragraph so p repl (Some cv) = (p', Returned).
Proof.
  intros Hk Hx Hu Hp Hh.
  pose proof (plain_hyperlinks_well_indexed p Hp) as Hw.
  destruct (sort (find_placeholders (paragraph_text p) repl))
    as [|[[pos ph] v] rest] eqn:Hs.
  { apply has_placeholder_found in Hh. now apply sort_nonempty in Hh. }
  destruct (sort_head_found _ _ _ _ _ _ Hs) as (Hin & Hpos & Hpos0).
  destruct (braced_match_in_run p repl pos ph v rest Hk Hp Hs) as (Hph & Htwo & i & o & Hi).
  destruct (pass_anatomy so p repl (Some cv) pos ph v rest i o Hw Hs Hph Hi)
    as (rs & tr & q & A & B & _ & _ & Hq & _ & HA & HB & _ & _ & Htext & Hplain & Hlink).
  pose proof (item_from_xml_values _ _ HA) as XA.
  pose proof (item_from_xml_values _ _ HB) as XB.
  destruct (is_hyperlink_placeholder ph && cv_given (Some cv)) eqn:Path.
  - destruct (Hlink cv eq_refl eq_refl) as (field & display & Hd & E). rewrite E.
    destruct (Hu field) as [u ->].
    { destruct Hd as [(_ & -> & _) | (_ & -> & _)]; simpl; auto. }
    rewrite rebuild_hyperlink_path_nodes; [eauto | |].
    + apply string_urls_app; [eapply item_from_string_urls; eauto|].
      constructor; [now exists u | eapply item_from_string_urls; eauto].
    + apply xml_values_app; [exact XA | constructor; [exact Logic.I | exact XB]].
  - rewrite (Hplain eq_refl).
    rewrite rebuild_plain_path_nodes; [eauto|].
    apply xml_values_app; [exact XA | constructor; [exact (Hx _ _ Hin) | exact XB]].
Qed.

(** ** The loop of passes empties the paragraph of tokens *)

Lemma fill_loop_removes_tokens so (repl cv : dict) :
  tokens_braced repl -> values_plain so repl ->
  forall n p p' passes,
    plain_hyperlinks p ->
    (braces (paragraph_text p) <= 2 * n)%nat ->
    fill_loop so n repl cv p = (p', Returned, passes) ->
    has_placeholder (paragraph_text p') repl = false /\
    plain_hyperlinks p' /\
    (braces (paragraph_text p') <= braces (paragraph_text p))%nat.
Proof.
  intros Hk Hv. induction n as [|n IH]; intros p p' passes Hp Hb E.
  - cbn [fill_loop] in E. injection E as <- _. split; [|split; auto].
    destruct (has_placeholder (paragraph_text p) repl) eqn:Hh; [|reflexivity].
    pose proof (has_placeholder_braces _ _ Hk Hh). lia.
  - cbn [fill_loop] in E.
    destruct (has_placeholder (paragraph_text p) repl) eqn:Hh.
    + destruct (_replace_in_paragraph so p repl (Some cv)) as [p1 [|e]] eqn:R;
        [|discriminate].
      destruct (pass_removes_a_brace so repl cv p p1 Hk Hv Hp Hh R) as [Hp1 Hlt].
      destruct (fill_loop so n repl cv p1) as [[p2 o] k] eqn:L.
      injection E as <- -> _.
      destruct (IH p1 p2 k Hp1 ltac:(lia) L) as (Hfree & Hp2 & Hle).
      split; [exact Hfree|]. split; [exact Hp2 | lia].
    + injection E as <- _. split; [exact Hh|]. split; auto.
Qed.

Lemma fill_loop_returns so (repl cv : dict) :
  tokens_braced repl -> values_plain so repl -> xml_map so repl -> urls_are_strings cv ->
  forall n p,
    plain_hyperlinks p ->
    exists p' passes,
      fill_loop so n repl cv p = (p', Returned, passes) /\ plain_hyperlinks p'.
Proof.
  intros Hk Hv Hx Hu. induction n as [|n IH]; intros p Hp.
  - exists p, 0%nat. split; [reflexivity | exact Hp].
  - cbn [fill_loop].
    destruct (has_placeholder (paragraph_text p) repl) eqn:Hh; [|now exists p, 0%nat].
    destruct (pass_returns so repl cv p Hk Hx Hu Hp Hh) as [p1 R]. rewrite R.
    destruct (pass_removes_a_brace so repl cv p p1 Hk Hv Hp Hh R) as [Hp1 _].
    destruct (IH p1 Hp1) as (p2 & k & -> & Hp2). now exists p2, (S k).
Qed.

(** ** The paragraphs one after the other *)

Lemma fill_each_app so (repl cv : dict) a : forall b (st : list Paragraph),
  fill_each so repl cv (a ++ b) st =
  match fill_each so repl cv a st with
  | (st1, Returned) => fill_each so repl cv b st1
  | (st1, Raised e) => (st1, Raised e)
  end.
Proof.
  induction a as [|i a IH]; intros b st; cbn [app fill_each]; [reflexivity|].
  destruct (nth_error st i) as [para|]; [|apply IH].
  destruct (fill_paragraph so repl cv para) as [[para' [|e]] k]; [apply IH | reflexivity].
Qed.

(** [fill_template] is the loop over the paragraphs of the body
    followed by those of the table cells. *)
Lemma fill_template_visits so (doc doc' : Document) (cv repl : dict) :
  _build_replacements so cv = Ok repl ->
  fill_template so doc cv = Ok doc' ->
  fill_each so repl cv (doc_paragraphs doc ++ table_visits (doc_tables doc)) (store doc)
  = (store doc', Returned).
Proof.
  intros Hb. unfold fill_template. rewrite Hb. cbn [bind]. rewrite fill_each_app.
  destruct (fill_each so repl cv (doc_paragraphs doc) (store doc)) as [st1 [|e]];
    [|discriminate].
  destruct (fill_each so repl cv (table_visits (doc_tables doc)) st1) as [st2 [|e]];
    [|discriminate].
  now intros [= <-].
Qed.

(** A paragraph that was met is, at the end, what the loop of its last
    visit has returned. *)
Lemma fill_each_last_visit so (repl cv : dict) visits :
  forall (st st' : list Paragraph) j q',
    fill_each so repl cv visits st = (st', Returned) ->
    In j visits ->
    nth_error st' j = Some q' ->
    exists q0 passes, fill_paragraph so repl cv q0 = (q', Returned, passes).
Proof.
  induction visits as [|i visits IH]; intros st st' j q' F Hj Hq'; [destruct Hj|].
  cbn [fill_each] in F.
  destruct (nth_error st i) as [para|] eqn:N.
  - destruct (fill_paragraph so repl cv para) as [[para' [|e]] k] eqn:P; [|discriminate].
    destruct (in_dec Nat.eq_dec j visits) as [I | NI]; [now apply (IH _ _ _ _ F I)|].
    destruct Hj as [<- | Hj]; [|contradiction].
    destruct (fill_each_frame _ _ _ _ _ _ _ F) as (_ & U & _).
    rewrite (U i NI), nth_error_store_set, Nat.eqb_refl, N in Hq'.
    injection Hq' as <-. now exists para, k.
  - destruct (in_dec Nat.eq_dec j visits) as [I | NI]; [now apply (IH _ _ _ _ F I)|].
    destruct Hj as [<- | Hj]; [|contradiction].
    destruct (fill_each_frame _ _ _ _ _ _ _ F) as (_ & U & _).
    rewrite (U i NI), N in Hq'. discriminate.
Qed.

(** A paragraph with plain hyperlinks and at most 40 opening braces is
    free of tokens once it has been met, and stays so. *)
Lemma fill_each_fills so (repl cv : dict) :
  tokens_braced repl -> values_plain so repl ->
  forall visits (st st' : list Paragraph) j q,
    fill_each so repl cv visits st = (st', Returned) ->
    nth_error st j = Some q ->
    plain_hyperlinks q ->
    (braces (paragraph_text q) <= 2 * max_iterations)%nat ->
    exists q',
      nth_error st' j = Some q' /\
      (has_placeholder (paragraph_text q) repl = false \/ In j visits ->
       has_placeholder (paragraph_text q') repl = false).
Proof.
  intros Hk Hv. induction visits as [|i visits IH]; intros st st' j q F Hq Hp Hb.
  - cbn [fill_each] in F. injection F as <-. exists q. split; [exact Hq|].
    intros [H | []]. exact H.
  - cbn [fill_each] in F.
    destruct (nth_error st i) as [para|] eqn:N.
    + destruct (fill_paragraph so repl cv para) as [[para' [|e]] k] eqn:P; [|discriminate].
      destruct (Nat.eq_dec j i) as [-> | Hne].
      * rewrite N in Hq. injection Hq as ->.
        destruct (fill_loop_removes_tokens so repl cv Hk Hv _ _ _ _ Hp Hb P)
          as (Hfree & Hp' & Hle).
        destruct (IH (store_set st i para') st' i para' F) as (q' & Hq' & Hend).
        -- now rewrite nth_error_store_set, Nat.eqb_refl, N.
        -- exact Hp'.
        -- lia.
        -- exists q'. split; [exact Hq'|]. intros _. apply Hend. now left.
      * destruct (IH (store_set st i para') st' j q F) as (q' & Hq' & Hend); auto.
        -- rewrite nth_error_store_set.
           destruct (Nat.eqb_spec j i); [contradiction | exact Hq].
        -- exists q'. split; [exact Hq'|]. intros [H | [H | H]]; auto.
           now elim Hne.
    + destruct (IH st st' j q F Hq Hp Hb) as (q' & Hq' & Hend).
      exists q'. split; [exact Hq'|]. intros [H | [H | H]]; auto.
      subst i. congruence.
Qed.

(** The loop over the paragraphs returns when every paragraph it meets
    has plain hyperlinks, the values are texts XML allows and the URLs
    of the profile are strings. *)
Lemma fill_each_returns so (repl cv : dict) :
  tokens_braced repl -> values_plain so repl -> xml_map so repl -> urls_are_strings cv ->
  forall visits (st : list Paragraph),
    (forall j q, In j visits -> nth_error st j = Some q -> plain_hyperlinks q) ->
    exists st', fill_each so repl cv visits st = (st', Returned).
Proof.
  intros Hk Hv Hx Hu. induction visits as [|i visits IH]; intros st Hst.
  - now exists st.
  - cbn [fill_each]. destruct (nth_error st i) as [para|] eqn:N.
    + unfold fill_paragraph.
      destruct (fill_loop_returns so repl cv Hk Hv Hx Hu max_iterations para)
        as (para' & k & -> & Hp'); [apply (Hst i); [now left | exact N]|].
      apply IH. intros j q Hj Hq. rewrite nth_error_store_set in Hq.
      destruct (Nat.eqb j i).
      * rewrite N in Hq. now injection Hq as <-.
      * apply (Hst j); [now right | exact Hq].
    + apply IH. intros j q Hj. apply Hst. now right.
Qed.

(* ================================================================== *)
(** * The tokens after the fill *)

(** Claim C1, amended.  Let [fill_template] complete, and take a
    paragraph that the body or a table cell lists.  No token of the map
    occurs in its text any more, unless the loop over it has stopped at
    the cap: the paragraph is then what a loop of 20 calls has returned.
    The cap does not leave a token when no value of the map prints with
    an opening brace, every hyperlink the paragraph had is indexed by
    its whole text and holds no opening brace, and the text of the
    paragraph had at most 40 opening braces (a token begins with two,
    so 20 passes are enough). *)
Theorem fill_template_removes_tokens so (doc doc' : Document) (cv repl : dict)
    (j : nat) (q q' : Paragraph) :
  _build_replacements so cv = Ok repl ->
  fill_template so doc cv = Ok doc' ->
  In j (doc_paragraphs doc ++ table_visits (doc_tables doc)) ->
  nth_error (store doc) j = Some q ->
  nth_error (store doc') j = Some q' ->
  (token_free repl (paragraph_text q') \/
   exists q0, fill_paragraph so repl cv q0 = (q', Returned, max_iterations)) /\
  (values_plain so repl ->
   plain_hyperlinks q ->
   (braces (paragraph_text q) <= 40)%nat ->
   token_free repl (paragraph_text q')).
Proof.
  intros Hb Hf Hj Hq Hq'.
  pose proof (build_replacements_braced _ _ _ Hb) as Hk.
  pose proof (fill_template_visits so doc doc' cv repl Hb Hf) as F.
  split.
  - destruct (fill_each_last_visit so repl cv _ _ _ _ _ F Hj Hq') as (q0 & passes & P).
    pose proof (fill_loop_trace so max_iterations repl cv q0) as T.
    unfold fill_paragraph in P. rewrite P in T.
    destruct T as (_ & _ & _ & [-> | [[e E] | Hfree]]).
    + right. now exists q0.
    + discriminate E.
    + left. now apply has_placeholder_false.
  - intros Hv Hp Hn.
    destruct (fill_each_fills so repl cv Hk Hv _ _ _ _ _ F Hq Hp Hn) as (q1 & Hq1 & Hend).
    rewrite Hq' in Hq1. injection Hq1 as <-.
    apply has_placeholder_false. apply Hend. now right.
Qed.

Lemma fill_template_removes_tokens_witness :
  fill_template (fun _ => "") resume john = Ok resume_filled /\
  token_free john_map (paragraph_text [N_r john_doe]).
Proof.
  split; [reflexivity|].
  apply (proj2 (fill_template_removes_tokens (fun _ => "") resume resume_filled
                  john john_map 1 cell_paragraph [N_r john_doe]
                  eq_refl eq_refl (or_intror (or_introl eq_refl)) eq_refl eq_refl)).
  - intros k v H. simpl in H.
    repeat (destruct H as [H|H]; [injection H as <- <-; reflexivity|]).
    destruct H.
  - intros h Hh. simpl in Hh.
    repeat (destruct Hh as [Hh|Hh]; [discriminate|]). destruct Hh.
  - simpl. lia.
Defined.

(* ================================================================== *)
(** * The number of passes *)

Lemma fill_each_log_result so (repl cv : dict) visits : forall (st : list Paragraph),
  fst (fill_each_log so repl cv visits st) = fill_each so repl cv visits st.
Proof.
  induction visits as [|i visits IH]; intros st; cbn [fill_each_log fill_each];
    [reflexivity|].
  destruct (nth_error st i) as [para|]; [|apply IH].
  destruct (fill_paragraph so repl cv para) as [[para' [|e]] k]; [|reflexivity].
  specialize (IH (store_set st i para')).
  destruct (fill_each_log so repl cv visits (store_set st i para')) as [[st' o] log].
  exact IH.
Qed.

Lemma fill_paragraph_passes so (repl cv : dict) (p : Paragraph) :
  (snd (fill_paragraph so repl cv p) <= 20)%nat.
Proof.
  pose proof (fill_loop_trace so max_iterations repl cv p) as T.
  unfold fill_paragraph.
  destruct (fill_loop so max_iterations repl cv p) as [[p' o] k]. now destruct T.
Qed.

Lemma fill_each_log_entries so (repl cv : dict) visits : forall (st : list Paragraph),
  (forall i passes, In (i, passes) (snd (fill_each_log so repl cv visits st)) ->
                    In i visits /\ (passes <= 20)%nat) /\
  (forall j, (calls_on j (snd (fill_each_log so repl cv visits st))
              <= 20 * count_occ Nat.eq_dec visits j)%nat).
Proof.
  induction visits as [|i visits IH]; intros st; cbn [fill_each_log].
  - split; [intros i passes [] | intros j; cbn; lia].
  - destruct (nth_error st i) as [para|].
    + pose proof (fill_paragraph_passes so repl cv para) as Hk.
      destruct (fill_paragraph so repl cv para) as [[para' [|e]] k]; cbn [snd] in Hk.
      * destruct (IH (store_set st i para')) as [H1 H2].
        destruct (fill_each_log so repl cv visits (store_set st i para')) as [[st' o] log].
        cbn [snd] in *. split.
        -- intros i' passes [E | I]; [injection E as <- <-; split; [now left | exact Hk]|].
           destruct (H1 _ _ I). split; [now right | assumption].
        -- intros j. specialize (H2 j). unfold calls_on in *.
           cbn [filter fst count_occ].
           destruct (Nat.eq_dec i j) as [-> | Hne].
           ++ rewrite Nat.eqb_refl. cbn [map snd fold_right]. lia.
           ++ destruct (Nat.eqb_spec i j); [contradiction | lia].
      * cbn [snd]. split.
        -- intros i' passes [E | []]. injection E as <- <-. split; [now left | exact Hk].
        -- intros j. unfold calls_on. cbn [filter fst count_occ].
           destruct (Nat.eq_dec i j) as [-> | Hne].
           ++ rewrite Nat.eqb_refl. cbn [map snd fold_right]. lia.
           ++ destruct (Nat.eqb_spec i j); [contradiction | cbn; lia].
    + destruct (IH st) as [H1 H2]. split.
      * intros i' passes I. destruct (H1 _ _ I). split; [now right | assumption].
      * intros j. specialize (H2 j). cbn [count_occ].
        destruct (Nat.eq_dec i j); lia.
Qed.

(** Claim C9, at an input where it fails: the paragraph of a merged
    cell is listed once for each of the two columns the cell spans, so
    its loop runs twice.  The first run makes its 20 calls, the second
    makes the call that the cap had left to do: 21 calls on one
    paragraph. *)
Lemma merged_cell_gets_21_calls :
  _build_replacements (fun _ => "") named = Ok named_map /\
  fill_each_log (fun _ => "") named_map named
    (doc_paragraphs merged_names ++ table_visits (doc_tables merged_names))
    (store merged_names)
  = ([repeat (N_r {| run_text := "Ann"; run_font := no_font |}) 21], Returned,
     [(0, 20); (0, 1)]%nat) /\
  calls_on 0 [(0, 20); (0, 1)]%nat = 21%nat /\
  fill_template (fun _ => "") merged_names named
  = Ok {| store := [repeat (N_r {| run_text := "Ann"; run_font := no_font |}) 21];
          doc_paragraphs := [];
          doc_tables := [[[[0%nat]; [0%nat]]]] |}.
Proof.
  split; [reflexivity|]. split; [vm_compute; reflexivity|].
  split; [reflexivity|]. vm_compute. reflexivity.
Qed.

(** Claim C9, amended.  [fill_template] runs the loop over a paragraph
    once for every time the body or a table cell lists it.  Each run of
    the loop makes at most 20 calls, so a paragraph gets at most 20
    calls for each of its listings.  A run of the loop is a total
    function: every call it makes is on a text in which a token occurs,
    and it ends with the cap reached, with an exception, or at the first
    text in which no token occurs. *)
Theorem fill_template_bounded so (doc : Document) (cv repl : dict) :
  let visits := doc_paragraphs doc ++ table_visits (doc_tables doc) in
  let '(st', o, log) := fill_each_log so repl cv visits (store doc) in
  (_build_replacements so cv = Ok repl ->
   fill_template so doc cv
   = match o with
     | Returned => Ok {| store := st'; doc_paragraphs := doc_paragraphs doc;
                         doc_tables := doc_tables doc |}
     | Raised e => Raise e
     end) /\
  (forall i passes, In (i, passes) log -> In i visits /\ (passes <= 20)%nat) /\
  (forall j, (calls_on j log <= 20 * listings doc j)%nat) /\
  (forall p,
      let '(p', o, passes) := fill_paragraph so repl cv p in
      (passes <= 20)%nat /\
      p' = after_calls so passes repl cv p /\
      Forall (fun k => has_placeholder (paragraph_text (after_calls so k repl cv p)) repl
                       = true)
             (seq 0 passes) /\
      (passes = 20%nat \/ (exists e, o = Raised e) \/
       has_placeholder (paragraph_text p') repl = false)).
Proof.
  intros visits.
  pose proof (fill_each_log_result so repl cv visits (store doc)) as R.
  pose proof (fill_each_log_entries so repl cv visits (store doc)) as [H1 H2].
  destruct (fill_each_log so repl cv visits (store doc)) as [[st' o] log].
  cbn [fst snd] in *. split; [|split; [exact H1 | split; [exact H2|]]].
  - intros Hb. unfold fill_template. rewrite Hb. cbn [bind].
    subst visits. rewrite fill_each_app in R.
    destruct (fill_each so repl cv (doc_paragraphs doc) (store doc)) as [st1 [|e]].
    + now rewrite <- R.
    + injection R as E1 E2. subst o. reflexivity.
  - intros p. exact (fill_loop_trace so max_iterations repl cv p).
Qed.

(* ================================================================== *)
(** * One match for each pass *)

(** When the match begins and ends in runs, a pass replaces it and
    keeps all the text before and after it, up to the carriage returns
    that the rebuilt runs read back as line feeds. *)
Lemma pass_keeps_the_rest so (p : Paragraph) (repl : dict) cv pos ph v rest :
  well_indexed p ->
  in_runs p pos ph ->
  (forall cvd, cv = Some cvd -> urls_are_strings cvd) ->
  xml_compatible (py_str so v) = true ->
  sort (find_placeholders (paragraph_text p) repl) = (pos, ph, v) :: rest ->
  ph <> "" ->
  exists p' middle,
    _replace_in_paragraph so p repl cv = (p', Returned) /\
    (middle = py_str so v \/ middle = "Github" \/ middle = "Linkedin") /\
    read_back (paragraph_text p')
    = read_back (take (Z.to_nat pos) (paragraph_text p) ++ middle
                 ++ drop (Z.to_nat pos + String.length ph) (paragraph_text p))%string.
Proof.
  intros Hw (i & o & i' & o' & Hstart & Hend) Hu Hx Hs Hph.
  destruct (pass_anatomy so p repl cv pos ph v rest i o Hw Hs Hph Hstart)
    as (rs & tr & q & A & B & _ & _ & _ & Hq & HA & HB & _ & _ & Htext & Hplain & Hlink).
  rewrite (Hq _ _ Hend) in Htext. clear Hq.
  pose proof (item_from_xml_values _ _ HA) as XA.
  pose proof (item_from_xml_values _ _ HB) as XB.
  destruct (match cv with
            | Some _ => is_hyperlink_placeholder ph && cv_given cv
            | None => false
            end) eqn:Path.
  - destruct cv as [cvd|]; [|discriminate].
    destruct (Hlink cvd eq_refl Path) as (field & display & Hd & E). rewrite E.
    destruct (Hu cvd eq_refl field) as [u ->].
    { destruct Hd as [(_ & -> & _) | (_ & -> & _)]; simpl; auto. }
    assert (string_urls (A ++ hyperlink_item display tr (VStr u) :: B)) as SU.
    { apply string_urls_app; [eapply item_from_string_urls; eauto|].
      constructor; [now exists u | eapply item_from_string_urls; eauto]. }
    rewrite rebuild_hyperlink_path_nodes; [| exact SU |].
    2: { apply xml_values_app; [exact XA | constructor; [exact Logic.I | exact XB]]. }
    eexists. exists display. split; [reflexivity|]. split.
    { destruct Hd as [(_ & _ & ->) | (_ & _ & ->)]; auto. }
    rewrite paragraph_text_app, paragraph_text_clear. cbn [append].
    rewrite text_hyperlink_path_nodes by exact SU. now rewrite Htext.
  - rewrite (Hplain eq_refl).
    rewrite rebuild_plain_path_nodes.
    2: { apply xml_values_app; [exact XA | constructor; [exact Hx | exact XB]]. }
    eexists. exists (py_str so v). split; [reflexivity|]. split; [now left|].
    rewrite paragraph_text_app, paragraph_text_clear. cbn [append].
    rewrite text_plain_nodes, Htext; [reflexivity|].
    apply no_new_hyperlink_app; [eapply item_from_no_new_hyperlink; eauto|].
    constructor; [exact Logic.I | eapply item_from_no_new_hyperlink; eauto].
Qed.

(** Claim C6, at an input where it fails: the match lies in a hyperlink
    of the template that holds a second token.  The pass drops the
    hyperlink with all its text, so the second match is neither resolved
    nor left in place. *)
Lemma hyperlink_match_deletes_the_rest :
  In (9, "{{EMAIL}}", VStr "a@b.c")
     (find_placeholders (paragraph_text contact_line) email_and_phone) /\
  In (19, "{{PHONE}}", VStr "555")
     (find_placeholders (paragraph_text contact_line) email_and_phone) /\
  _replace_in_paragraph (fun _ => "") contact_line email_and_phone None
  = ([N_r {| run_text := "Contact: "; run_font := arial_11_bold |};
      N_r {| run_text := "a@b.c"; run_font := arial_11_bold |}], Returned) /\
  paragraph_text
    [N_r {| run_text := "Contact: "; run_font := arial_11_bold |};
     N_r {| run_text := "a@b.c"; run_font := arial_11_bold |}]
  = "Contact: a@b.c".
Proof.
  split; [right; left; reflexivity|]. split; [left; reflexivity|].
  split; reflexivity.
Qed.

(** Claim C6, amended.  The scan lists, for every token of the map that
    occurs in the text, the offset of its first occurrence, and nothing
    for a token that does not occur.  The pass resolves one match of the
    list, the one at the lowest offset; the other tokens of the map play
    no part in it: the call does what it does when the map holds that
    token alone.  When the hyperlinks of the paragraph are indexed by
    their whole text, the match begins and ends in runs, the value
    printed for it is a text XML allows and the URLs of a profile that
    is given are strings, the call returns and the text before the match
    and the text after it are what they were (a carriage return reads
    back as a line feed), so the other matches are still there for the
    passes to come. *)
Theorem earliest_match_resolved so (p : Paragraph) (repl : dict) cv :
  has_placeholder (paragraph_text p) repl = true ->
  (forall pos k v,
      In (pos, k, v) (find_placeholders (paragraph_text p) repl) <->
      In (k, v) repl /\ occurs k (paragraph_text p) /\
      exists n, pos = Z.of_nat n /\
        (exists after,
            paragraph_text p = (take n (paragraph_text p) ++ k ++ after)%string) /\
        (forall before after,
            paragraph_text p = (before ++ k ++ after)%string ->
            (n <= String.length before)%nat)) /\
  exists pos ph v,
    In (pos, ph, v) (find_placeholders (paragraph_text p) repl) /\
    (forall pos' k w,
        In (pos', k, w) (find_placeholders (paragraph_text p) repl) -> pos <= pos') /\
    _replace_in_paragraph so p repl cv = _replace_in_paragraph so p [(ph, v)] cv /\
    (well_indexed p ->
     in_runs p pos ph ->
     (forall cvd, cv = Some cvd -> urls_are_strings cvd) ->
     xml_compatible (py_str so v) = true ->
     ph <> "" ->
     exists p' middle,
       _replace_in_paragraph so p repl cv = (p', Returned) /\
       (middle = py_str so v \/ middle = "Github" \/ middle = "Linkedin") /\
       read_back (paragraph_text p')
       = read_back (take (Z.to_nat pos) (paragraph_text p) ++ middle
                    ++ drop (Z.to_nat pos + String.length ph) (paragraph_text p))%string).
Proof.
  intros H. split.
  - intros pos k v. rewrite in_find_placeholders. split.
    + intros (Hin & Hp & Hne).
      assert (0 <= pos) as Hpos by (pose proof (find_lower_bound (paragraph_text p) k); lia).
      split; [exact Hin|]. split.
      * apply contains_iff. destruct (contains (paragraph_text p) k) eqn:E; auto.
        apply find_minus_one in E. lia.
      * exists (Z.to_nat pos). split; [lia|].
        destruct (find_first (paragraph_text p) k (Z.to_nat pos)) as (Ha & _ & Hm); [lia|].
        split; assumption.
    + intros (Hin & Hocc & n & -> & [after Ha] & Hmin). split; [exact Hin|].
      assert (find (paragraph_text p) k <> -1) as Hne.
      { intros E. apply find_minus_one in E. apply contains_iff in Hocc. congruence. }
      split; [|lia].
      pose proof (find_lower_bound (paragraph_text p) k) as Hlb.
      destruct (find_first (paragraph_text p) k (Z.to_nat (find (paragraph_text p) k)))
        as ([after' Ha'] & Hlen & Hmin'); [lia|].
      pose proof (Hmin _ _ Ha') as H1. pose proof (Hmin' _ _ Ha) as H2.
      rewrite length_take in H1 by exact Hlen.
      assert (n <= String.length (paragraph_text p))%nat as Hn.
      { destruct (Nat.le_gt_cases n (String.length (paragraph_text p))); auto.
        rewrite take_all in H2 by lia. lia. }
      rewrite length_take in H2 by exact Hn. lia.
  - destruct (sort (find_placeholders (paragraph_text p) repl))
      as [|[[pos ph] v] rest] eqn:Hs.
    + apply has_placeholder_found in H. now apply sort_nonempty in H.
    + exists pos, ph, v. split; [|split; [|split]].
      * apply in_sort. rewrite Hs. now left.
      * intros pos' k w Hin. apply in_sort in Hin.
        pose proof (sort_head_lowest (find_placeholders (paragraph_text p) repl)) as Hl.
        rewrite Hs in *. simpl in Hl. rewrite Forall_forall in Hl.
        exact (Hl _ Hin).
      * eapply replace_only_the_match; eauto.
      * intros Hw Hr Hu Hx Hph. eapply pass_keeps_the_rest; eauto.
Qed.

Lemma earliest_match_resolved_witness :
  has_placeholder (paragraph_text two_tokens) email_and_phone = true /\
  In (0, "{{EMAIL}}", VStr "a@b.c")
     (find_placeholders (paragraph_text two_tokens) email_and_phone) /\
  exists pos ph v,
    In (pos, ph, v) (find_placeholders (paragraph_text two_tokens) email_and_phone) /\
    (forall pos' k w,
        In (pos', k, w) (find_placeholders (paragraph_text two_tokens) email_and_phone) ->
        pos <= pos') /\
    _replace_in_paragraph (fun _ => "") two_tokens email_and_phone None
    = _replace_in_paragraph (fun _ => "") two_tokens [(ph, v)] None.
Proof.
  split; [reflexivity|].
  destruct (earliest_match_resolved (fun _ => "") two_tokens email_and_phone None eq_refl)
    as [Hscan (pos & ph & v & Hin & Hlow & Heq & _)].
  split.
  - apply Hscan. split; [simpl; auto|]. split; [now exists "", " | {{PHONE}}"|].
    exists 0%nat. split; [reflexivity|]. split.
    + now exists " | {{PHONE}}".
    + intros; lia.
  - exists pos, ph, v. auto.
Defined.

(* ================================================================== *)
(** * Without a profile *)

(** Claim C10, at inputs where it fails.  No profile is passed, so the
    token takes the plain path; yet the value does not take its place:
    - the value holds a character XML forbids, and [add_run] raises
      [ValueError] when the paragraph has been rebuilt up to the token;
    - the value holds a carriage return, and the run reads it back as a
      line feed;
    - the token lies in a hyperlink of a paragraph without runs, and the
      call returns at once. *)
Lemma value_is_not_put_in_place :
  _replace_in_paragraph (fun _ => "") profile_paragraph
    [("{{GITHUB}}", VStr ("a" ++ vertical_tab ++ "b"))] None
  = ([N_r {| run_text := "Profile: "; run_font := arial_11_bold |};
      N_r {| run_text := ""; run_font := no_font |}], Raised ValueError) /\
  _replace_in_paragraph (fun _ => "") profile_paragraph
    [("{{GITHUB}}", VStr ("one" ++ String carriage_return "two"))] None
  = ([N_r {| run_text := "Profile: "; run_font := arial_11_bold |};
      N_r {| run_text := "one" ++ String line_feed "two"; run_font := arial_11_bold |}],
     Returned) /\
  _replace_in_paragraph (fun _ => "") github_link [("{{GITHUB}}", VStr "jdoe")] None
  = (github_link, Returned).
Proof. repeat split. Qed.

(** Claim C10, amended.  When no profile is passed ([None], the
    default, or an empty one), the call takes the plain branch for every
    token, [{{GITHUB}}] and [{{LINKEDIN}}] included: every hyperlink
    element of the paragraph afterwards was in it before.  When the
    hyperlinks of the paragraph are indexed by their whole text, the
    match starts in a run and the value the map gives the token prints
    as a text XML allows, the call returns and the token has given way
    to one run: it holds the value, with a line feed for every carriage
    return, in the font of the run in which the match starts, and it
    stands where the token stood, after the text that preceded the match
    and before the text that followed it (from the end of the match, or
    from the end of the hyperlink in which the match ends). *)
Theorem plain_path_without_profile so (p : Paragraph) (repl : dict) cv :
  cv_given cv = false ->
  (forall h, In (N_hyperlink h) (fst (_replace_in_paragraph so p repl cv)) ->
             In (N_hyperlink h) p) /\
  (forall pos ph v rest i o,
      sort (find_placeholders (paragraph_text p) repl) = (pos, ph, v) :: rest ->
      ph <> "" ->
      well_indexed p ->
      nth_error (fst (index_paragraph p)) (Z.to_nat pos) = Some (i, run, o) ->
      xml_compatible (py_str so v) = true ->
      exists r before after q,
        nth_error (snd (index_paragraph p)) i = Some (E_run r, run_text r) /\
        _replace_in_paragraph so p repl cv =
        (before
           ++ [N_r {| run_text := read_back (py_str so v); run_font := run_font r |}]
           ++ after,
         Returned) /\
        read_back (paragraph_text before)
        = read_back (take (Z.to_nat pos) (paragraph_text p)) /\
        read_back (paragraph_text after) = read_back (drop q (paragraph_text p)) /\
        (Z.to_nat pos + String.length ph <= q)%nat /\
        (forall i' o',
            nth_error (fst (index_paragraph p)) (Z.to_nat pos + String.length ph - 1)
            = Some (i', run, o') ->
            q = (Z.to_nat pos + String.length ph)%nat)).
Proof.
  intros Hcv. split.
  - intros h. unfold _replace_in_paragraph.
    destruct (negb _); [auto|]. rewrite index_paragraph_eq.
    destruct (elements_of p) as [|e0 els0] eqn:E; [auto|]. rewrite <- E.
    destruct (sort _) as [|[[pos ph] v] rest]; [auto|].
    destruct cv as [cv|]; [rewrite Hcv, andb_false_r|];
      apply replace_plain_no_new_hyperlink.
  - intros pos ph v rest i o Hs Hph Hw Hstart Hx.
    destruct (pass_anatomy so p repl cv pos ph v rest i o Hw Hs Hph Hstart)
      as (rs & tr & q & A & B & Hrs & _ & Hq & Hqrun & HA & HB & TA & TB & _ & Hplain & _).
    exists rs, (clear_paragraph p ++ flat_map plain_nodes A), (flat_map plain_nodes B), q.
    split; [exact Hrs|]. split.
    + rewrite Hplain by (destruct cv; [now rewrite Hcv, andb_false_r | reflexivity]).
      rewrite rebuild_plain_path_nodes.
      * rewrite flat_map_app. cbn [flat_map plain_nodes app].
        rewrite copy_font_all_six, <- !app_assoc. reflexivity.
      * apply xml_values_app; [eapply item_from_xml_values; eauto|].
        constructor; [exact Hx | eapply item_from_xml_values; eauto].
    + split; [|split; [|split; [exact Hq | exact Hqrun]]].
      * rewrite paragraph_text_app, paragraph_text_clear. cbn [append].
        rewrite text_plain_nodes by (eapply item_from_no_new_hyperlink; eauto).
        now rewrite TA.
      * rewrite text_plain_nodes by (eapply item_from_no_new_hyperlink; eauto).
        now rewrite TB.
Qed.

Lemma plain_path_without_profile_witness :
  cv_given None = false /\
  exists r before after q,
    nth_error (snd (index_paragraph profile_paragraph)) 0 = Some (E_run r, run_text r) /\
    _replace_in_paragraph (fun _ => "") profile_paragraph
      [("{{GITHUB}}", VStr "jdoe")] None =
    (before ++ [N_r {| run_text := "jdoe"; run_font := run_font r |}] ++ after,
     Returned) /\
    read_back (paragraph_text before) = "Profile: " /\
    read_back (paragraph_text after) = read_back (drop q "Profile: {{GITHUB}}") /\
    (19 <= q)%nat /\
    (forall i' o',
        nth_error (fst (index_paragraph profile_paragraph)) 18 = Some (i', run, o') ->
        q = 19%nat).
Proof.
  split; [reflexivity|].
  apply (proj2 (plain_path_without_profile (fun _ => "") profile_paragraph
                  [("{{GITHUB}}", VStr "jdoe")] None eq_refl)
               9 "{{GITHUB}}" (VStr "jdoe") [] 0%nat 9%nat).
  - reflexivity.
  - discriminate.
  - intros h [E | []]. discriminate E.
  - reflexivity.
  - reflexivity.
Defined.

(* ================================================================== *)
(** * A token that lies across runs *)

Lemma text_of_rebuilt_runs (p : Paragraph) (items : list content_item) :
  (forall h, ~ In (N_hyperlink h) p) ->
  Forall (item_from p) items ->
  paragraph_text (flat_map plain_nodes items) = read_back (items_text items).
Proof.
  intros Hp. induction 1 as [|it items Hit _ IH]; [reflexivity|].
  simpl flat_map. rewrite paragraph_text_app, IH.
  unfold items_text. simpl map. rewrite concat_str_cons, read_back_append. f_equal.
  destruct it as [text src | text src | d src url | h]; try contradiction.
  - unfold paragraph_text. cbn [plain_nodes map node_text run_text item_text].
    rewrite concat_str_cons. change (concat_str []) with "". now rewrite append_empty_r.
  - now apply Hp in Hit.
Qed.

(** Property X19.  In a paragraph without hyperlinks, on the plain
    path, let the match start in the run [r] (the run the character map
    names at the offset of the match) and end in that run or in a later
    one, and let the value print as a text XML allows.  The call returns
    and puts in the place of the token one run with the value, a line
    feed for every carriage return, and the font of [r], all six
    attributes; the children in front of it carry the text in front of
    the match and those behind it the text behind the match (read back
    in the same way), so no piece of the token is left in any run. *)
Theorem token_across_runs so (p : Paragraph) (repl : dict) cv pos ph v rest i k o r t :
  (forall h, ~ In (N_hyperlink h) p) ->
  cv_given cv = false \/ is_hyperlink_placeholder ph = false ->
  sort (find_placeholders (paragraph_text p) repl) = (pos, ph, v) :: rest ->
  ph <> "" ->
  nth_error (fst (index_paragraph p)) (Z.to_nat pos) = Some (i, k, o) ->
  nth_error (snd (index_paragraph p)) i = Some (E_run r, t) ->
  xml_compatible (py_str so v) = true ->
  exists before after,
    _replace_in_paragraph so p repl cv
    = (before
         ++ [N_r {| run_text := read_back (py_str so v); run_font := run_font r |}]
         ++ after,
       Returned) /\
    paragraph_text before = read_back (take (Z.to_nat pos) (paragraph_text p)) /\
    paragraph_text after
    = read_back (drop (Z.to_nat pos + String.length ph) (paragraph_text p)).
Proof.
  intros Hp Hpath Hs Hph Hcm Hel Hx.
  assert (well_indexed p) as Hw by (intros h Hh; now apply Hp in Hh).
  destruct (sort_head_found _ _ _ _ _ _ Hs) as (Hin & Hpos & Hpos0).
  assert (find (paragraph_text p) ph = Z.of_nat (Z.to_nat pos)) as Hf by lia.
  assert (0 < String.length ph)%nat as Hlen by (destruct ph; [congruence | simpl; lia]).
  destruct (span_with_types p ph _ Hw Hf Hlen)
    as (si & sk & so' & ei & ek & eo & se & st & ee & te
        & Hr & Hcs & Hce & Hse & Hsk & Hso & Hsn & Hee & Hek & Heo & Hen).
  destruct (element_is_run p si se st Hp Hse) as (rs & -> & ->).
  destruct (element_is_run p ei ee te Hp Hee) as (re & -> & ->).
  cbn [elem_type] in Hsk, Hek. subst sk ek.
  rewrite index_paragraph_eq in Hcm, Hel. cbn [fst snd] in Hcm, Hel.
  rewrite Hcs in Hcm. injection Hcm as <- <- <-.
  rewrite Hse in Hel. injection Hel as <- <-.
  destruct (pass_anatomy so p repl cv pos ph v rest si so' Hw Hs Hph)
    as (rs' & tr & q & A & B & Hrs & _ & _ & Hqrun & HA & HB & TA & TB & _ & Hplain & _).
  { rewrite index_paragraph_eq. exact Hcs. }
  rewrite index_paragraph_eq in Hrs, Hqrun. cbn [fst snd] in Hrs, Hqrun.
  rewrite Hse in Hrs. injection Hrs as <-.
  rewrite (Hqrun _ _ Hce) in TB. clear Hqrun.
  exists (clear_paragraph p ++ flat_map plain_nodes A), (flat_map plain_nodes B).
  split; [|split].
  - rewrite Hplain.
    + rewrite rebuild_plain_path_nodes.
      * rewrite flat_map_app. cbn [flat_map plain_nodes app].
        rewrite copy_font_all_six, <- !app_assoc. reflexivity.
      * apply xml_values_app; [eapply item_from_xml_values; eauto|].
        constructor; [exact Hx | eapply item_from_xml_values; eauto].
    + destruct cv as [cvd|]; [|reflexivity].
      destruct Hpath as [Hc | Hc]; rewrite Hc; [now rewrite andb_false_r | reflexivity].
  - rewrite paragraph_text_app, paragraph_text_clear. cbn [append].
    now rewrite (text_of_rebuilt_runs p A Hp HA), TA.
  - now rewrite (text_of_rebuilt_runs p B Hp HB), TB.
Qed.

Lemma token_across_runs_witness :
  exists before after,
    _replace_in_paragraph (fun _ => "") cell_paragraph ann None
    = (before ++ [N_r {| run_text := "Ann"; run_font := arial_11_bold |}] ++ after,
       Returned) /\
    paragraph_text before = "" /\ paragraph_text after = "".
Proof.
  apply (token_across_runs (fun _ => "") cell_paragraph ann None 0 "{{NAME}}"
           (VStr "Ann") [] 0%nat run 0%nat
           {| run_text := "{{NA"; run_font := arial_11_bold |} "{{NA").
  - intros h [E | [E | []]]; discriminate E.
  - left. reflexivity.
  - reflexivity.
  - discriminate.
  - reflexivity.
  - reflexivity.
  - reflexivity.
Defined.

(* ================================================================== *)
(** * A profile URL that is not a string *)

(** Property X21.  Let every hyperlink of the paragraph be indexed by
    its whole text, and let the match of the pass be [{{GITHUB}}] or
    [{{LINKEDIN}}] and start in a run, with a profile whose URL for it
    is there but is not a string ([None] for an empty YAML value, a
    number).  Then [_add_hyperlink] raises [AttributeError] when the
    paragraph has already been cleared and rebuilt up to the token: the
    call leaves the paragraph with its properties block and the text in
    front of the token only (a carriage return read back as a line
    feed), the loop over the paragraph stops at that call, and
    [fill_paragraph] leaves with the exception. *)
Theorem url_not_a_string_raises so (p : Paragraph) (repl cvd : dict)
    pos ph v rest field url i o :
  well_indexed p ->
  nth_error (fst (index_paragraph p)) (Z.to_nat pos) = Some (i, run, o) ->
  In (ph, field) [("{{GITHUB}}", "github"); ("{{LINKEDIN}}", "linkedin")] ->
  sort (find_placeholders (paragraph_text p) repl) = (pos, ph, v) :: rest ->
  cvd <> [] ->
  profile_url cvd field = Ok url ->
  (forall u, url <> VStr u) ->
  exists q,
    _replace_in_paragraph so p repl (Some cvd) = (q, Raised AttributeError) /\
    fill_paragraph so repl cvd p = (q, Raised AttributeError, 1%nat) /\
    pPr q = pPr p /\
    read_back (paragraph_text q) = read_back (take (Z.to_nat pos) (paragraph_text p)).
Proof.
  intros Hw Hstart Hph Hs Hcv Hurl Hu.
  assert (ph <> "" /\ is_hyperlink_placeholder ph = true) as [Hne Hhp]
      by (destruct Hph as [E | [E | []]]; injection E as <- <-; split;
          [discriminate | reflexivity | discriminate | reflexivity]).
  destruct (pass_anatomy so p repl (Some cvd) pos ph v rest i o Hw Hs Hne Hstart)
    as (rs & tr & q0 & A & B & _ & _ & _ & _ & HA & HB & TA & _ & _ & _ & Hlink).
  assert (cv_given (Some cvd) = true) as Hg by (destruct cvd; [congruence | reflexivity]).
  destruct (Hlink cvd eq_refl) as (field' & display & Hd & E);
    [now rewrite Hhp, Hg|].
  assert (field' = field) as ->.
  { destruct Hph as [E1 | [E1 | []]]; injection E1 as <- <-;
      destruct Hd as [(E2 & -> & _) | (E2 & -> & _)]; try reflexivity; discriminate. }
  rewrite Hurl in E.
  rewrite (rebuild_hyperlink_path_raises p) in E by assumption.
  assert (has_placeholder (paragraph_text p) repl = true) as Hh
      by exact (sort_head_has_placeholder _ _ _ _ _ _ Hs).
  eexists. split; [exact E|]. split; [|split].
  - unfold fill_paragraph, max_iterations. cbn [fill_loop]. now rewrite Hh, E.
  - pose proof (pPr_replace_in_paragraph so p repl (Some cvd)) as P.
    now rewrite E in P.
  - rewrite paragraph_text_app, paragraph_text_clear. cbn [append].
    rewrite text_hyperlink_path_nodes by (eapply item_from_string_urls; eauto).
    now rewrite TA.
Qed.

Lemma url_not_a_string_raises_witness :
  exists q,
    _replace_in_paragraph (fun _ => "") github_in_the_middle [("{{GITHUB}}", VNone)]
      (Some null_github) = (q, Raised AttributeError) /\
    fill_paragraph (fun _ => "") [("{{GITHUB}}", VNone)] null_github github_in_the_middle
    = (q, Raised AttributeError, 1%nat) /\
    pPr q = pPr github_in_the_middle /\
    read_back (paragraph_text q) = "Code: ".
Proof.
  apply (url_not_a_string_raises (fun _ => "") github_in_the_middle
           [("{{GITHUB}}", VNone)] null_github 6 "{{GITHUB}}" VNone [] "github" VNone
           0%nat 6%nat).
  - intros h [E | []]. discriminate E.
  - reflexivity.
  - left. reflexivity.
  - reflexivity.
  - discriminate.
  - reflexivity.
  - intros u. discriminate.
Defined.

(* ================================================================== *)
(** * Filling a filled document *)

(** Property X22.  Let the map be the one the flattener makes of the
    profile, with values that have no opening brace, and let every
    paragraph that the body or a table cell lists have only hyperlinks
    that are indexed by their whole text and hold no opening brace, and
    at most 40 opening braces in its text.  If [fill_template] returns
    a document, filling that document again with the same profile
    returns the same document: the second run finds no token in any
    paragraph it visits and changes none. *)
Theorem fill_template_twice so (doc doc' : Document) (cv repl : dict) :
  _build_replacements so cv = Ok repl ->
  values_plain so repl ->
  (forall j q, In j (doc_paragraphs doc ++ table_visits (doc_tables doc)) ->
               nth_error (store doc) j = Some q ->
               plain_hyperlinks q /\ (braces (paragraph_text q) <= 40)%nat) ->
  fill_template so doc cv = Ok doc' ->
  fill_template so doc' cv = Ok doc'.
Proof.
  intros Hb Hv Hst Hf.
  pose proof (build_replacements_braced _ _ _ Hb) as Hk.
  pose proof (fill_template_visits so doc doc' cv repl Hb Hf) as F.
  assert (doc_paragraphs doc' = doc_paragraphs doc /\ doc_tables doc' = doc_tables doc)
    as [Ep Et].
  { unfold fill_template in Hf. rewrite Hb in Hf. cbn [bind] in Hf.
    destruct (fill_each so repl cv (doc_paragraphs doc) (store doc)) as [st1 [|e]];
      [|discriminate].
    destruct (fill_each so repl cv (table_visits (doc_tables doc)) st1) as [st2 [|e]];
      [|discriminate].
    injection Hf as <-. split; reflexivity. }
  assert (forall j q', In j (doc_paragraphs doc ++ table_visits (doc_tables doc)) ->
                       nth_error (store doc') j = Some q' ->
                       has_placeholder (paragraph_text q') repl = false) as Hfree.
  { intros j q' Hj Hq'.
    destruct (nth_error (store doc) j) as [q|] eqn:N.
    - destruct (Hst j q Hj N) as [Hp Hn].
      destruct (fill_each_fills so repl cv Hk Hv _ _ _ _ _ F N Hp Hn) as (q1 & Hq1 & Hend).
      rewrite Hq' in Hq1. injection Hq1 as <-. apply Hend. now right.
    - destruct (fill_each_frame _ _ _ _ _ _ _ F) as (L & _ & _).
      apply nth_error_None in N. rewrite <- L in N. apply nth_error_None in N.
      congruence. }
  unfold fill_template. rewrite Hb. cbn [bind]. rewrite Ep, Et.
  rewrite (fill_each_nothing_to_do so repl cv (doc_paragraphs doc) (store doc'))
    by (intros j q' Hj; apply Hfree; apply in_or_app; now left).
  rewrite (fill_each_nothing_to_do so repl cv (table_visits (doc_tables doc)) (store doc'))
    by (intros j q' Hj; apply Hfree; apply in_or_app; now right).
  destruct doc' as [st' ps ts]. cbn [store doc_paragraphs doc_tables] in *.
  now rewrite Ep, Et.
Qed.

Lemma fill_template_twice_witness :
  fill_template (fun _ => "") resume john = Ok resume_filled /\
  fill_template (fun _ => "") resume_filled john = Ok resume_filled.
Proof.
  split; [reflexivity|].
  apply (fill_template_twice (fun _ => "") resume resume_filled john john_map).
  - reflexivity.
  - intros k v H. simpl in H.
    repeat (destruct H as [H|H]; [injection H as <- <-; reflexivity|]).
    destruct H.
  - intros j q Hj H.
    destruct j as [|[|j]]; simpl in H; try (destruct j; discriminate);
      injection H as <-; (split; [|simpl; lia]);
      intros h Hh; simpl in Hh;
      repeat (destruct Hh as [Hh|Hh]; [discriminate|]); destruct Hh.
  - reflexivity.
Defined.
